(** * Timetable generator: a shallow embedding of [timetable-generator.js]

    The class [AdvancedTimetableGenerator] is embedded method by method,
    under the names of the source.  JavaScript objects become records,
    arrays become lists, and the weekly grid (an object whose keys are the
    day names, enumerated in insertion order) becomes an association list.
    The grid the schedulers mutate, the position in the stream of
    [Math.random()] values and the console form an explicit [World] that is
    threaded through a state-and-exception monad; the one exception the
    typed model can raise is the [TypeError] of reading a property of
    [undefined].  The optimizer works on a deep copy whose objects carry an
    identity, since it removes objects by [!==].

    The methods are [async] but await nothing that suspends; they are
    embedded as sequential code.  Arguments a method never reads
    ([faculties], and [timeslots] in [addBreaksAndLunch]) are left out, and
    [timetable] is the grid of the world.

    A string is the sequence of its code units, each below 256.  The
    numbers the source computes with are IEEE 754 doubles where it parses
    them out of strings (clock times), integers where it counts (lengths,
    the score) and exact quotients for the mean of the daily counts. *)

From Stdlib Require Import String Ascii List ZArith QArith Qround Lia Bool Arith
  Permutation SpecFloat.
Import ListNotations.
Local Open Scope string_scope.
Local Open Scope list_scope.
Local Open Scope Z_scope.

(** String concatenation, as in a template literal. *)
Infix "+++" := String.append (right associativity, at level 60).

(** ** JavaScript values used by the generator *)

(** Truthiness of a property that is either absent ([undefined]) or a
    string: only a non-empty string is truthy. *)
Definition truthy (v : option string) : bool :=
  match v with
  | Some (String _ _) => true
  | _ => false
  end.

(** [a === b] on properties that are absent or strings. *)
Definition opt_eqb (a b : option string) : bool :=
  match a, b with
  | Some x, Some y => String.eqb x y
  | None, None => true
  | _, _ => false
  end.

(** [x || d] on a numeric property: absent and [0] are falsy. *)
Definition num_or (x : option Z) (d : Z) : Z :=
  match x with
  | Some z => if z =? 0 then d else z
  | None => d
  end.

(** [s.split(sep)] for a one-character separator. *)
Fixpoint split (sep : ascii) (s : string) : list string :=
  match s with
  | EmptyString => [EmptyString]
  | String c r =>
      if Ascii.eqb c sep then EmptyString :: split sep r
      else match split sep r with
           | [] => [String c EmptyString]
           | h :: t => String c h :: t
           end
  end.

(** *** Doubles

    The Number type: binary64 with one NaN, as the Standard Library
    specifies it ([prec = 53], [emax = 1024], round to nearest, ties to
    even). *)
Definition double : Type := spec_float.

Definition double_NaN : double := S754_nan.

(** The double nearest to an integer. *)
Definition double_of_Z (z : Z) : double := binary_normalize 53 1024 z 0 false.

Definition double_add : double -> double -> double := SFadd 53 1024.
Definition double_sub : double -> double -> double := SFsub 53 1024.
Definition double_mul : double -> double -> double := SFmul 53 1024.

(** [a < b]; false when either is NaN. *)
Definition double_ltb : double -> double -> bool := SFltb.

(** The double nearest to [n / d], for [n >= 0] and [d > 0]. *)
Definition double_of_ratio (negative : bool) (n d : Z) : double :=
  match n with
  | Z0 => S754_zero negative
  | _ =>
      let '(q, e, l) := SFdiv_core_binary 53 1024 n 0 d 0 in
      binary_round_aux 53 1024 negative q e l
  end.

(** The double nearest to [m * 10 ^ k], for [m >= 0], with the sign given
    apart so that ["-0"] reads as negative zero. *)
Definition double_of_decimal (negative : bool) (m k : Z) : double :=
  match m with
  | Z0 => S754_zero negative
  | _ =>
      if 0 <=? k
      then binary_normalize 53 1024
             ((if negative then - m else m) * 10 ^ k) 0 negative
      else double_of_ratio negative m (10 ^ (- k))
  end.

(** *** [Number(s)]: the grammar of [StringNumericLiteral] *)

(** White space and line terminators among the code units below 256. *)
Definition is_space (c : ascii) : bool :=
  let n := nat_of_ascii c in
  ((9 <=? n) && (n <=? 13) || (n =? 32) || (n =? 160))%nat.

Fixpoint trim_start (s : list ascii) : list ascii :=
  match s with
  | c :: r => if is_space c then trim_start r else s
  | [] => []
  end.

Definition trim (s : list ascii) : list ascii :=
  rev (trim_start (rev (trim_start s))).

(** The value of [c] as a digit of the base, if it is one. *)
Definition digit_in (base : Z) (c : ascii) : option Z :=
  let n := Z.of_nat (nat_of_ascii c) in
  let v := if (48 <=? n) && (n <=? 57) then n - 48
           else if (97 <=? n) && (n <=? 102) then n - 87
           else if (65 <=? n) && (n <=? 70) then n - 55
           else base in
  if v <? base then Some v else None.

(** The longest run of digits at the head of [s]: its value on top of
    [acc], its length on top of [count], and what follows it. *)
Fixpoint read_digits (base : Z) (acc : Z) (count : nat) (s : list ascii)
  : Z * nat * list ascii :=
  match s with
  | c :: r =>
      match digit_in base c with
      | Some d => read_digits base (base * acc + d) (S count) r
      | None => (acc, count, s)
      end
  | [] => (acc, count, s)
  end.

(** [ExponentPart], optional, up to the end of the string. *)
Definition exponent_part (s : list ascii) : option Z :=
  match s with
  | [] => Some 0
  | c :: r =>
      if Ascii.eqb c "e" || Ascii.eqb c "E" then
        let '(negative, r) :=
          match r with
          | sign :: r' => if Ascii.eqb sign "-" then (true, r')
                          else if Ascii.eqb sign "+" then (false, r')
                          else (false, r)
          | [] => (false, r)
          end in
        match read_digits 10 0 0 r with
        | (_, O, _) => None
        | (e, S _, []) => Some (if negative then - e else e)
        | (_, S _, _ :: _) => None
        end
      else None
  end.

(** [StrUnsignedDecimalLiteral]: [Infinity], or digits with an optional
    fraction and exponent, at least one digit before the exponent. *)
Definition unsigned_decimal (negative : bool) (s : list ascii) : double :=
  if list_eq_dec ascii_dec s (list_ascii_of_string "Infinity")
  then S754_infinity negative
  else
    let '(whole, n_whole, r) := read_digits 10 0 0 s in
    let '(mantissa, n_fraction, r) :=
      match r with
      | c :: r' =>
          if Ascii.eqb c "." then read_digits 10 whole 0 r' else (whole, O, r)
      | [] => (whole, O, r)
      end in
    match (n_whole + n_fraction)%nat, exponent_part r with
    | S _, Some e => double_of_decimal negative mantissa (e - Z.of_nat n_fraction)
    | _, _ => double_NaN
    end.

(** The digits after [0x], [0o] or [0b]: at least one, up to the end. *)
Definition radix_literal (base : Z) (s : list ascii) : double :=
  match read_digits base 0 0 s with
  | (v, S _, []) => double_of_Z v
  | _ => double_NaN
  end.

(** [Number(s)]: white space is trimmed, the empty string is [0], a signed
    decimal literal or an unsigned hexadecimal, octal or binary literal is
    the double nearest to its value, and everything else is NaN. *)
Definition Number (s : string) : double :=
  match trim (list_ascii_of_string s) with
  | [] => S754_zero false
  | c :: r =>
      if Ascii.eqb c "-" then unsigned_decimal true r
      else if Ascii.eqb c "+" then unsigned_decimal false r
      else
        match r with
        | p :: r' =>
            if Ascii.eqb c "0" && (Ascii.eqb p "x" || Ascii.eqb p "X")
            then radix_literal 16 r'
            else if Ascii.eqb c "0" && (Ascii.eqb p "o" || Ascii.eqb p "O")
            then radix_literal 8 r'
            else if Ascii.eqb c "0" && (Ascii.eqb p "b" || Ascii.eqb p "B")
            then radix_literal 2 r'
            else unsigned_decimal false (c :: r)
        | [] => unsigned_decimal false (c :: r)
        end
  end.

(** Numbers that can be infinite: [Math.max()] of no arguments is
    [-Infinity] and [Math.min()] is [Infinity]. *)
Inductive num : Type :=
| Fin (z : Z)
| PosInf
| NegInf
| NaN.

Definition num_add (a b : num) : num :=
  match a, b with
  | Fin x, Fin y => Fin (x + y)
  | NaN, _ | _, NaN => NaN
  | PosInf, NegInf | NegInf, PosInf => NaN
  | PosInf, _ | _, PosInf => PosInf
  | NegInf, _ | _, NegInf => NegInf
  end.

Definition num_neg (a : num) : num :=
  match a with
  | Fin x => Fin (- x)
  | PosInf => NegInf
  | NegInf => PosInf
  | NaN => NaN
  end.

Definition num_sub (a b : num) : num := num_add a (num_neg b).

(** [a * k] for a finite non-zero constant [k]. *)
Definition num_scale (a : num) (k : Z) : num :=
  match a with
  | Fin x => Fin (x * k)
  | PosInf => if 0 <? k then PosInf else NegInf
  | NegInf => if 0 <? k then NegInf else PosInf
  | NaN => NaN
  end.

(** [Math.max(a, b)]. *)
Definition num_max (a b : num) : num :=
  match a, b with
  | NaN, _ | _, NaN => NaN
  | PosInf, _ | _, PosInf => PosInf
  | NegInf, x | x, NegInf => x
  | Fin x, Fin y => Fin (Z.max x y)
  end.

(** [Math.min(a, b)]. *)
Definition num_min (a b : num) : num :=
  match a, b with
  | NaN, _ | _, NaN => NaN
  | NegInf, _ | _, NegInf => NegInf
  | PosInf, x | x, PosInf => x
  | Fin x, Fin y => Fin (Z.min x y)
  end.

(** ** The catalogue *)

Module Course.
Record t : Type := mk {
  name : string;
  code : string;
  type : string;
  teacherId : option string;
  expectedStudents : option Z;
  credits : option Z;
  labCredits : option Z
}.
End Course.

Module Room.
Record t : Type := mk {
  name : string;
  type : string;
  capacity : Z
}.
End Room.

Module Timeslot.
(** The field [end] of the source is spelled [end_]. *)
Record t : Type := mk {
  start : string;
  end_ : string;
  type : string
}.
End Timeslot.

(** ** Entries of the grid *)

Module Entry.
(** One object pushed into a day's array: a theory session, a lab block, a
    break marker or the lunch marker.  Properties the object literal does
    not set are [None] (or [false] for the two flags). *)
Record t : Type := mk {
  time : string;
  course : string;
  code : option string;
  teacher : option string;
  room : option string;
  type : string;
  duration : option Z;
  credits : option Z;
  isBreak : bool;
  isLunch : bool
}.

Definition set_room (r : string) (e : t) : t :=
  mk (time e) (course e) (code e) (teacher e) (Some r) (type e)
     (duration e) (credits e) (isBreak e) (isLunch e).
End Entry.

(** The weekly grid: day name to that day's array, in key order. *)
Definition Timetable : Type := list (string * list Entry.t).

Module Constraints.
Record t : Type := mk {
  MAX_CLASSES_PER_DAY : Z;
  MAX_HOURS_PER_DAY : Z;
  LAB_DURATION : Z;
  MIN_BREAK_BETWEEN_CLASSES : Z;
  LUNCH_BREAK : Z;
  THEORY_DURATION : Z
}.

(** The caller's [constraints] argument: any subset of the keys. *)
Record overrides : Type := mk_overrides {
  o_MAX_CLASSES_PER_DAY : option Z;
  o_MAX_HOURS_PER_DAY : option Z;
  o_LAB_DURATION : option Z;
  o_MIN_BREAK_BETWEEN_CLASSES : option Z;
  o_LUNCH_BREAK : option Z;
  o_THEORY_DURATION : option Z
}.

Definition none : overrides := mk_overrides None None None None None None.

Definition pick (o : option Z) (d : Z) : Z :=
  match o with Some z => z | None => d end.

(** [{ ...base, ...o }] *)
Definition merge (base : t) (o : overrides) : t :=
  mk (pick (o_MAX_CLASSES_PER_DAY o) (MAX_CLASSES_PER_DAY base))
     (pick (o_MAX_HOURS_PER_DAY o) (MAX_HOURS_PER_DAY base))
     (pick (o_LAB_DURATION o) (LAB_DURATION base))
     (pick (o_MIN_BREAK_BETWEEN_CLASSES o) (MIN_BREAK_BETWEEN_CLASSES base))
     (pick (o_LUNCH_BREAK o) (LUNCH_BREAK base))
     (pick (o_THEORY_DURATION o) (THEORY_DURATION base)).
End Constraints.

(** [this.constraints], set once by the constructor. *)
Definition this_constraints : Constraints.t :=
  Constraints.mk 6 8 2 10 60 1.

Module SectionData.
Record t : Type := mk {
  department : string;
  semester : string;
  section : string;
  courses : list Course.t;
  rooms : list Room.t;
  timeslots : list Timeslot.t
}.
End SectionData.

(** ** The host: what the run takes from its environment *)

(** [random k] stands for the [k]-th call of [Math.random()]; an index
    [Math.floor(Math.random() * n)] is obtained from it by [random_index]
    below.  [localeCompare] is the collation of the host and [now] the text
    of [new Date().toISOString()]. *)
Record Host : Type := mkHost {
  random : nat -> nat;
  localeCompare : string -> string -> comparison;
  now : string
}.

(** ** State and exceptions *)

Inductive Exn : Type :=
| TypeError (what : string).

Record World : Type := mkWorld {
  grid : Timetable;
  draws : nat;
  console : list string
}.

Inductive Res (A : Type) : Type :=
| Ok (a : A) (w : World)
| Throw (e : Exn).
Arguments Ok {A} a w.
Arguments Throw {A} e.

Definition M (A : Type) : Type := World -> Res A.

Definition ret {A} (a : A) : M A := fun w => Ok a w.

Definition bind {A B} (m : M A) (k : A -> M B) : M B :=
  fun w => match m w with
           | Ok a w' => k a w'
           | Throw e => Throw e
           end.

Definition throw {A} (e : Exn) : M A := fun _ => Throw e.

Notation "x <- m ;; k" := (bind m (fun x => k))
  (at level 61, m at next level, right associativity).
Notation "m ;;; k" := (bind m (fun _ => k))
  (at level 61, right associativity).

(** Computations that read nothing and can only throw. *)
Definition E (A : Type) : Type := (Exn + A)%type.

Definition lift {A} (e : E A) : M A :=
  fun w => match e with
           | inr a => Ok a w
           | inl x => Throw x
           end.

(** ** Objects with string keys *)

Section Dict.
Context {V : Type}.

(** [obj[key]]; [None] is [undefined]. *)
Fixpoint lookup (key : string) (obj : list (string * V)) : option V :=
  match obj with
  | [] => None
  | (k, v) :: rest => if String.eqb k key then Some v else lookup key rest
  end.

(** [obj[key] = v]: an existing key keeps its place, a new one goes last. *)
Fixpoint assign (key : string) (v : V) (obj : list (string * V))
  : list (string * V) :=
  match obj with
  | [] => [(key, v)]
  | (k, x) :: rest =>
      if String.eqb k key then (k, v) :: rest
      else (k, x) :: assign key v rest
  end.

(** [Object.keys(obj)] *)
Definition keys (obj : list (string * V)) : list string := map fst obj.
End Dict.

(** [obj[key]] where the source goes on to use the value as an array. *)
Definition day_of {V} (key : string) (obj : list (string * list V)) : list V :=
  match lookup key obj with
  | Some l => l
  | None => []
  end.

(** ** Primitive effects *)

(** [Math.floor(Math.random() * n)]: one call of [Math.random()], giving an
    index below [n], and [0] when [n] is [0]. *)
Definition random_index (h : Host) (n : nat) : M nat :=
  fun w =>
    Ok (match n with
        | O => O
        | S _ => Nat.modulo (random h (draws w)) n
        end)
       (mkWorld (grid w) (S (draws w)) (console w)).

(** [timetable[day]], about to be used as an array. *)
Definition get_day (day : string) : M (list Entry.t) :=
  fun w =>
    match lookup day (grid w) with
    | Some l => Ok l w
    | None => Throw (TypeError "timetable[day] is undefined")
    end.

(** [timetable[day].push(e)] *)
Definition push_day (day : string) (e : Entry.t) : M unit :=
  fun w =>
    match lookup day (grid w) with
    | Some l =>
        Ok tt (mkWorld (assign day (l ++ [e]) (grid w)) (draws w) (console w))
    | None => Throw (TypeError "timetable[day] is undefined")
    end.

Definition set_grid (g : Timetable) : M unit :=
  fun w => Ok tt (mkWorld g (draws w) (console w)).

Definition get_grid : M Timetable := fun w => Ok (grid w) w.

(** [console.warn(msg)] *)
Definition console_warn (msg : string) : M unit :=
  fun w => Ok tt (mkWorld (grid w) (draws w) (console w ++ [msg])).

(** [arr.some(p)] where [p] may throw: stops at the first [true]. *)
Fixpoint some_E {A} (p : A -> E bool) (l : list A) : E bool :=
  match l with
  | [] => inr false
  | x :: rest =>
      match p x with
      | inl e => inl e
      | inr true => inr true
      | inr false => some_E p rest
      end
  end.

(** The template [`${slot.start}-${slot.end}`]; [slot] is [undefined] when
    it was read out of an empty array. *)
Definition slot_time (slot : option Timeslot.t) : E string :=
  match slot with
  | Some s => inr (Timeslot.start s +++ "-" +++ Timeslot.end_ s)
  | None => inl (TypeError "Cannot read properties of undefined (reading 'start')")
  end.

(** ** Room selection *)

Definition is_classroom (r : Room.t) : bool := String.eqb (Room.type r) "classroom".
Definition is_lab_room (r : Room.t) : bool := String.eqb (Room.type r) "lab".

Definition suitable (course : Course.t) (r : Room.t) : bool :=
  is_classroom r
  && (num_or (Course.expectedStudents course) 60 <=? Room.capacity r).

(** [arr[i].name] *)
Definition name_at (l : list Room.t) (i : nat) : M string :=
  match nth_error l i with
  | Some r => ret (Room.name r)
  | None => throw (TypeError "Cannot read properties of undefined (reading 'name')")
  end.

Definition findSuitableRoom (h : Host) (rooms : list Room.t) (course : Course.t)
  : M string :=
  let suitableRooms := filter (suitable course) rooms in
  match suitableRooms with
  | [] =>
      ret (match find is_classroom rooms with
           | Some r => if String.eqb (Room.name r) "" then "Room 201" else Room.name r
           | None => "Room 201"
           end)
  | _ :: _ =>
      i <- random_index h (length suitableRooms) ;;
      name_at suitableRooms i
  end.

Definition findLabRoom (h : Host) (rooms : list Room.t) (course : Course.t)
  : M string :=
  let labRooms := filter is_lab_room rooms in
  match labRooms with
  | [] => ret "Lab 101"
  | _ :: _ =>
      i <- random_index h (length labRooms) ;;
      name_at labRooms i
  end.

(** ** The conflict checks *)

(** The callback shared by the teacher and room tests of
    [canScheduleCourse]: [same && scheduledClass.time === `...`], the
    template being evaluated only when [same] holds. *)
Definition at_slot (slot : option Timeslot.t) (same : bool) (sc : Entry.t)
  : E bool :=
  if same
  then match slot_time slot with
       | inr t => inr (String.eqb (Entry.time sc) t)
       | inl e => inl e
       end
  else inr false.

Definition canScheduleCourse (h : Host) (day : string)
    (slot : option Timeslot.t) (course : Course.t) (rooms : list Room.t)
    (constraints : Constraints.t) : M bool :=
  daySchedule <- get_day day ;;
  teacherConflict <- lift (some_E (fun sc =>
      at_slot slot (opt_eqb (Entry.teacher sc) (Course.teacherId course)) sc)
    daySchedule) ;;
  if teacherConflict then ret false else
  room <- findSuitableRoom h rooms course ;;
  roomConflict <- lift (some_E (fun sc =>
      at_slot slot (opt_eqb (Entry.room sc) (Some room)) sc)
    daySchedule) ;;
  if roomConflict then ret false else
  if Constraints.MAX_CLASSES_PER_DAY constraints <=? Z.of_nat (length daySchedule)
  then ret false
  else ret true.

(** [`${course.code}L`] *)
Definition lab_code (course : Course.t) : string := Course.code course +++ "L".

Definition canScheduleLab (h : Host) (day : string)
    (slot : option Timeslot.t) (course : Course.t) (rooms : list Room.t)
    (constraints : Constraints.t) : M bool :=
  daySchedule <- get_day day ;;
  let teacherConflict :=
    existsb (fun sc => opt_eqb (Entry.teacher sc) (Course.teacherId course))
            daySchedule in
  if teacherConflict then ret false else
  labRoom <- findLabRoom h rooms course ;;
  let roomConflict :=
    existsb (fun sc => opt_eqb (Entry.room sc) (Some labRoom)) daySchedule in
  if roomConflict then ret false else
  timetable <- get_grid ;;
  let labScheduledThisWeek :=
    existsb (fun dayClasses =>
               existsb (fun sc => opt_eqb (Entry.code sc) (Some (lab_code course)))
                       dayClasses)
            (map snd timetable) in
  if labScheduledThisWeek then ret false else ret true.

(** ** The constructive phase *)

Definition week : list string :=
  ["Monday"; "Tuesday"; "Wednesday"; "Thursday"; "Friday"; "Saturday"].

Definition teaching_days : list string :=
  ["Monday"; "Tuesday"; "Wednesday"; "Thursday"; "Friday"].

Definition initializeTimetable : Timetable :=
  fold_left (fun timetable day => assign day [] timetable) week [].

(** [days[Math.floor(Math.random() * days.length)]] over the five teaching
    days; the index is always in range. *)
Definition getRandomDay (h : Host) : M string :=
  i <- random_index h (length teaching_days) ;;
  ret (nth i teaching_days "Monday").

Definition theory_entry (time room : string) (course : Course.t) : Entry.t :=
  Entry.mk time (Course.name course) (Some (Course.code course))
           (Course.teacherId course) (Some room) "theory" None
           (Course.credits course) false false.

Definition lab_entry (time room : string) (course : Course.t) : Entry.t :=
  Entry.mk time (Course.name course +++ " Lab") (Some (lab_code course))
           (Course.teacherId course) (Some room) "lab" (Some 2)
           (Some (num_or (Course.labCredits course) 1)) false false.

(** The [while (!scheduled && attempts < maxAttempts)] loop for one theory
    course; [budget] is [maxAttempts - attempts].  The result is the final
    value of [scheduled]. *)
Fixpoint theory_attempts (h : Host) (budget : nat)
    (theorySlots : list Timeslot.t) (course : Course.t) (rooms : list Room.t)
    (constraints : Constraints.t) : M bool :=
  match budget with
  | O => ret false
  | S budget' =>
      randomDay <- getRandomDay h ;;
      i <- random_index h (length theorySlots) ;;
      let randomSlot := nth_error theorySlots i in
      ok <- canScheduleCourse h randomDay randomSlot course rooms constraints ;;
      if ok then
        time <- lift (slot_time randomSlot) ;;
        room <- findSuitableRoom h rooms course ;;
        push_day randomDay (theory_entry time room course) ;;;
        ret true
      else
        theory_attempts h budget' theorySlots course rooms constraints
  end.

Definition is_kind (kind : string) (s : Timeslot.t) : bool :=
  String.eqb (Timeslot.type s) kind.

Definition schedule_one_theory (h : Host) (theorySlots : list Timeslot.t)
    (rooms : list Room.t) (constraints : Constraints.t) (course : Course.t)
  : M unit :=
  scheduled <- theory_attempts h 100 theorySlots course rooms constraints ;;
  if scheduled then ret tt
  else console_warn ("Could not schedule theory course: " +++ Course.name course).

(** [for (const x of xs) body(x)] *)
Fixpoint for_of {A} (body : A -> M unit) (xs : list A) : M unit :=
  match xs with
  | [] => ret tt
  | x :: rest => body x ;;; for_of body rest
  end.

Definition scheduleTheoryCourses (h : Host) (courses : list Course.t)
    (rooms : list Room.t) (timeslots : list Timeslot.t)
    (constraints : Constraints.t) : M unit :=
  let theorySlots := filter (is_kind "theory") timeslots in
  for_of (schedule_one_theory h theorySlots rooms constraints) courses.

Fixpoint lab_attempts (h : Host) (budget : nat)
    (labSlots : list Timeslot.t) (course : Course.t) (rooms : list Room.t)
    (constraints : Constraints.t) : M bool :=
  match budget with
  | O => ret false
  | S budget' =>
      d <- random_index h (length teaching_days) ;;
      let randomDay := nth d teaching_days "Monday" in
      i <- random_index h (length labSlots) ;;
      let randomSlot := nth_error labSlots i in
      ok <- canScheduleLab h randomDay randomSlot course rooms constraints ;;
      if ok then
        time <- lift (slot_time randomSlot) ;;
        room <- findLabRoom h rooms course ;;
        push_day randomDay (lab_entry time room course) ;;;
        ret true
      else
        lab_attempts h budget' labSlots course rooms constraints
  end.

Definition schedule_one_lab (h : Host) (labSlots : list Timeslot.t)
    (rooms : list Room.t) (constraints : Constraints.t) (course : Course.t)
  : M unit :=
  scheduled <- lab_attempts h 50 labSlots course rooms constraints ;;
  if scheduled then ret tt
  else console_warn ("Could not schedule lab course: " +++ Course.name course).

Definition scheduleLabCourses (h : Host) (courses : list Course.t)
    (rooms : list Room.t) (timeslots : list Timeslot.t)
    (constraints : Constraints.t) : M unit :=
  let labSlots := filter (is_kind "lab") timeslots in
  for_of (schedule_one_lab h labSlots rooms constraints) courses.

(** ** Breaks and lunch *)

(** [time.split('-')[0]]: always defined. *)
Definition start_of (e : Entry.t) : string :=
  hd EmptyString (split "-" (Entry.time e)).

(** [time.split('-')[1]]: [undefined] when the time holds no dash. *)
Definition end_of (e : Entry.t) : option string :=
  nth_error (split "-" (Entry.time e)) 1.

(** An element of [t.split(':').map(Number)] read by destructuring: a
    missing element is [undefined], which is NaN in arithmetic. *)
Definition part (parts : list double) (i : nat) : double :=
  match nth_error parts i with
  | Some v => v
  | None => double_NaN
  end.

(** [getTimeDifference(time1, time2)], computed in doubles.  [time1] is
    [undefined] when it was read past the end of a split. *)
Definition getTimeDifference (time1 : option string) (time2 : string)
  : E double :=
  match time1 with
  | None => inl (TypeError "Cannot read properties of undefined (reading 'split')")
  | Some t1 =>
      let p1 := map Number (split ":" t1) in
      let p2 := map Number (split ":" time2) in
      let h1 := part p1 0 in
      let m1 := part p1 1 in
      let h2 := part p2 0 in
      let m2 := part p2 1 in
      inr (double_add (double_mul (double_sub h2 h1) (double_of_Z 60))
                      (double_sub m2 m1))
  end.

(** [x > bound] for an integer bound; false when [x] is NaN. *)
Definition exceeds (x : double) (bound : Z) : bool :=
  double_ltb (double_of_Z bound) x.

Definition break_entry (currentEnd nextStart : string) : Entry.t :=
  Entry.mk (currentEnd +++ "-" +++ nextStart) "Break" None None None "break"
           None None true false.

Definition lunchTime : string := "12:00-1:00".

Definition lunch_entry : Entry.t :=
  Entry.mk lunchTime "Lunch" None None None "lunch" None None false true.

(** The loop that copies the sorted day into [updatedSchedule], adding a
    break after every class but the last when the gap calls for one.  The
    bound is read from [this.constraints]. *)
Fixpoint with_breaks (daySchedule : list Entry.t) : E (list Entry.t) :=
  match daySchedule with
  | [] => inr []
  | current :: rest =>
      match rest with
      | [] => inr [current]
      | next :: _ =>
          let currentEnd := end_of current in
          let nextStart := start_of next in
          match getTimeDifference currentEnd nextStart with
          | inl e => inl e
          | inr diff =>
              match with_breaks rest with
              | inl e => inl e
              | inr updated =>
                  if exceeds diff
                       (Constraints.MIN_BREAK_BETWEEN_CLASSES this_constraints)
                  then inr (current
                            :: break_entry (match currentEnd with
                                            | Some s => s
                                            | None => "undefined"
                                            end) nextStart
                            :: updated)
                  else inr (current :: updated)
              end
          end
      end
  end.

(** [arr.sort(cmp)], a stable sort: an element goes after those it does not
    precede. *)
Fixpoint insert_by {A} (cmp : A -> A -> comparison) (x : A) (l : list A)
  : list A :=
  match l with
  | [] => [x]
  | y :: rest =>
      match cmp x y with
      | Gt => y :: insert_by cmp x rest
      | _ => x :: l
      end
  end.

Definition sort_by {A} (cmp : A -> A -> comparison) (l : list A) : list A :=
  fold_right (insert_by cmp) [] l.

(** [a >= b] on strings, [a] possibly [undefined] (then false). *)
Definition str_geb (a : option string) (b : string) : bool :=
  match a with
  | Some s => String.leb b s
  | None => false
  end.

Fixpoint findIndex {A} (p : A -> bool) (l : list A) : option nat :=
  match l with
  | [] => None
  | x :: rest =>
      if p x then Some O
      else match findIndex p rest with
           | Some i => Some (S i)
           | None => None
           end
  end.

(** [arr.splice(i, 0, x)] *)
Definition splice_in {A} (i : nat) (x : A) (l : list A) : list A :=
  firstn i l ++ x :: skipn i l.

Definition with_lunch (updatedSchedule : list Entry.t) : list Entry.t :=
  let hasClassDuringLunch :=
    existsb (fun cls =>
               String.eqb (Entry.time cls) lunchTime
               || (String.leb (start_of cls) "12:00"
                   && str_geb (end_of cls) "1:00"))
            updatedSchedule in
  if hasClassDuringLunch then updatedSchedule
  else match findIndex (fun cls => str_geb (end_of cls) "12:00") updatedSchedule with
       | Some lunchIndex => splice_in (S lunchIndex) lunch_entry updatedSchedule
       | None => updatedSchedule
       end.

(** The body of the [days.forEach] of [addBreaksAndLunch] for one day. *)
Definition inject_day (h : Host) (daySchedule : list Entry.t)
  : E (list Entry.t) :=
  let sorted :=
    sort_by (fun a b => localeCompare h (start_of a) (start_of b)) daySchedule in
  match with_breaks sorted with
  | inl e => inl e
  | inr updatedSchedule => inr (with_lunch updatedSchedule)
  end.

Definition set_day (day : string) (l : list Entry.t) : M unit :=
  fun w => Ok tt (mkWorld (assign day l (grid w)) (draws w) (console w)).

Definition addBreaksAndLunch (h : Host) : M unit :=
  timetable <- get_grid ;;
  for_of (fun day =>
            daySchedule <- get_day day ;;
            updatedSchedule <- lift (inject_day h daySchedule) ;;
            set_day day updatedSchedule)
         (keys timetable).

(** ** The optimizer *)

Module Obj.
(** An entry together with its identity: [ref] tells apart two objects
    with equal properties, which is what [!==] on objects compares. *)
Record t : Type := mk {
  ref : nat;
  val : Entry.t
}.
End Obj.

(** The grid the optimizer works on. *)
Definition Heap : Type := list (string * list Obj.t).

Fixpoint fresh_from (next : nat) (l : list Entry.t) : list Obj.t :=
  match l with
  | [] => []
  | e :: rest => Obj.mk next e :: fresh_from (S next) rest
  end.

(** [JSON.parse(JSON.stringify(timetable))]: same keys, same properties,
    every object new. *)
Fixpoint deep_copy (next : nat) (timetable : Timetable) : Heap :=
  match timetable with
  | [] => []
  | (day, classes) :: rest =>
      (day, fresh_from next classes)
        :: deep_copy (next + length classes)%nat rest
  end.

(** Forgetting identities. *)
Definition contents (timetable : Heap) : Timetable :=
  map (fun dc => (fst dc, map Obj.val (snd dc))) timetable.

(** [`${v}`] *)
Definition text (v : option string) : string :=
  match v with
  | Some s => s
  | None => "undefined"
  end.

Definition slot_key (day : string) (time : string) (who : option string)
  : string :=
  day +++ "_" +++ time +++ "_" +++ text who.

(** The properties every object created by [{}] inherits from
    [Object.prototype].  A read of one of these names finds a function, or
    the prototype itself for [__proto__], before anything was assigned:
    all are truthy. *)
Definition Object_prototype : list string :=
  ["constructor"; "__defineGetter__"; "__defineSetter__"; "hasOwnProperty";
   "__lookupGetter__"; "__lookupSetter__"; "isPrototypeOf";
   "propertyIsEnumerable"; "toString"; "valueOf"; "__proto__";
   "toLocaleString"].

Definition inherited (key : string) : bool :=
  existsb (String.eqb key) Object_prototype.

(** The truthiness of [table[key]] on an object that started as [{}] and
    on which the listed keys were set to [true]: the key was set, or it
    names an inherited property.  (The source assigns a key only after
    this test failed, hence never an inherited one.) *)
Definition has_key (key : string) (table : list string) : bool :=
  inherited key || existsb (String.eqb key) table.

Definition not_day (day : string) (d : string) : bool := negb (String.eqb d day).

Definition same_object (a b : Obj.t) : bool := Nat.eqb (Obj.ref a) (Obj.ref b).

(** [timetable[to].push(cls); timetable[from] = timetable[from].filter(c => c !== cls)] *)
Definition move_object (timetable : Heap) (from to : string) (cls : Obj.t)
  : Heap :=
  let pushed := assign to (day_of to timetable ++ [cls]) timetable in
  assign from
         (filter (fun c => negb (same_object c cls)) (day_of from pushed))
         pushed.

Definition moveClassToResolveConflict (timetable : Heap) (day : string)
    (classToMove : Obj.t) : Heap :=
  let otherDays := filter (not_day day) (keys timetable) in
  let hasConflict otherDay :=
    existsb (fun cls =>
               String.eqb (Entry.time (Obj.val cls))
                          (Entry.time (Obj.val classToMove))
               && opt_eqb (Entry.teacher (Obj.val cls))
                          (Entry.teacher (Obj.val classToMove)))
            (day_of otherDay timetable) in
  match find (fun otherDay => negb (hasConflict otherDay)) otherDays with
  | Some otherDay => move_object timetable day otherDay classToMove
  | None => timetable
  end.

Definition is_marker (e : Entry.t) : bool :=
  Entry.isBreak e || Entry.isLunch e.

(** The callback of the inner [forEach] of [resolveTeacherConflicts]. *)
Definition teacher_visit (day : string) (st : Heap * list string)
    (cls : Obj.t) : Heap * list string :=
  let (timetable, teacherSchedule) := st in
  let e := Obj.val cls in
  if truthy (Entry.teacher e) && negb (is_marker e) then
    let key := slot_key day (Entry.time e) (Entry.teacher e) in
    if has_key key teacherSchedule
    then (moveClassToResolveConflict timetable day cls, teacherSchedule)
    else (timetable, key :: teacherSchedule)
  else st.

(** The outer [forEach] runs over the pairs [Object.entries] returned, whose
    arrays are the grid's own.  A move replaces only the array of the day
    being visited and pushes onto the arrays of other days, so when the
    iteration reaches a day its array is still the grid's and holds what was
    pushed so far; that is the list read here. *)
Definition resolveTeacherConflicts (timetable : Heap) : Heap :=
  fst (fold_left
         (fun st day => fold_left (teacher_visit day) (day_of day (fst st)) st)
         (keys timetable) (timetable, [])).

Definition findAlternativeRoom (currentRoom : option string) : string :=
  let alternativeRooms := ["Room 202"; "Room 203"; "Room 204"; "Room 205"] in
  match find (fun room => negb (opt_eqb (Some room) currentRoom)) alternativeRooms with
  | Some room => room
  | None => "Room 201"
  end.

(** The inner [forEach] of [resolveRoomConflicts] over one day: objects are
    updated in place, so the day's array keeps its elements and order. *)
Fixpoint room_scan (day : string) (roomSchedule : list string)
    (classes : list Obj.t) : list Obj.t * list string :=
  match classes with
  | [] => ([], roomSchedule)
  | cls :: rest =>
      let e := Obj.val cls in
      if truthy (Entry.room e) && negb (is_marker e) then
        let key := slot_key day (Entry.time e) (Entry.room e) in
        if has_key key roomSchedule
        then let (rest', seen) := room_scan day roomSchedule rest in
             (Obj.mk (Obj.ref cls)
                     (Entry.set_room (findAlternativeRoom (Entry.room e)) e)
                :: rest', seen)
        else let (rest', seen) := room_scan day (key :: roomSchedule) rest in
             (cls :: rest', seen)
      else let (rest', seen) := room_scan day roomSchedule rest in
           (cls :: rest', seen)
  end.

Fixpoint room_days (roomSchedule : list string) (timetable : Heap) : Heap :=
  match timetable with
  | [] => []
  | (day, classes) :: rest =>
      let (classes', seen) := room_scan day roomSchedule classes in
      (day, classes') :: room_days seen rest
  end.

Definition resolveRoomConflicts (timetable : Heap) : Heap :=
  room_days [] timetable.

Definition is_session (e : Entry.t) : bool :=
  String.eqb (Entry.type e) "theory" || String.eqb (Entry.type e) "lab".

Definition is_theory (e : Entry.t) : bool := String.eqb (Entry.type e) "theory".

(** One step of the [classesToMove.forEach] of [redistributeClasses]. *)
Definition redistribute_one (fromDay : string) (otherDays : list string)
    (timetable : Heap) (cls : Obj.t) : Heap :=
  let lighter day :=
    (length (day_of day timetable) <? length (day_of fromDay timetable))%nat in
  let targetDay :=
    match find lighter otherDays with
    | Some (String c r) => Some (String c r)
    | _ => hd_error otherDays
    end in
  match targetDay with
  | Some (String c r) => move_object timetable fromDay (String c r) cls
  | _ => timetable
  end.

Definition redistributeClasses (timetable : Heap) (fromDay : string)
    (numClassesToMove : nat) : Heap :=
  let classesToMove :=
    firstn numClassesToMove
           (filter (fun cls => is_theory (Obj.val cls)) (day_of fromDay timetable)) in
  let otherDays := filter (not_day fromDay) (keys timetable) in
  fold_left (redistribute_one fromDay otherDays) classesToMove timetable.

Definition workload (classes : list Obj.t) : Z :=
  Z.of_nat (length (filter (fun cls => is_session (Obj.val cls)) classes)).

(** The mean is an exact quotient here.  The source divides the two
    integers in floating point; for the counts a week can hold that decides
    [count > avg + 1] and [Math.floor(count - avg)] the same way, the exact
    values being a multiple of one over the number of days away from any
    integer they differ from. *)
Definition average (counts : list Z) : Q :=
  let total := fold_left Z.add counts 0 in
  let n := Z.of_nat (length counts) in
  (inject_Z total / inject_Z n)%Q.

(** [dayWorkload[day] = n] on an object created by [{}] sets an own
    property, except for the key [__proto__], whose setter drops a number:
    that day is in neither [Object.values] nor [Object.entries]. *)
Definition settable (dc : string * list Obj.t) : bool :=
  negb (String.eqb (fst dc) "__proto__").

Definition balanceDailyWorkload (timetable : Heap) (constraints : Constraints.t)
  : Heap :=
  let dayWorkload :=
    map (fun dc => (fst dc, workload (snd dc))) (filter settable timetable) in
  let avgClasses := average (map snd dayWorkload) in
  fold_left
    (fun timetable dayCount =>
       let (day, count) := dayCount : string * Z in
       if negb (Qle_bool (inject_Z count) (avgClasses + 1)%Q)
       then redistributeClasses timetable day
              (Z.to_nat (Qfloor (inject_Z count - avgClasses)%Q))
       else timetable)
    dayWorkload timetable.

Definition optimizeTimetable (timetable : Timetable)
    (constraints : Constraints.t) : Heap :=
  let optimized := deep_copy 0 timetable in
  let optimized := resolveTeacherConflicts optimized in
  let optimized := resolveRoomConflicts optimized in
  balanceDailyWorkload optimized constraints.

(** ** The entry point *)

Module Generated.
(** The object [generateTimetable] resolves to: the days of the optimized
    grid and three more properties. *)
Record t : Type := mk {
  days : Timetable;
  sectionId : string;
  generatedAt : string;
  constraints : Constraints.t
}.
End Generated.

(** Everything up to the end of lab placement. *)
Definition construct (h : Host) (sectionData : SectionData.t)
    (finalConstraints : Constraints.t) : M unit :=
  let courses := SectionData.courses sectionData in
  let rooms := SectionData.rooms sectionData in
  let timeslots := SectionData.timeslots sectionData in
  set_grid initializeTimetable ;;;
  let theoryCourses := filter (fun c => String.eqb (Course.type c) "theory") courses in
  let labCourses := filter (fun c => String.eqb (Course.type c) "lab") courses in
  scheduleTheoryCourses h theoryCourses rooms timeslots finalConstraints ;;;
  scheduleLabCourses h labCourses rooms timeslots finalConstraints.

Definition generateTimetable (h : Host) (sectionData : SectionData.t)
    (constraints : Constraints.overrides) : M Generated.t :=
  let finalConstraints := Constraints.merge this_constraints constraints in
  construct h sectionData finalConstraints ;;;
  addBreaksAndLunch h ;;;
  timetable <- get_grid ;;
  let optimizedTimetable := optimizeTimetable timetable finalConstraints in
  ret (Generated.mk
         (contents optimizedTimetable)
         (SectionData.department sectionData +++ "-"
            +++ SectionData.semester sectionData +++ "-"
            +++ SectionData.section sectionData)
         (now h)
         finalConstraints).

(** A run starts with no draw made and nothing on the console; the grid
    variable is not yet bound. *)
Definition boot : World := mkWorld [] 0 [].

(** ** The scorer *)

Definition double_booked (kind : string) (who : option string)
    (day time : string) : string :=
  kind +++ " " +++ text who +++ " double booked on " +++ day +++ " at " +++ time.

(** The callback of the inner [forEach] of [detectConflicts]; the state is
    [(conflicts, teacherSlots, roomSlots)]. *)
Definition detect_visit (day : string)
    (st : list string * list string * list string) (cls : Entry.t)
  : list string * list string * list string :=
  let '(conflicts, teacherSlots, roomSlots) := st in
  if truthy (Entry.teacher cls) && truthy (Entry.room cls) then
    let teacherKey := slot_key day (Entry.time cls) (Entry.teacher cls) in
    let roomKey := slot_key day (Entry.time cls) (Entry.room cls) in
    let '(conflicts, teacherSlots) :=
      if has_key teacherKey teacherSlots
      then (conflicts ++ [double_booked "Teacher" (Entry.teacher cls) day (Entry.time cls)],
            teacherSlots)
      else (conflicts, teacherKey :: teacherSlots) in
    let '(conflicts, roomSlots) :=
      if has_key roomKey roomSlots
      then (conflicts ++ [double_booked "Room" (Entry.room cls) day (Entry.time cls)],
            roomSlots)
      else (conflicts, roomKey :: roomSlots) in
    (conflicts, teacherSlots, roomSlots)
  else st.

Definition detectConflicts (timetable : Timetable) : list string :=
  fst (fst (fold_left
              (fun st dc => fold_left (detect_visit (fst dc)) (snd dc) st)
              timetable ([], [], []))).

Definition session_count (day : list Entry.t) : Z :=
  Z.of_nat (length (filter is_session day)).

(** [Math.max(...xs)] and [Math.min(...xs)] *)
Definition Math_max (xs : list Z) : num :=
  fold_left (fun m x => num_max m (Fin x)) xs NegInf.

Definition Math_min (xs : list Z) : num :=
  fold_left (fun m x => num_min m (Fin x)) xs PosInf.

Definition calculateBalanceScore (timetable : Timetable) : num :=
  let dayCounts := map (fun dc => session_count (snd dc)) timetable in
  let max := Math_max dayCounts in
  let min := Math_min dayCounts in
  num_scale (num_sub max min) (-5).

Definition calculateTimetableScore (timetable : Timetable) : num :=
  let score := Fin 100 in
  let conflicts := detectConflicts timetable in
  let score := num_sub score (Fin (Z.of_nat (length conflicts) * 10)) in
  let balanceScore := calculateBalanceScore timetable in
  let score := num_add score balanceScore in
  num_max (Fin 0) score.

(** * Vocabulary of the properties *)

(** ** What the properties speak of *)

(** What a world keeps when only random numbers are drawn. *)
Definition same_store (w w' : World) : Prop :=
  grid w' = grid w /\ console w' = console w.

Definition week_has (code : string) (timetable : Timetable) : bool :=
  existsb (fun dayClasses =>
             existsb (fun sc => opt_eqb (Entry.code sc) (Some code)) dayClasses)
          (map snd timetable).

Definition time_of_slot (s : Timeslot.t) : string :=
  Timeslot.start s +++ "-" +++ Timeslot.end_ s.

(** A theory session was pushed onto a teaching day that was below the
    ceiling. *)
Definition theory_step (constraints : Constraints.t) (slots : list Timeslot.t)
    (g g' : Timetable) : Prop :=
  exists day l s room course,
    In day teaching_days
    /\ lookup day g = Some l
    /\ Z.of_nat (length l) < Constraints.MAX_CLASSES_PER_DAY constraints
    /\ In s slots
    /\ g' = assign day (l ++ [theory_entry (time_of_slot s) room course]) g.

(** A lab block was pushed onto a teaching day of a week that held no entry
    with its code. *)
Definition lab_step (slots : list Timeslot.t) (g g' : Timetable) : Prop :=
  exists day l s room course,
    In day teaching_days
    /\ lookup day g = Some l
    /\ week_has (lab_code course) g = false
    /\ In s slots
    /\ g' = assign day (l ++ [lab_entry (time_of_slot s) room course]) g.

(** Every element of every day, in key order. *)
Definition elements {V} (obj : list (string * list V)) : list V :=
  concat (map snd obj).

Definition marker_type (e : Entry.t) : bool :=
  String.eqb (Entry.type e) "break" || String.eqb (Entry.type e) "lunch".

(** [l'] holds the elements of [l] and, besides, only markers. *)
Definition injected (l l' : list Entry.t) : Prop :=
  exists markers,
    Permutation l' (l ++ markers)
    /\ Forall (fun m => marker_type m = true) markers.

Definition refs (l : list Obj.t) : list nat := map Obj.ref l.

(** Keys are distinct (it is an object) and no object occurs twice. *)
Definition well_formed (timetable : Heap) : Prop :=
  NoDup (keys timetable) /\ NoDup (refs (elements timetable)).

(** A step that leaves the grid alone or moves [cls] out of [from]. *)
Definition step_from (from : string) (timetable : Heap) (cls : Obj.t)
    (timetable' : Heap) : Prop :=
  timetable' = timetable
  \/ exists to, to <> from /\ In to (keys timetable)
                /\ timetable' = move_object timetable from to cls.

(** A run of such steps, one per listed object. *)
Inductive moves_from (from : string) : list Obj.t -> Heap -> Heap -> Prop :=
| moves_nil timetable : moves_from from [] timetable timetable
| moves_cons cls rest t0 t1 t2 :
    step_from from t0 cls t1 ->
    moves_from from rest t1 t2 ->
    moves_from from (cls :: rest) t0 t2.

(** What every pass of the optimizer that only moves objects maintains. *)
Definition rearranged (t0 t1 : Heap) : Prop :=
  well_formed t1 /\ keys t1 = keys t0
  /\ Permutation (elements t1) (elements t0).

Definition same_but_room (e e' : Entry.t) : Prop :=
  e' = e \/ exists r, e' = Entry.set_room r e.

Definition reroomed (o o' : Obj.t) : Prop :=
  Obj.ref o' = Obj.ref o /\ same_but_room (Obj.val o) (Obj.val o').

(** A property of the list of entries that the optimizer cannot break: it
    ignores order and it ignores rooms. *)
Definition stable (Q : list Entry.t -> Prop) : Prop :=
  (forall a b, Permutation a b -> Q a -> Q b)
  /\ (forall a b, Forall2 same_but_room a b -> Q a -> Q b).

Definition is_lab (e : Entry.t) : bool := String.eqb (Entry.type e) "lab".

(** An entry that is the lab block of the course with code [code]. *)
Definition lab_block_of (code : string) (e : Entry.t) : bool :=
  is_lab e && opt_eqb (Entry.code e) (Some (code +++ "L")).

(** The number of lab blocks of that course among [l]. *)
Definition lab_blocks (code : string) (l : list Entry.t) : nat :=
  length (filter (lab_block_of code) l).

(** A lab block spans one lab slot of the catalogue and records two hours. *)
Definition one_lab_span (timeslots : list Timeslot.t) (e : Entry.t) : Prop :=
  Entry.duration e = Some 2
  /\ exists s, In s timeslots /\ Timeslot.type s = "lab"
               /\ Entry.time e = Timeslot.start s +++ "-" +++ Timeslot.end_ s.

Definition labs_ok (timeslots : list Timeslot.t) (l : list Entry.t) : Prop :=
  (forall code, (lab_blocks code l <= 1)%nat)
  /\ (forall e, In e l -> is_lab e = true -> one_lab_span timeslots e).

(** The grid as the scorer walks it: every entry with its day, days in key
    order. *)
Definition scan (timetable : Timetable) : list (string * Entry.t) :=
  flat_map (fun dc => map (pair (fst dc)) (snd dc)) timetable.

(** The entries conflict detection looks at. *)
Definition counted (de : string * Entry.t) : bool :=
  truthy (Entry.teacher (snd de)) && truthy (Entry.room (snd de)).

(** The (day, time, teacher) of an entry, rendered as the key the source
    compares. *)
Definition teacher_key (de : string * Entry.t) : string :=
  slot_key (fst de) (Entry.time (snd de)) (Entry.teacher (snd de)).

Definition room_key (de : string * Entry.t) : string :=
  slot_key (fst de) (Entry.time (snd de)) (Entry.room (snd de)).

Definition teacher_keys (timetable : Timetable) : list string :=
  map teacher_key (filter counted (scan timetable)).

Definition room_keys (timetable : Timetable) : list string :=
  map room_key (filter counted (scan timetable)).

(** No ["_"] in the string: such a day or time cannot run into the next
    part of a key. *)
Fixpoint underscore_free (s : string) : bool :=
  match s with
  | EmptyString => true
  | String c r => negb (Ascii.eqb c "_") && underscore_free r
  end.

(** The number of occurrences that duplicate an earlier one: all
    occurrences less one for each distinct value. *)
Definition repeats (l : list string) : nat :=
  (length l - length (nodup string_dec l))%nat.

(** The same count, taken left to right against the values seen so far. *)
Fixpoint dups (seen : list string) (l : list string) : nat :=
  match l with
  | [] => O
  | k :: rest =>
      if has_key k seen then S (dups seen rest) else dups (k :: seen) rest
  end.

(** A room of the classroom type, of the lab type. *)
Definition classroom (r : Room.t) : Prop := Room.type r = "classroom".

Definition lab_room (r : Room.t) : Prop := Room.type r = "lab".

(** The expected enrolment of a course: the number it states, or 60 when
    it states none or states 0. *)
Definition enrolment (course : Course.t) : Z :=
  match Course.expectedStudents course with
  | Some (Zpos p) => Zpos p
  | Some (Zneg p) => Zneg p
  | Some Z0 | None => 60
  end.

(** The room seats the course. *)
Definition seats (course : Course.t) (r : Room.t) : Prop :=
  enrolment course <= Room.capacity r.

(** [r] is the first classroom of the list. *)
Definition first_classroom (rooms : list Room.t) (r : Room.t) : Prop :=
  exists before after,
    rooms = before ++ r :: after
    /\ (forall x, In x before -> ~ classroom x)
    /\ classroom r.

(** The session counts of the days, in key order. *)
Definition day_counts (timetable : Timetable) : list Z :=
  map (fun dc => session_count (snd dc)) timetable.

(** The occurrences a scan against a fresh [{}] flags: every occurrence of
    a key that names an inherited property, and every occurrence of another
    key but its first. *)
Definition flagged (l : list string) : nat :=
  (length l
   - length (nodup string_dec (filter (fun k => negb (inherited k)) l)))%nat.

(** A booking: a day, a time and who is booked, a teacher or a room. *)
Definition booking : Type := (string * string * option string)%type.

Definition booking_eq_dec (a b : booking) : {a = b} + {a <> b}.
Proof. repeat decide equality. Defined.

Definition teacher_booking (de : string * Entry.t) : booking :=
  (fst de, Entry.time (snd de), Entry.teacher (snd de)).

Definition room_booking (de : string * Entry.t) : booking :=
  (fst de, Entry.time (snd de), Entry.room (snd de)).

(** The bookings of the entries that name both a teacher and a room. *)
Definition teacher_bookings (timetable : Timetable) : list booking :=
  map teacher_booking (filter counted (scan timetable)).

Definition room_bookings (timetable : Timetable) : list booking :=
  map room_booking (filter counted (scan timetable)).

(** The number of bookings that repeat an earlier one. *)
Definition double_bookings (l : list booking) : nat :=
  (length l - length (nodup booking_eq_dec l))%nat.

(** The theory and lab sessions of a day, counted by type. *)
Definition sessions_of (day : list Entry.t) : Z :=
  Z.of_nat (count_occ string_dec (map Entry.type day) "theory"
            + count_occ string_dec (map Entry.type day) "lab").

(** A day name: not empty and without ["_"]. *)
Definition is_day_name (d : string) : bool :=
  negb (String.eqb d "") && underscore_free d.

(** Day names and times that cannot run into the next part of a key. *)
Definition plain_labels (timetable : Timetable) : bool :=
  forallb is_day_name (keys timetable)
  && forallb (fun e => underscore_free (Entry.time e)) (elements timetable).

Definition theory_warning (course : Course.t) : string :=
  "Could not schedule theory course: " +++ Course.name course.

Definition lab_warning (course : Course.t) : string :=
  "Could not schedule lab course: " +++ Course.name course.

(** The course ran out of attempts in the run that ended in [w']: the only
    trace of it is the warning on the console. *)
Definition unplaced (w' : World) (course : Course.t) : Prop :=
  In (theory_warning course) (console w') \/ In (lab_warning course) (console w').

(** What a computation returns or throws, without the world it leaves. *)
Definition outcome {A} (r : Res A) : E A :=
  match r with
  | Ok a _ => inr a
  | Throw e => inl e
  end.

(** [d] holds fewer entries, markers included, than [from]. *)
Definition lighter (timetable : Heap) (from d : string) : Prop :=
  (length (day_of d timetable) < length (day_of from timetable))%nat.

(** The day a session is moved to: the first of the other days that is
    lighter than the source, or the first other day when none is. *)
Definition target_rule (others : list string) (timetable : Heap)
    (from to : string) : Prop :=
  exists before after,
    others = before ++ to :: after
    /\ (forall d, In d before -> ~ lighter timetable from d)
    /\ (lighter timetable from to
        \/ (before = []
            /\ forall d, In d (to :: after) -> ~ lighter timetable from d)).

(** [to] has the fewest sessions among the days other than [from]. *)
Definition fewest_sessions (timetable : Heap) (from to : string) : Prop :=
  to <> from
  /\ forall d, In d (keys timetable) -> d <> from ->
               workload (day_of to timetable) <= workload (day_of d timetable).

(** The pass with its two tests written in integers: [total] is the sum of
    the counts and [n] the number of days, both taken before any move. *)
Definition balance_in_integers (timetable : Heap) : Heap :=
  let dayWorkload := map (fun dc => (fst dc, workload (snd dc))) timetable in
  let total := fold_left Z.add (map snd dayWorkload) 0 in
  let n := Z.of_nat (length timetable) in
  fold_left
    (fun t dayCount =>
       if total + n <? n * snd dayCount
       then redistributeClasses t (fst dayCount)
              (Z.to_nat ((n * snd dayCount - total) / n))
       else t)
    dayWorkload timetable.

(** Sessions of a day that are neither break nor lunch. *)
Definition classes_on (day : string) (timetable : Timetable) : list Entry.t :=
  filter (fun e => negb (is_marker e)) (day_of day timetable).

(** ** Sample data *)

(** A host whose collation is the order of code units and whose random
    source replays [rs], then zeros. *)
Definition host_of (rs : list nat) : Host :=
  mkHost (fun k => nth k rs O) String.compare "2024-01-01T00:00:00.000Z".

Definition theory_course (name teacher : string) : Course.t :=
  Course.mk name name "theory" (Some teacher) (Some 50) (Some 3) None.

Definition lab_course (name teacher : string) : Course.t :=
  Course.mk name name "lab" (Some teacher) (Some 30) None None.

Definition R1 : Room.t := Room.mk "R1" "classroom" 60.
Definition R2 : Room.t := Room.mk "R2" "classroom" 60.

Definition slot_8 : Timeslot.t := Timeslot.mk "8:00" "8:40" "theory".
Definition slot_9 : Timeslot.t := Timeslot.mk "9:00" "9:40" "theory".
Definition slot_lab : Timeslot.t := Timeslot.mk "2:00" "4:00" "lab".

Definition empty_week : Timetable := map (fun day => (day, [])) week.

(** A week for the balancing pass: five sessions on Monday, one on Tuesday. *)
Definition lopsided_week : Heap :=
  deep_copy 0
    (assign "Tuesday"
       [theory_entry "8:00-8:40" "R1" (theory_course "C6" "T6")]
       (assign "Monday"
          [theory_entry "8:00-8:40" "R1" (theory_course "C1" "T1");
           theory_entry "9:00-9:40" "R1" (theory_course "C2" "T2");
           theory_entry "8:00-8:40" "R2" (theory_course "C3" "T3");
           theory_entry "9:00-9:40" "R2" (theory_course "C4" "T4");
           theory_entry "10:00-10:40" "R1" (theory_course "C5" "T5")]
          empty_week)).

Definition seven_labs : list Course.t :=
  [lab_course "L1" "T1"; lab_course "L2" "T2"; lab_course "L3" "T3";
   lab_course "L4" "T4"; lab_course "L5" "T5"; lab_course "L6" "T6";
   lab_course "L7" "T7"].

Definition seven_lab_rooms : list Room.t :=
  map (fun name => Room.mk name "lab" 30)
      ["Lab A"; "Lab B"; "Lab C"; "Lab D"; "Lab E"; "Lab F"; "Lab G"].

(** Seven lab courses with a teacher and a lab room each, and one lab slot. *)
Definition seven_labs_section : SectionData.t :=
  SectionData.mk "CSE" "3" "A" seven_labs seven_lab_rooms [slot_lab].

(** Per course: the day (Monday), the slot, the room checked, the room
    assigned. *)
Definition seven_labs_draws : list nat :=
  [0; 0; 0; 0;  0; 0; 1; 1;  0; 0; 2; 2;  0; 0; 3; 3;
   0; 0; 4; 4;  0; 0; 5; 5;  0; 0; 6; 6]%nat.

Definition two_lectures_section : SectionData.t :=
  SectionData.mk "CSE" "3" "A"
    [theory_course "C1" "T1"; theory_course "C2" "T2"] [R1] [slot_8; slot_9].

(** The caller asks for breaks only in gaps of more than 30 minutes. *)
Definition gap_30 : Constraints.overrides :=
  Constraints.mk_overrides None None None (Some 30) None None.

Definition R3 : Room.t := Room.mk "R3" "classroom" 60.

(** Two classrooms, of 30 and of 100 seats, and three lectures: two
    expecting 50 students, which only the larger room seats, and one
    expecting 200, which neither seats. *)
Definition two_classrooms_section : SectionData.t :=
  SectionData.mk "CSE" "3" "A"
    [theory_course "C1" "T1"; theory_course "C2" "T2";
     Course.mk "C3" "C3" "theory" (Some "T3") (Some 200) (Some 3) None]
    [Room.mk "Small" "classroom" 30; Room.mk "Large" "classroom" 100]
    [slot_8; slot_9].

(** A classroom of 20 seats whose name is the empty string. *)
Definition unnamed_room : Room.t := Room.mk "" "classroom" 20.

(** Eleven lectures: three on Monday at the same time in three rooms, two on
    each of Tuesday to Friday. *)
Definition eleven_lectures_section : SectionData.t :=
  SectionData.mk "CSE" "3" "A"
    [theory_course "M1" "T1"; theory_course "M2" "T2"; theory_course "M3" "T3";
     theory_course "U1" "T4"; theory_course "U2" "T5";
     theory_course "W1" "T6"; theory_course "W2" "T7";
     theory_course "H1" "T8"; theory_course "H2" "T9";
     theory_course "F1" "T10"; theory_course "F2" "T11"]
    [R1; R2; R3] [slot_8; slot_9].

(** Per course: the day, the slot, the room checked, the room assigned. *)
Definition eleven_lectures_draws : list nat :=
  [0; 0; 0; 0;  0; 0; 1; 1;  0; 0; 2; 2;
   1; 0; 0; 0;  1; 1; 0; 0;
   2; 0; 0; 0;  2; 1; 0; 0;
   3; 0; 0; 0;  3; 1; 0; 0;
   4; 0; 0; 0;  4; 1; 0; 0]%nat.

(** Two entries on Monday with the same time, teacher and room, one entry on
    Tuesday. *)
Definition double_booked_week : Timetable :=
  [("Monday",
    [theory_entry "8:00-8:40" "R1" (theory_course "C1" "T1");
     theory_entry "8:00-8:40" "R1" (theory_course "C2" "T1")]);
   ("Tuesday", [theory_entry "8:00-8:40" "R1" (theory_course "C3" "T1")])].


(** Monday already holds a lecture by teacher T1 at the only theory slot. *)
Definition monday_taken : World :=
  mkWorld (assign "Monday"
             [theory_entry "8:00-8:40" "R1" (theory_course "C1" "T1")]
             initializeTimetable) 0 [].

(** ** Claims that fail, as they are stated *)

(** C9 as stated: with no course, the grid has no session but does carry
    lunch or break markers, no course is reported unplaced, and the score is
    100. *)
Definition zero_courses_as_stated (h : Host) (sectionData : SectionData.t) : Prop :=
  exists g w',
    generateTimetable h sectionData Constraints.none boot = Ok g w'
    /\ (forall e, In e (elements (Generated.days g)) -> is_session e = false)
    /\ (exists e, In e (elements (Generated.days g)) /\ marker_type e = true)
    /\ console w' = []
    /\ calculateTimetableScore (Generated.days g) = Fin 100.

(** C7 as stated, for classrooms: the selector returns a classroom with
    enough seats when the list has one, otherwise a classroom of the list
    when it has one, otherwise the default. *)
Definition room_selection_as_stated : Prop :=
  forall h rooms course w,
    exists name w',
      findSuitableRoom h rooms course w = Ok name w'
      /\ ((exists r, In r rooms /\ classroom r /\ seats course r) ->
          exists r, In r rooms /\ classroom r /\ seats course r
                    /\ name = Room.name r)
      /\ ((forall r, In r rooms -> ~ (classroom r /\ seats course r)) ->
          (exists r, In r rooms /\ classroom r) ->
          exists r, In r rooms /\ classroom r /\ name = Room.name r)
      /\ ((forall r, In r rooms -> ~ classroom r) -> name = "Room 201").

(** C2 as stated: what [generateTimetable] returns tells which courses were
    left unplaced. *)
Definition unplaced_are_reported : Prop :=
  exists report : Generated.t -> Course.t -> bool,
    forall h sectionData overrides g w' course,
      generateTimetable h sectionData overrides boot = Ok g w' ->
      (report g course = true <-> unplaced w' course).

(** C4 as stated: a second call with the same arguments agrees with the
    first and the grid stays as it was. *)
Definition checks_are_deterministic : Prop :=
  forall h day slot course rooms constraints w b w1 b' w2,
    canScheduleCourse h day slot course rooms constraints w = Ok b w1 ->
    canScheduleCourse h day slot course rooms constraints w1 = Ok b' w2 ->
    b' = b /\ grid w1 = grid w /\ grid w2 = grid w.

(** C6 as stated, for one move: the session leaves for a day with the
    fewest sessions. *)
Definition moves_go_to_fewest : Prop :=
  forall (timetable : Heap) fromDay cls to,
    well_formed timetable -> keys timetable = week ->
    In cls (day_of fromDay timetable) -> to <> fromDay ->
    In cls (day_of to (redistribute_one fromDay (filter (not_day fromDay) week)
                                        timetable cls)) ->
    fewest_sessions timetable fromDay to.

(** ** What the further properties speak of *)

(** The slot lists a catalogue needs for its courses. *)
Definition slots_cover_courses (sectionData : SectionData.t) : Prop :=
  (filter (fun c => String.eqb (Course.type c) "theory")
          (SectionData.courses sectionData) = []
   \/ filter (is_kind "theory") (SectionData.timeslots sectionData) <> [])
  /\ (filter (fun c => String.eqb (Course.type c) "lab")
             (SectionData.courses sectionData) = []
      \/ filter (is_kind "lab") (SectionData.timeslots sectionData) <> []).

(** The time has an end: [time.split('-')[1]] is defined. *)
Definition dashed (e : Entry.t) : Prop := end_of e <> None.

Definition undefined_slot : Exn :=
  TypeError "Cannot read properties of undefined (reading 'start')".

(** [sc] has the teacher of [course] at the time of slot [s]. *)
Definition teacher_clash (course : Course.t) (s : Timeslot.t) (sc : Entry.t) : bool :=
  opt_eqb (Entry.teacher sc) (Course.teacherId course)
  && String.eqb (Entry.time sc) (time_of_slot s).

(** [sc] is in room [room] at the time of slot [s]. *)
Definition room_clash (room : string) (s : Timeslot.t) (sc : Entry.t) : bool :=
  opt_eqb (Entry.room sc) (Some room)
  && String.eqb (Entry.time sc) (time_of_slot s).

(** [room] is a name the classroom selector can return for [course]. *)
Definition selectable (h : Host) (rooms : list Room.t) (course : Course.t)
    (room : string) : Prop :=
  exists w w', findSuitableRoom h rooms course w = Ok room w'.

Definition lab_selectable (h : Host) (rooms : list Room.t) (course : Course.t)
    (room : string) : Prop :=
  exists w w', findLabRoom h rooms course w = Ok room w'.

(** One accepted theory placement, with what the check established: the day
    was below the ceiling, the teacher was free at that time and so was the
    room the check drew; the room assigned is drawn again. *)
Definition theory_placed (h : Host) (rooms : list Room.t)
    (constraints : Constraints.t) (slots : list Timeslot.t)
    (course : Course.t) (g g' : Timetable) : Prop :=
  exists day l s checked room,
    In day teaching_days
    /\ lookup day g = Some l
    /\ Z.of_nat (length l) < Constraints.MAX_CLASSES_PER_DAY constraints
    /\ In s slots
    /\ (forall sc, In sc l -> teacher_clash course s sc = false)
    /\ (forall sc, In sc l -> room_clash checked s sc = false)
    /\ selectable h rooms course checked
    /\ selectable h rooms course room
    /\ g' = assign day (l ++ [theory_entry (time_of_slot s) room course]) g.

(** One accepted lab placement: the teacher had nothing that day, the room
    the check drew was unused that day, and the week held no entry with the
    lab's code. *)
Definition lab_placed (h : Host) (rooms : list Room.t)
    (slots : list Timeslot.t) (course : Course.t) (g g' : Timetable) : Prop :=
  exists day l s checked room,
    In day teaching_days
    /\ lookup day g = Some l
    /\ In s slots
    /\ (forall sc, In sc l ->
          opt_eqb (Entry.teacher sc) (Course.teacherId course) = false)
    /\ (forall sc, In sc l -> opt_eqb (Entry.room sc) (Some checked) = false)
    /\ week_has (lab_code course) g = false
    /\ lab_selectable h rooms course checked
    /\ lab_selectable h rooms course room
    /\ g' = assign day (l ++ [lab_entry (time_of_slot s) room course]) g.

(** A placement loop seen from outside: each course in turn is either
    placed or leaves a warning. *)
Inductive run_of (placed : Course.t -> Timetable -> Timetable -> Prop)
    (warning : Course.t -> string)
  : list Course.t -> Timetable -> list string -> Timetable -> list string -> Prop :=
| run_done g c : run_of placed warning [] g c g c
| run_unplaced course rest g c g' c' :
    run_of placed warning rest g (c ++ [warning course]) g' c' ->
    run_of placed warning (course :: rest) g c g' c'
| run_placed course rest g g1 c g' c' :
    placed course g g1 ->
    run_of placed warning rest g1 c g' c' ->
    run_of placed warning (course :: rest) g c g' c'.

Definition theory_courses (sectionData : SectionData.t) : list Course.t :=
  filter (fun c => String.eqb (Course.type c) "theory")
         (SectionData.courses sectionData).

Definition lab_courses (sectionData : SectionData.t) : list Course.t :=
  filter (fun c => String.eqb (Course.type c) "lab")
         (SectionData.courses sectionData).

Definition theory_slots (sectionData : SectionData.t) : list Timeslot.t :=
  filter (is_kind "theory") (SectionData.timeslots sectionData).

Definition lab_slots (sectionData : SectionData.t) : list Timeslot.t :=
  filter (is_kind "lab") (SectionData.timeslots sectionData).

(** The entry pushed for a theory course: its own fields, a theory slot of
    the catalogue, a room the selector can return. *)
Definition theory_entry_of (h : Host) (sectionData : SectionData.t)
    (course : Course.t) (e : Entry.t) : Prop :=
  exists s room,
    In s (SectionData.timeslots sectionData) /\ Timeslot.type s = "theory"
    /\ selectable h (SectionData.rooms sectionData) course room
    /\ e = theory_entry (time_of_slot s) room course.

Definition lab_entry_of (h : Host) (sectionData : SectionData.t)
    (course : Course.t) (e : Entry.t) : Prop :=
  exists s room,
    In s (SectionData.timeslots sectionData) /\ Timeslot.type s = "lab"
    /\ lab_selectable h (SectionData.rooms sectionData) course room
    /\ e = lab_entry (time_of_slot s) room course.

(** Who teaches and when. *)
Definition teacher_time (e : Entry.t) : option string * string :=
  (Entry.teacher e, Entry.time e).

Definition no_teacher_twice (g : Timetable) : Prop :=
  forall day l, lookup day g = Some l -> NoDup (map teacher_time l).

(** The entries of [l] taught by the teacher of [e]. *)
Definition same_teacher (e : Entry.t) (l : list Entry.t) : list Entry.t :=
  filter (fun sc => opt_eqb (Entry.teacher sc) (Entry.teacher e)) l.

(** On each day a lab's teacher has the lab and nothing else. *)
Definition lab_teachers_alone (g : Timetable) : Prop :=
  forall day l e,
    lookup day g = Some l -> In e l -> is_lab e = true ->
    length (same_teacher e l) = 1%nat.

(** A marker, or the entry of a course of the catalogue at a slot of its
    kind, in some room. *)
Definition from_catalogue (sectionData : SectionData.t) (e : Entry.t) : Prop :=
  marker_type e = true
  \/ (exists c s room,
        In c (SectionData.courses sectionData) /\ Course.type c = "theory"
        /\ In s (SectionData.timeslots sectionData) /\ Timeslot.type s = "theory"
        /\ e = theory_entry (time_of_slot s) room c)
  \/ (exists c s room,
        In c (SectionData.courses sectionData) /\ Course.type c = "lab"
        /\ In s (SectionData.timeslots sectionData) /\ Timeslot.type s = "lab"
        /\ e = lab_entry (time_of_slot s) room c).

Definition is_break_entry (m : Entry.t) : Prop :=
  exists currentEnd nextStart, m = break_entry currentEnd nextStart.

(** The entry apart from its room. *)
Definition without_room (e : Entry.t) : Entry.t :=
  Entry.mk (Entry.time e) (Entry.course e) (Entry.code e) (Entry.teacher e)
           None (Entry.type e) (Entry.duration e) (Entry.credits e)
           (Entry.isBreak e) (Entry.isLunch e).

(** A step that leaves the grid alone or moves [cls], which [p] rejects,
    out of [from]. *)
Definition step_sparing (p : Obj.t -> bool) (from : string) (timetable : Heap)
    (cls : Obj.t) (timetable' : Heap) : Prop :=
  timetable' = timetable
  \/ (p cls = false
      /\ exists to, to <> from /\ In to (keys timetable)
                    /\ timetable' = move_object timetable from to cls).

Inductive moves_sparing (p : Obj.t -> bool) (from : string)
  : list Obj.t -> Heap -> Heap -> Prop :=
| sparing_nil timetable : moves_sparing p from [] timetable timetable
| sparing_cons cls rest t0 t1 t2 :
    step_sparing p from t0 cls t1 ->
    moves_sparing p from rest t1 t2 ->
    moves_sparing p from (cls :: rest) t0 t2.

(** Day by day, the objects [p] selects are the same, in the same order. *)
Definition spared (p : Obj.t -> bool) (t0 t1 : Heap) : Prop :=
  well_formed t1 /\ keys t1 = keys t0
  /\ forall day, filter p (day_of day t1) = filter p (day_of day t0).

(** What the teacher pass does not touch: markers and entries without a
    teacher. *)
Definition no_teacher_or_marker (o : Obj.t) : bool :=
  negb (truthy (Entry.teacher (Obj.val o)) && negb (is_marker (Obj.val o))).

Definition not_theory (o : Obj.t) : bool := negb (is_theory (Obj.val o)).

Definition marker_object (o : Obj.t) : bool := is_marker (Obj.val o).

(** [o'] is [o], or [o] with its room replaced by the first of Room 202 and
    Room 203 that differs from it; the second only for an entry that names
    a room and is no marker. *)
Definition rerouted (o o' : Obj.t) : Prop :=
  o' = o
  \/ (truthy (Entry.room (Obj.val o)) = true
      /\ is_marker (Obj.val o) = false
      /\ exists r,
           (r = "Room 202" \/ r = "Room 203")
           /\ Entry.room (Obj.val o) <> Some r
           /\ o' = Obj.mk (Obj.ref o) (Entry.set_room r (Obj.val o))).

(** No entry is both of type theory and flagged as a marker. *)
Definition flags_agree (e : Entry.t) : bool := negb (is_theory e && is_marker e).

(** The entries the teacher pass visits. *)
Definition teacher_visited (o : Obj.t) : bool :=
  truthy (Entry.teacher (Obj.val o)) && negb (is_marker (Obj.val o)).

(** The entries the room pass visits. *)
Definition room_visited (o : Obj.t) : bool :=
  truthy (Entry.room (Obj.val o)) && negb (is_marker (Obj.val o)).

(** The keys the teacher pass would record for a day. *)
Definition teacher_slots_of (day : string) (classes : list Obj.t) : list string :=
  map (fun o => slot_key day (Entry.time (Obj.val o)) (Entry.teacher (Obj.val o)))
      (filter teacher_visited classes).

Definition room_slots_of (day : string) (classes : list Obj.t) : list string :=
  map (fun o => slot_key day (Entry.time (Obj.val o)) (Entry.room (Obj.val o)))
      (filter room_visited classes).

(** All of them, in the order the passes visit the grid. *)
Definition teacher_slots (timetable : Heap) : list string :=
  flat_map (fun dc => teacher_slots_of (fst dc) (snd dc)) timetable.

Definition room_slots (timetable : Heap) : list string :=
  flat_map (fun dc => room_slots_of (fst dc) (snd dc)) timetable.

(** [c] sits at the time of [cls] with the teacher of [cls]. *)
Definition clashes_with (cls c : Obj.t) : bool :=
  String.eqb (Entry.time (Obj.val c)) (Entry.time (Obj.val cls))
  && opt_eqb (Entry.teacher (Obj.val c)) (Entry.teacher (Obj.val cls)).

Definition room_time (e : Entry.t) : option string * string :=
  (Entry.room e, Entry.time e).

Definition no_room_twice (g : Timetable) : Prop :=
  forall day l, lookup day g = Some l -> NoDup (map room_time l).

Definition plain (e : Entry.t) : bool := negb (is_marker e).

(** Equality of doubles as data: it tells the zeros apart and equates NaN
    with itself. *)
Definition double_eqb (a b : double) : bool :=
  match a, b with
  | S754_zero s, S754_zero s' => Bool.eqb s s'
  | S754_infinity s, S754_infinity s' => Bool.eqb s s'
  | S754_nan, S754_nan => true
  | S754_finite s m e, S754_finite s' m' e' =>
      Bool.eqb s s' && Pos.eqb m m' && Z.eqb e e'
  | _, _ => false
  end.

(** [l] is the pair [a], [b]. *)
Definition reads_as (l : list double) (a b : double) : bool :=
  match l with
  | [x; y] => double_eqb x a && double_eqb y b
  | _ => false
  end.

Definition digit (n : nat) : ascii := ascii_of_nat (48 + n).

Definition two_digits (n : nat) : string :=
  String (digit (n / 10)) (String (digit (n mod 10)) EmptyString).

(** The clock time [h:mm], as in ["8:40"] and ["12:05"]. *)
Definition clock (h m : nat) : string :=
  (if (h <? 10)%nat then String (digit h) EmptyString else two_digits h)
    +++ ":" +++ two_digits m.

(** ** More sample data *)

(** A theory course and no theory slot. *)
Definition no_theory_slot_section : SectionData.t :=
  SectionData.mk "CSE" "3" "A" [theory_course "C1" "T1"] [R1] [slot_lab].

(** A lab course and no lab slot. *)
Definition no_lab_slot_section : SectionData.t :=
  SectionData.mk "CSE" "3" "A" [lab_course "L1" "T1"] [R1] [slot_8].

(** Two lectures of one teacher at the same time on Monday, with a break
    and the lunch marker, and a lecture on Tuesday. *)
Definition week_with_markers : Timetable :=
  [("Monday",
    [theory_entry "8:00-8:40" "R1" (theory_course "C1" "T1");
     break_entry "8:40" "9:00";
     theory_entry "8:00-8:40" "R1" (theory_course "C2" "T1");
     lunch_entry]);
   ("Tuesday", [theory_entry "8:00-8:40" "R1" (theory_course "C3" "T1")])].

Definition two_sessions : list Entry.t :=
  [theory_entry "11:30-12:10" "R1" (theory_course "C2" "T2");
   theory_entry "8:00-8:40" "R1" (theory_course "C1" "T1")].

(** * Properties *)

(** ** Objects with string keys *)

Section DictFacts.
Context {V : Type}.
Implicit Types (obj : list (string * V)) (key : string).

Lemma lookup_assign_same key v obj : lookup key (assign key v obj) = Some v.
Proof.
  induction obj as [|[k x] rest IH]; simpl.
  - now rewrite String.eqb_refl.
  - destruct (String.eqb k key) eqn:Hk; simpl; rewrite Hk; auto.
Qed.

Lemma lookup_assign_other key key' v obj :
  key <> key' -> lookup key' (assign key v obj) = lookup key' obj.
Proof.
  intros Hne. induction obj as [|[k x] rest IH]; simpl.
  - destruct (String.eqb key key') eqn:Hk; auto.
    apply String.eqb_eq in Hk. contradiction.
  - destruct (String.eqb k key) eqn:Hk; simpl.
    + apply String.eqb_eq in Hk. subst k.
      destruct (String.eqb key key') eqn:Hk'; auto.
      apply String.eqb_eq in Hk'. contradiction.
    + now rewrite IH.
Qed.

Lemma lookup_in_keys key obj v : lookup key obj = Some v -> In key (keys obj).
Proof.
  induction obj as [|[k x] rest IH]; simpl; [discriminate|].
  destruct (String.eqb k key) eqn:Hk.
  - apply String.eqb_eq in Hk. auto.
  - intros H. right. now apply IH.
Qed.

Lemma in_keys_lookup key obj : In key (keys obj) -> exists v, lookup key obj = Some v.
Proof.
  induction obj as [|[k x] rest IH]; simpl; [tauto|].
  intros [->|Hin].
  - rewrite String.eqb_refl. eauto.
  - destruct (String.eqb k key); eauto.
Qed.

Lemma keys_assign key v obj :
  In key (keys obj) -> keys (assign key v obj) = keys obj.
Proof.
  induction obj as [|[k x] rest IH]; simpl; [tauto|].
  destruct (String.eqb k key) eqn:Hk; simpl; auto.
  intros [->|Hin].
  - now rewrite String.eqb_refl in Hk.
  - now rewrite IH.
Qed.

(** An assignment to an existing key rewrites one binding in place. *)
Lemma assign_split key v obj old :
  lookup key obj = Some old ->
  exists before after,
    obj = before ++ (key, old) :: after
    /\ assign key v obj = before ++ (key, v) :: after
    /\ ~ In key (keys before).
Proof.
  induction obj as [|[k x] rest IH]; simpl; [discriminate|].
  destruct (String.eqb k key) eqn:Hk.
  - apply String.eqb_eq in Hk. subst k. intros [= ->].
    exists [], rest. simpl. auto.
  - intros H. destruct (IH H) as (b & a & -> & Ha & Hn).
    exists ((k, x) :: b), a. simpl. rewrite Ha. repeat split; auto.
    intros [->|Hin]; [|contradiction].
    now rewrite String.eqb_refl in Hk.
Qed.
End DictFacts.

Lemma day_of_assign_same {V} key (l : list V) obj :
  day_of key (assign key l obj) = l.
Proof. unfold day_of. now rewrite lookup_assign_same. Qed.

Lemma day_of_assign_other {V} key key' (l : list V) obj :
  key <> key' -> day_of key' (assign key l obj) = day_of key' obj.
Proof. intros. unfold day_of. now rewrite lookup_assign_other. Qed.

(** ** The monad *)

Lemma bind_Ok {A B} (m : M A) (k : A -> M B) w b w' :
  bind m k w = Ok b w' -> exists a w1, m w = Ok a w1 /\ k a w1 = Ok b w'.
Proof. unfold bind. destruct (m w); [eauto | discriminate]. Qed.

Lemma lift_Ok {A} (e : E A) w a w' : lift e w = Ok a w' -> e = inr a /\ w' = w.
Proof. unfold lift. destruct e; [discriminate|]. now intros [= -> ->]. Qed.

Ltac inv_ok :=
  repeat match goal with
    | H : bind _ _ _ = Ok _ _ |- _ =>
        let a := fresh "a" in let w := fresh "w" in
        let H1 := fresh "Hrun" in let H2 := fresh "Hk" in
        apply bind_Ok in H; destruct H as (a & w & H1 & H2)
    | H : ret _ _ = Ok _ _ |- _ => unfold ret in H; injection H as <- <-
    | H : lift _ _ = Ok _ _ |- _ =>
        let E1 := fresh "Hpure" in
        apply lift_Ok in H; destruct H as [E1 ->]
    end.

Lemma same_store_refl w : same_store w w.
Proof. split; reflexivity. Qed.

Lemma same_store_trans w1 w2 w3 :
  same_store w1 w2 -> same_store w2 w3 -> same_store w1 w3.
Proof. intros [? ?] [? ?]. split; congruence. Qed.

Create HintDb store.

#[local] Hint Resolve same_store_refl same_store_trans : store.

Lemma random_index_run h n w :
  random_index h n w
  = Ok (match n with O => O | S _ => Nat.modulo (random h (draws w)) n end)
       (mkWorld (grid w) (S (draws w)) (console w)).
Proof. reflexivity. Qed.

Lemma random_index_Ok h n w i w' :
  random_index h n w = Ok i w' ->
  same_store w w' /\ draws w' = S (draws w) /\ (n <> O -> (i < n)%nat).
Proof.
  rewrite random_index_run. intros [= <- <-]. repeat split.
  destruct n; [congruence|]. intros _. apply Nat.mod_upper_bound. discriminate.
Qed.

Lemma name_at_Ok l i w s w' :
  name_at l i w = Ok s w' ->
  w' = w /\ exists r, nth_error l i = Some r /\ s = Room.name r.
Proof.
  unfold name_at. destruct (nth_error l i) eqn:Hn; [|discriminate].
  intros [= <- <-]. eauto.
Qed.

Lemma findSuitableRoom_store h rooms course w s w' :
  findSuitableRoom h rooms course w = Ok s w' -> same_store w w'.
Proof.
  unfold findSuitableRoom. destruct (filter (suitable course) rooms).
  - intros [= _ <-]. auto with store.
  - intros H. inv_ok. apply random_index_Ok in Hrun as (Hs & _).
    apply name_at_Ok in Hk as (-> & _). exact Hs.
Qed.

Lemma findLabRoom_store h rooms course w s w' :
  findLabRoom h rooms course w = Ok s w' -> same_store w w'.
Proof.
  unfold findLabRoom. destruct (filter is_lab_room rooms).
  - intros [= _ <-]. auto with store.
  - intros H. inv_ok. apply random_index_Ok in Hrun as (Hs & _).
    apply name_at_Ok in Hk as (-> & _). exact Hs.
Qed.

Lemma get_day_Ok day w l w' :
  get_day day w = Ok l w' -> w' = w /\ lookup day (grid w) = Some l.
Proof.
  unfold get_day. destruct (lookup day (grid w)); [|discriminate].
  now intros [= <- <-].
Qed.

Lemma push_day_Ok day e w u w' :
  push_day day e w = Ok u w' ->
  exists l, lookup day (grid w) = Some l
            /\ w' = mkWorld (assign day (l ++ [e]) (grid w)) (draws w) (console w).
Proof.
  unfold push_day. destruct (lookup day (grid w)); [|discriminate].
  intros [= _ <-]. eauto.
Qed.

(** ** The conflict checks read the grid and leave it alone *)

Lemma canScheduleCourse_Ok h day slot course rooms constraints w b w' :
  canScheduleCourse h day slot course rooms constraints w = Ok b w' ->
  same_store w w'
  /\ (b = true ->
      exists l, lookup day (grid w) = Some l
                /\ Z.of_nat (length l) < Constraints.MAX_CLASSES_PER_DAY constraints).
Proof.
  unfold canScheduleCourse. intros H.
  apply bind_Ok in H as (l & w1 & Hget & H).
  apply get_day_Ok in Hget as (-> & Hday).
  apply bind_Ok in H as (teacherConflict & w2 & Ht & H).
  apply lift_Ok in Ht as (_ & ->).
  destruct teacherConflict.
  { injection H as <- <-. split; [auto with store|discriminate]. }
  apply bind_Ok in H as (room & w3 & Hroom & H).
  apply findSuitableRoom_store in Hroom.
  apply bind_Ok in H as (roomConflict & w4 & Hr & H).
  apply lift_Ok in Hr as (_ & ->).
  destruct roomConflict.
  { injection H as <- <-. split; [auto|discriminate]. }
  destruct (Constraints.MAX_CLASSES_PER_DAY constraints <=? Z.of_nat (length l)) eqn:Hmax;
    injection H as <- <-; (split; [auto|]); try discriminate.
  intros _. exists l. split; [exact Hday|]. now apply Z.leb_gt in Hmax.
Qed.

Lemma canScheduleLab_Ok h day slot course rooms constraints w b w' :
  canScheduleLab h day slot course rooms constraints w = Ok b w' ->
  same_store w w'
  /\ (b = true ->
      (exists l, lookup day (grid w) = Some l)
      /\ week_has (lab_code course) (grid w) = false).
Proof.
  unfold canScheduleLab. intros H.
  apply bind_Ok in H as (l & w1 & Hget & H).
  apply get_day_Ok in Hget as (-> & Hday).
  destruct (existsb _ l).
  { injection H as <- <-. split; [auto with store|discriminate]. }
  apply bind_Ok in H as (labRoom & w2 & Hroom & H).
  apply findLabRoom_store in Hroom.
  destruct (existsb _ l).
  { injection H as <- <-. split; [auto|discriminate]. }
  apply bind_Ok in H as (timetable & w3 & Hgrid & H).
  injection Hgrid as <- <-.
  fold (week_has (lab_code course) (grid w2)) in H.
  destruct (week_has (lab_code course) (grid w2)) eqn:Hweek;
    injection H as <- <-; (split; [auto|]); try discriminate.
  intros _. destruct Hroom as [Hg _]. rewrite Hg in Hweek. eauto.
Qed.

(** ** One placement *)

Lemma nth_teaching_day i : In (nth i teaching_days "Monday") teaching_days.
Proof.
  do 5 (destruct i as [|i]; [simpl; tauto|]). destruct i; simpl; tauto.
Qed.

Lemma slot_time_inr slots i t :
  slot_time (nth_error slots i) = inr t ->
  exists s, In s slots /\ t = time_of_slot s.
Proof.
  destruct (nth_error slots i) eqn:Hn; simpl; [|discriminate].
  intros [= <-]. exists t0. split; [eapply nth_error_In; eauto|reflexivity].
Qed.

Lemma theory_attempts_Ok h budget slots course rooms constraints w b w' :
  theory_attempts h budget slots course rooms constraints w = Ok b w' ->
  console w' = console w
  /\ ((b = false /\ grid w' = grid w)
      \/ (b = true /\ theory_step constraints slots (grid w) (grid w'))).
Proof.
  revert w. induction budget as [|budget IH]; intros w; simpl.
  - intros [= <- <-]. auto.
  - intros H.
    apply bind_Ok in H as (randomDay & w1 & Hday & H).
    unfold getRandomDay in Hday.
    apply bind_Ok in Hday as (d & w0 & Hd & Hday).
    apply random_index_Ok in Hd as (Hs0 & _).
    injection Hday as <- <-.
    apply bind_Ok in H as (i & w2 & Hi & H).
    apply random_index_Ok in Hi as (Hs1 & _).
    apply bind_Ok in H as (ok & w3 & Hcan & H).
    apply canScheduleCourse_Ok in Hcan as (Hs2 & Hok).
    assert (Hs : same_store w w3) by eauto with store.
    destruct Hs as [Hg Hc].
    destruct ok.
    + destruct (Hok eq_refl) as (l & Hl & Hmax).
      apply bind_Ok in H as (time & w4 & Htime & H).
      apply lift_Ok in Htime as (Htime & ->).
      apply slot_time_inr in Htime as (s & Hin & ->).
      apply bind_Ok in H as (room & w5 & Hroom & H).
      apply findSuitableRoom_store in Hroom as [Hg5 Hc5].
      apply bind_Ok in H as (u & w6 & Hpush & H).
      injection H as <- <-.
      apply push_day_Ok in Hpush as (l' & Hl' & ->). simpl.
      split; [congruence|]. right. split; [reflexivity|].
      destruct Hs2 as [Hg2 _]. destruct Hs1 as [Hg1 _]. destruct Hs0 as [Hg0 _].
      assert (Hgw : grid w5 = grid w) by congruence.
      assert (Hg2w : grid w2 = grid w) by congruence.
      rewrite Hg2w in Hl. rewrite Hgw in Hl'.
      assert (l' = l) by congruence. subst l'.
      exists (nth d teaching_days "Monday"), l, s, room, course.
      rewrite Hgw. repeat split; auto using nth_teaching_day.
    + apply IH in H as (Hc' & Hcases). split; [congruence|].
      destruct Hcases as [(-> & Hg')|(-> & Hstep)].
      * left. split; congruence.
      * right. split; [reflexivity|]. now rewrite <- Hg.
Qed.

Lemma lab_attempts_Ok h budget slots course rooms constraints w b w' :
  lab_attempts h budget slots course rooms constraints w = Ok b w' ->
  console w' = console w
  /\ ((b = false /\ grid w' = grid w)
      \/ (b = true /\ lab_step slots (grid w) (grid w'))).
Proof.
  revert w. induction budget as [|budget IH]; intros w; simpl.
  - intros [= <- <-]. auto.
  - intros H.
    apply bind_Ok in H as (d & w1 & Hd & H).
    apply random_index_Ok in Hd as (Hs0 & _).
    apply bind_Ok in H as (i & w2 & Hi & H).
    apply random_index_Ok in Hi as (Hs1 & _).
    apply bind_Ok in H as (ok & w3 & Hcan & H).
    apply canScheduleLab_Ok in Hcan as (Hs2 & Hok).
    assert (Hs : same_store w w3) by eauto with store.
    destruct Hs as [Hg Hc].
    destruct ok.
    + destruct (Hok eq_refl) as ((l & Hl) & Hweek).
      apply bind_Ok in H as (time & w4 & Htime & H).
      apply lift_Ok in Htime as (Htime & ->).
      apply slot_time_inr in Htime as (s & Hin & ->).
      apply bind_Ok in H as (room & w5 & Hroom & H).
      apply findLabRoom_store in Hroom as [Hg5 Hc5].
      apply bind_Ok in H as (u & w6 & Hpush & H).
      injection H as <- <-.
      apply push_day_Ok in Hpush as (l' & Hl' & ->). simpl.
      split; [congruence|]. right. split; [reflexivity|].
      destruct Hs2 as [Hg2 _]. destruct Hs1 as [Hg1 _]. destruct Hs0 as [Hg0 _].
      assert (Hgw : grid w5 = grid w) by congruence.
      assert (Hg2w : grid w2 = grid w) by congruence.
      rewrite Hg2w in Hl, Hweek. rewrite Hgw in Hl'.
      assert (l' = l) by congruence. subst l'.
      exists (nth d teaching_days "Monday"), l, s, room, course.
      rewrite Hgw. repeat split; auto using nth_teaching_day.
    + apply IH in H as (Hc' & Hcases). split; [congruence|].
      destruct Hcases as [(-> & Hg')|(-> & Hstep)].
      * left. split; congruence.
      * right. split; [reflexivity|]. now rewrite <- Hg.
Qed.

(** ** Invariants of the two placement loops *)

Section Loops.
Variable h : Host.
Variables (rooms : list Room.t) (constraints : Constraints.t).
Variable P : Timetable -> Prop.

Lemma theory_loop_invariant slots courses w u w' :
  (forall g g', theory_step constraints slots g g' -> P g -> P g') ->
  for_of (schedule_one_theory h slots rooms constraints) courses w = Ok u w' ->
  P (grid w) -> P (grid w').
Proof.
  intros Hstep. revert w.
  induction courses as [|course rest IH]; intros w; simpl.
  - now intros [= _ <-].
  - intros H Hp. apply bind_Ok in H as (u1 & w1 & Hone & H).
    apply (IH _ H). clear H.
    unfold schedule_one_theory in Hone.
    apply bind_Ok in Hone as (scheduled & w2 & Hatt & Hone).
    apply theory_attempts_Ok in Hatt as (_ & [(-> & Hg)|(-> & Hs)]).
    + injection Hone as _ <-. simpl. now rewrite Hg.
    + injection Hone as _ <-. eauto.
Qed.

Lemma lab_loop_invariant slots courses w u w' :
  (forall g g', lab_step slots g g' -> P g -> P g') ->
  for_of (schedule_one_lab h slots rooms constraints) courses w = Ok u w' ->
  P (grid w) -> P (grid w').
Proof.
  intros Hstep. revert w.
  induction courses as [|course rest IH]; intros w; simpl.
  - now intros [= _ <-].
  - intros H Hp. apply bind_Ok in H as (u1 & w1 & Hone & H).
    apply (IH _ H). clear H.
    unfold schedule_one_lab in Hone.
    apply bind_Ok in Hone as (scheduled & w2 & Hatt & Hone).
    apply lab_attempts_Ok in Hatt as (_ & [(-> & Hg)|(-> & Hs)]).
    + injection Hone as _ <-. simpl. now rewrite Hg.
    + injection Hone as _ <-. eauto.
Qed.
End Loops.

(** An invariant of the whole constructive phase. *)
Lemma construct_invariant (P : Timetable -> Prop) h sectionData constraints w u w' :
  P initializeTimetable ->
  (forall g g',
      theory_step constraints
        (filter (is_kind "theory") (SectionData.timeslots sectionData)) g g' ->
      P g -> P g') ->
  (forall g g',
      lab_step (filter (is_kind "lab") (SectionData.timeslots sectionData)) g g' ->
      P g -> P g') ->
  construct h sectionData constraints w = Ok u w' ->
  P (grid w').
Proof.
  intros Hinit Ht Hl H. unfold construct in H.
  apply bind_Ok in H as (u0 & w0 & Hset & H).
  injection Hset as _ <-.
  apply bind_Ok in H as (u1 & w1 & Htheory & H).
  unfold scheduleTheoryCourses in Htheory. unfold scheduleLabCourses in H.
  eapply lab_loop_invariant; [exact Hl|exact H|].
  eapply theory_loop_invariant; [exact Ht|exact Htheory|].
  exact Hinit.
Qed.

(** ** Break and lunch injection, day by day *)

Lemma inject_loop h ks : forall w u w',
  NoDup ks ->
  (forall k, In k ks -> In k (keys (grid w))) ->
  for_of (fun day =>
            daySchedule <- get_day day ;;
            updatedSchedule <- lift (inject_day h daySchedule) ;;
            set_day day updatedSchedule) ks w = Ok u w' ->
  keys (grid w') = keys (grid w)
  /\ draws w' = draws w
  /\ console w' = console w
  /\ (forall day, In day ks ->
        exists l l', lookup day (grid w) = Some l
                     /\ inject_day h l = inr l'
                     /\ lookup day (grid w') = Some l')
  /\ (forall day, ~ In day ks -> lookup day (grid w') = lookup day (grid w)).
Proof.
  induction ks as [|k rest IH]; intros w u w' Hnd Hin; simpl.
  - intros [= _ <-]. repeat split; auto. intros day [].
  - intros H. apply bind_Ok in H as (u1 & w1 & Hbody & H).
    apply bind_Ok in Hbody as (l & w2 & Hget & Hbody).
    apply get_day_Ok in Hget as (-> & Hl).
    apply bind_Ok in Hbody as (l' & w3 & Hinj & Hbody).
    apply lift_Ok in Hinj as (Hinj & ->).
    injection Hbody as _ <-.
    inversion Hnd as [|? ? Hnotin Hnd']; subst.
    assert (Hkeys1 : keys (assign k l' (grid w)) = keys (grid w)).
    { apply keys_assign. apply Hin. now left. }
    apply IH in H as (Hkeys & Hd & Hc & Hdone & Hrest); auto.
    2:{ simpl. rewrite Hkeys1. intros k' Hk'. apply Hin. now right. }
    simpl in *. repeat split; try congruence.
    + intros day [<-|Hday].
      * exists l, l'. repeat split; auto.
        rewrite (Hrest k Hnotin). apply lookup_assign_same.
      * destruct (Hdone day Hday) as (m & m' & Hm & Hm' & Hlook).
        exists m, m'. repeat split; auto.
        rewrite lookup_assign_other in Hm; auto.
        intros ->. contradiction.
    + intros day Hday. rewrite Hrest by tauto.
      apply lookup_assign_other. intros ->. apply Hday. now left.
Qed.

Lemma addBreaksAndLunch_Ok h w u w' :
  NoDup (keys (grid w)) ->
  addBreaksAndLunch h w = Ok u w' ->
  keys (grid w') = keys (grid w)
  /\ draws w' = draws w
  /\ console w' = console w
  /\ (forall day, In day (keys (grid w)) ->
        exists l l', lookup day (grid w) = Some l
                     /\ inject_day h l = inr l'
                     /\ lookup day (grid w') = Some l').
Proof.
  intros Hnd H. unfold addBreaksAndLunch in H.
  apply bind_Ok in H as (timetable & w1 & Hg & H).
  injection Hg as <- <-.
  apply inject_loop in H as (? & ? & ? & ? & _); auto.
Qed.

(** ** The week keeps its six keys *)

Lemma week_NoDup : NoDup week.
Proof.
  unfold week. repeat constructor; simpl; intuition discriminate.
Qed.

Lemma keys_initial : keys initializeTimetable = week.
Proof. reflexivity. Qed.

Lemma theory_step_keys constraints slots g g' :
  theory_step constraints slots g g' -> keys g' = keys g.
Proof.
  intros (day & l & s & room & course & _ & Hl & _ & _ & ->).
  apply keys_assign. eapply lookup_in_keys; eauto.
Qed.

Lemma lab_step_keys slots g g' : lab_step slots g g' -> keys g' = keys g.
Proof.
  intros (day & l & s & room & course & _ & Hl & _ & _ & ->).
  apply keys_assign. eapply lookup_in_keys; eauto.
Qed.

Lemma construct_keys h sectionData constraints w u w' :
  construct h sectionData constraints w = Ok u w' -> keys (grid w') = week.
Proof.
  apply (construct_invariant (fun g => keys g = week)).
  - reflexivity.
  - intros g g' Hs Hk. erewrite theory_step_keys; eauto.
  - intros g g' Hs Hk. erewrite lab_step_keys; eauto.
Qed.

Lemma teaching_day_not_saturday day : In day teaching_days -> day <> "Saturday".
Proof. simpl. intuition (subst; discriminate). Qed.

Lemma construct_saturday h sectionData constraints w u w' :
  construct h sectionData constraints w = Ok u w' ->
  lookup "Saturday" (grid w') = Some [].
Proof.
  apply (construct_invariant (fun g => lookup "Saturday" g = Some [])).
  - reflexivity.
  - intros g g' (day & l & s & room & course & Hday & _ & _ & _ & ->) Hsat.
    rewrite lookup_assign_other; auto using teaching_day_not_saturday.
  - intros g g' (day & l & s & room & course & Hday & _ & _ & _ & ->) Hsat.
    rewrite lookup_assign_other; auto using teaching_day_not_saturday.
Qed.

(** ** What a grid holds *)

Lemma elements_app {V} (a b : list (string * list V)) :
  elements (a ++ b) = elements a ++ elements b.
Proof. unfold elements. now rewrite map_app, concat_app. Qed.

Lemma elements_cons {V} k (l : list V) rest :
  elements ((k, l) :: rest) = l ++ elements rest.
Proof. reflexivity. Qed.

(** Replacing one day's array replaces one segment of the elements. *)
Lemma elements_assign {V} key (l l' : list V) obj :
  lookup key obj = Some l ->
  exists pre post,
    elements obj = pre ++ l ++ post
    /\ elements (assign key l' obj) = pre ++ l' ++ post.
Proof.
  intros H. destruct (assign_split key l' obj l H) as (b & a & -> & -> & _).
  exists (elements b), (elements a).
  now rewrite !elements_app, !elements_cons.
Qed.

Lemma elements_push {V} key (l : list V) x obj :
  lookup key obj = Some l ->
  Permutation (elements (assign key (l ++ [x]) obj)) (x :: elements obj).
Proof.
  intros H. destruct (elements_assign key l (l ++ [x]) obj H) as (pre & post & -> & ->).
  rewrite <- app_assoc. simpl.
  rewrite (Permutation_middle pre (l ++ post) x).
  apply Permutation_app_head.
  rewrite <- Permutation_middle. reflexivity.
Qed.

Lemma in_day_elements {V} key (l : list V) obj x :
  lookup key obj = Some l -> In x l -> In x (elements obj).
Proof.
  intros H Hin. destruct (elements_assign key l l obj H) as (pre & post & -> & _).
  rewrite !in_app_iff. tauto.
Qed.

(** Two grids with the same keys, related day by day. *)
Lemma pointwise_days {V} (R : list V -> list V -> Prop) (g g' : list (string * list V)) :
  NoDup (keys g) ->
  keys g' = keys g ->
  (forall day, In day (keys g) ->
     exists l l', lookup day g = Some l /\ lookup day g' = Some l' /\ R l l') ->
  Forall2 R (map snd g) (map snd g').
Proof.
  revert g'. induction g as [|[k l] rest IH]; intros [|[k' l'] rest']; simpl;
    try discriminate; intros Hnd Hkeys Hday.
  - constructor.
  - injection Hkeys as -> Hkeys. inversion Hnd as [|? ? Hnotin Hnd']; subst.
    constructor.
    + destruct (Hday k (or_introl eq_refl)) as (m & m' & Hm & Hm' & HR).
      rewrite String.eqb_refl in Hm, Hm'. now injection Hm as <-; injection Hm' as <-.
    + apply IH; auto. intros day Hin.
      destruct (Hday day (or_intror Hin)) as (m & m' & Hm & Hm' & HR).
      destruct (String.eqb k day) eqn:Hk.
      * apply String.eqb_eq in Hk. subst. contradiction.
      * eauto.
Qed.

(** ** Sorting, breaks and lunch only add markers *)

Lemma insert_by_perm {A} (cmp : A -> A -> comparison) x l :
  Permutation (insert_by cmp x l) (x :: l).
Proof.
  induction l as [|y rest IH]; simpl; auto.
  destruct (cmp x y); auto.
  rewrite IH. apply perm_swap.
Qed.

Lemma sort_by_perm {A} (cmp : A -> A -> comparison) l :
  Permutation (sort_by cmp l) l.
Proof.
  induction l as [|x rest IH]; simpl; auto.
  rewrite insert_by_perm. now constructor.
Qed.

Lemma with_breaks_injected l : forall l', with_breaks l = inr l' -> injected l l'.
Proof.
  induction l as [|current rest IH]; intros l'.
  - simpl. intros [= <-]. exists []. split; auto.
  - simpl. destruct rest as [|next rest'].
    + intros [= <-]. exists []. split; auto.
    + destruct (getTimeDifference _ _) as [e|diff]; [discriminate|].
      destruct (with_breaks (next :: rest')) as [e|updated]; [discriminate|].
      destruct (IH updated eq_refl) as (ms & Hperm & Hms).
      destruct (exceeds diff _); intros [= <-].
      * eexists (_ :: ms). split.
        -- rewrite Hperm. simpl. constructor.
           change (next :: rest' ++ ?b :: ms) with ((next :: rest') ++ b :: ms).
           now rewrite <- Permutation_middle.
        -- constructor; auto.
      * exists ms. split; auto. rewrite Hperm. reflexivity.
Qed.

Lemma splice_in_perm {A} i (x : A) l : Permutation (splice_in i x l) (x :: l).
Proof.
  unfold splice_in. rewrite <- Permutation_middle.
  now rewrite firstn_skipn.
Qed.

Lemma with_lunch_injected l : injected l (with_lunch l).
Proof.
  unfold with_lunch. destruct (existsb _ l).
  - exists []. rewrite app_nil_r. split; auto.
  - destruct (findIndex _ l).
    + exists [lunch_entry]. split.
      * rewrite splice_in_perm. now rewrite <- Permutation_cons_append.
      * repeat constructor.
    + exists []. rewrite app_nil_r. split; auto.
Qed.

Lemma injected_trans a b c : injected a b -> injected b c -> injected a c.
Proof.
  intros (m1 & H1 & F1) (m2 & H2 & F2). exists (m1 ++ m2). split.
  - rewrite H2, H1. now rewrite app_assoc.
  - apply Forall_app. auto.
Qed.

Lemma inject_day_injected h l l' : inject_day h l = inr l' -> injected l l'.
Proof.
  unfold inject_day.
  destruct (with_breaks _) as [e|updated] eqn:Hb; [discriminate|].
  intros [= <-].
  apply with_breaks_injected in Hb.
  eapply injected_trans; [|apply with_lunch_injected].
  destruct Hb as (ms & Hp & Hf). exists ms. split; auto.
  rewrite Hp. apply Permutation_app_tail. apply sort_by_perm.
Qed.

Lemma injected_elements (ls ls' : list (list Entry.t)) :
  Forall2 injected ls ls' -> injected (concat ls) (concat ls').
Proof.
  induction 1 as [|l l' ls ls' (m & Hp & Hf) _ (ms & Hps & Hfs)]; simpl.
  - exists []. split; auto.
  - exists (m ++ ms). split.
    + rewrite Hp, Hps. rewrite <- !app_assoc. apply Permutation_app_head.
      rewrite !app_assoc. apply Permutation_app_tail. apply Permutation_app_comm.
    + apply Forall_app. auto.
Qed.

Lemma addBreaksAndLunch_injected h w u w' :
  NoDup (keys (grid w)) ->
  addBreaksAndLunch h w = Ok u w' ->
  keys (grid w') = keys (grid w)
  /\ injected (elements (grid w)) (elements (grid w')).
Proof.
  intros Hnd H. apply addBreaksAndLunch_Ok in H as (Hkeys & _ & _ & Hdays); auto.
  split; auto. apply injected_elements.
  apply pointwise_days; auto.
  intros day Hin. destruct (Hdays day Hin) as (l & l' & Hl & Hinj & Hl').
  exists l, l'. repeat split; auto. eapply inject_day_injected; eauto.
Qed.

(** ** The optimizer's grid: identities stay distinct *)

Lemma refs_fresh_from next l : refs (fresh_from next l) = seq next (length l).
Proof.
  revert next. induction l as [|e rest IH]; intros next; simpl; auto.
  now rewrite IH.
Qed.

Lemma vals_fresh_from next l : map Obj.val (fresh_from next l) = l.
Proof.
  revert next. induction l as [|e rest IH]; intros next; simpl; auto.
  now rewrite IH.
Qed.

Lemma deep_copy_contents next timetable :
  contents (deep_copy next timetable) = timetable.
Proof.
  revert next. induction timetable as [|[day classes] rest IH]; intros next; simpl; auto.
  now rewrite vals_fresh_from, IH.
Qed.

Lemma deep_copy_keys next timetable :
  keys (deep_copy next timetable) = keys timetable.
Proof.
  revert next. induction timetable as [|[day classes] rest IH]; intros next; simpl; auto.
  now rewrite IH.
Qed.

Lemma deep_copy_refs next timetable :
  refs (elements (deep_copy next timetable))
  = seq next (length (elements timetable)).
Proof.
  revert next. induction timetable as [|[day classes] rest IH]; intros next; simpl; auto.
  rewrite !elements_cons. unfold refs in *.
  rewrite map_app, length_app, seq_app, IH.
  f_equal. apply refs_fresh_from.
Qed.

Lemma deep_copy_well_formed timetable :
  NoDup (keys timetable) -> well_formed (deep_copy 0 timetable).
Proof.
  intros Hnd. split.
  - now rewrite deep_copy_keys.
  - rewrite deep_copy_refs. apply seq_NoDup.
Qed.

Lemma elements_contents timetable :
  elements (contents timetable) = map Obj.val (elements timetable).
Proof.
  unfold elements, contents. rewrite map_map. simpl.
  rewrite concat_map, map_map. reflexivity.
Qed.

Lemma keys_contents timetable : keys (contents timetable) = keys timetable.
Proof. unfold keys, contents. now rewrite map_map. Qed.

(** ** Moving one object *)

Lemma day_of_lookup {V} key (obj : list (string * list V)) :
  In key (keys obj) -> lookup key obj = Some (day_of key obj).
Proof.
  intros H. apply in_keys_lookup in H as (l & Hl). unfold day_of. now rewrite Hl.
Qed.

Lemma NoDup_app_l {A} (a b : list A) : NoDup (a ++ b) -> NoDup a.
Proof.
  induction a as [|x a IH]; simpl; [constructor|].
  intros H. inversion H; subst. constructor; auto.
  rewrite in_app_iff in *. tauto.
Qed.

Lemma NoDup_app_r {A} (a b : list A) : NoDup (a ++ b) -> NoDup b.
Proof.
  induction a as [|x a IH]; simpl; auto. intros H. inversion H; auto.
Qed.

Lemma day_refs_NoDup timetable day :
  well_formed timetable -> NoDup (refs (day_of day timetable)).
Proof.
  intros [_ Hnd]. unfold day_of.
  destruct (lookup day timetable) as [l|] eqn:Hl; [|constructor].
  destruct (elements_assign day l l timetable Hl) as (pre & post & Hel & _).
  rewrite Hel in Hnd. unfold refs in *. rewrite !map_app in Hnd.
  apply NoDup_app_r in Hnd. now apply NoDup_app_l in Hnd.
Qed.

(** Filtering out an object that occurs once removes just that object. *)
Lemma filter_out_perm l cls :
  NoDup (refs l) -> In cls l ->
  Permutation l (cls :: filter (fun c => negb (same_object c cls)) l).
Proof.
  induction l as [|x rest IH]; simpl; [tauto|].
  intros Hnd [->|Hin]; inversion Hnd as [|? ? Hnotin Hnd']; subst.
  - unfold same_object at 1. rewrite Nat.eqb_refl. simpl.
    constructor. rewrite forallb_filter_id; auto.
    apply forallb_forall. intros y Hy. unfold same_object.
    destruct (Nat.eqb (Obj.ref y) (Obj.ref cls)) eqn:He; auto.
    apply Nat.eqb_eq in He. exfalso. apply Hnotin. rewrite <- He.
    now apply in_map.
  - unfold same_object at 1.
    destruct (Nat.eqb (Obj.ref x) (Obj.ref cls)) eqn:He; simpl.
    + apply Nat.eqb_eq in He. exfalso. apply Hnotin. rewrite He.
      now apply in_map.
    + rewrite perm_swap. constructor. now apply IH.
Qed.

Lemma move_object_spec timetable from to cls :
  well_formed timetable ->
  In from (keys timetable) -> In to (keys timetable) -> to <> from ->
  In cls (day_of from timetable) ->
  let moved := move_object timetable from to cls in
  well_formed moved
  /\ keys moved = keys timetable
  /\ Permutation (elements moved) (elements timetable)
  /\ day_of from moved
     = filter (fun c => negb (same_object c cls)) (day_of from timetable)
  /\ day_of to moved = day_of to timetable ++ [cls]
  /\ (forall d, d <> from -> d <> to -> day_of d moved = day_of d timetable).
Proof.
  intros Hwf Hfrom Hto Hne Hin. unfold move_object. simpl.
  set (pushed := assign to (day_of to timetable ++ [cls]) timetable).
  assert (Hkp : keys pushed = keys timetable) by (apply keys_assign; auto).
  assert (Hfp : day_of from pushed = day_of from timetable)
    by (apply day_of_assign_other; auto).
  assert (Hep : Permutation (elements pushed) (cls :: elements timetable))
    by (apply elements_push, day_of_lookup; auto).
  assert (Hlf : lookup from pushed = Some (day_of from timetable)).
  { rewrite <- Hfp. apply day_of_lookup. now rewrite Hkp. }
  rewrite Hfp.
  set (kept := filter (fun c => negb (same_object c cls)) (day_of from timetable)).
  assert (Hk : keys (assign from kept pushed) = keys timetable).
  { rewrite keys_assign; auto. now rewrite Hkp. }
  assert (Hperm : Permutation (elements (assign from kept pushed)) (elements timetable)).
  { destruct (elements_assign from _ kept pushed Hlf) as (pre & post & He & ->).
    apply (Permutation_cons_inv (a := cls)).
    rewrite <- Hep, He.
    rewrite (Permutation_middle pre (kept ++ post) cls).
    apply Permutation_app_head.
    change (cls :: kept ++ post) with ((cls :: kept) ++ post).
    apply Permutation_app_tail. symmetry.
    apply filter_out_perm; auto. now apply day_refs_NoDup. }
  repeat split.
  - rewrite Hk. apply Hwf.
  - unfold refs. eapply Permutation_NoDup; [|apply Hwf].
    apply Permutation_map. now symmetry.
  - exact Hk.
  - exact Hperm.
  - apply day_of_assign_same.
  - rewrite day_of_assign_other by auto. apply day_of_assign_same.
  - intros d Hd1 Hd2. rewrite day_of_assign_other by auto.
    apply day_of_assign_other; auto.
Qed.

Lemma moves_from_spec from l t0 t2 :
  moves_from from l t0 t2 ->
  well_formed t0 -> In from (keys t0) ->
  NoDup (refs l) -> (forall x, In x l -> In x (day_of from t0)) ->
  well_formed t2 /\ keys t2 = keys t0
  /\ Permutation (elements t2) (elements t0).
Proof.
  induction 1 as [t|cls rest t0 t1 t2 Hstep Hrest IH]; intros Hwf Hfrom Hnd Hin.
  - auto.
  - inversion Hnd as [|? ? Hnotin Hnd']; subst.
    destruct Hstep as [->|(to & Hne & Hto & ->)].
    + apply IH; auto. intros x Hx. apply Hin. now right.
    + destruct (move_object_spec t0 from to cls) as (Hwf1 & Hk1 & Hp1 & Hd1 & _);
        auto.
      { apply Hin. now left. }
      destruct IH as (Hwf2 & Hk2 & Hp2); auto.
      * now rewrite Hk1.
      * intros x Hx. rewrite Hd1. apply filter_In. split.
        -- apply Hin. now right.
        -- unfold same_object.
           destruct (Nat.eqb (Obj.ref x) (Obj.ref cls)) eqn:He; auto.
           apply Nat.eqb_eq in He. exfalso. apply Hnotin.
           rewrite <- He. now apply in_map.
      * repeat split; try apply Hwf2; try congruence.
        now rewrite Hp2.
Qed.

Lemma move_object_keys timetable from to cls :
  In from (keys timetable) -> In to (keys timetable) ->
  keys (move_object timetable from to cls) = keys timetable.
Proof.
  intros Hfrom Hto. unfold move_object.
  rewrite keys_assign; rewrite keys_assign; auto.
Qed.

Lemma step_from_keys from timetable cls timetable' :
  In from (keys timetable) ->
  step_from from timetable cls timetable' -> keys timetable' = keys timetable.
Proof.
  intros Hfrom [->|(to & _ & Hto & ->)]; auto using move_object_keys.
Qed.

(** ** Teacher-conflict resolution moves objects, nothing else *)

Lemma other_day_in day d ks :
  In d (filter (not_day day) ks) -> d <> day /\ In d ks.
Proof.
  intros H. apply filter_In in H as (Hin & Hnot). split; auto.
  intros ->. unfold not_day in Hnot. now rewrite String.eqb_refl in Hnot.
Qed.

Lemma moveClass_step timetable day cls :
  step_from day timetable cls (moveClassToResolveConflict timetable day cls).
Proof.
  unfold moveClassToResolveConflict.
  destruct (find _ _) as [otherDay|] eqn:Hfind; [|now left].
  right. exists otherDay. apply find_some in Hfind as (Hin & _).
  apply other_day_in in Hin as (Hne & Hin). auto.
Qed.

Lemma teacher_visit_step day timetable seen cls :
  step_from day timetable cls (fst (teacher_visit day (timetable, seen) cls)).
Proof.
  unfold teacher_visit.
  destruct (truthy _ && negb _); [|now left].
  destruct (has_key _ seen); simpl; [apply moveClass_step|now left].
Qed.

Lemma teacher_fold_moves day l : forall timetable seen,
  moves_from day l timetable
             (fst (fold_left (teacher_visit day) l (timetable, seen))).
Proof.
  induction l as [|cls rest IH]; intros timetable seen; cbn [fold_left].
  - constructor.
  - pose proof (teacher_visit_step day timetable seen cls) as Hstep.
    destruct (teacher_visit day (timetable, seen) cls) as [t1 seen1].
    econstructor; [exact Hstep|apply IH].
Qed.

Lemma rearranged_refl t : well_formed t -> rearranged t t.
Proof. intros. repeat split; auto; apply H. Qed.

Lemma rearranged_trans t0 t1 t2 :
  rearranged t0 t1 -> rearranged t1 t2 -> rearranged t0 t2.
Proof.
  intros (_ & Hk1 & Hp1) (Hw2 & Hk2 & Hp2). repeat split; try apply Hw2.
  - congruence.
  - now rewrite Hp2.
Qed.

Lemma moves_of_day from l t0 t2 :
  well_formed t0 -> In from (keys t0) ->
  NoDup (refs l) -> (forall x, In x l -> In x (day_of from t0)) ->
  moves_from from l t0 t2 -> rearranged t0 t2.
Proof. intros. eapply moves_from_spec; eauto. Qed.

Lemma teacher_days_rearranged ks : forall st,
  well_formed (fst st) ->
  (forall k, In k ks -> In k (keys (fst st))) ->
  rearranged (fst st)
    (fst (fold_left
            (fun st day => fold_left (teacher_visit day) (day_of day (fst st)) st)
            ks st)).
Proof.
  induction ks as [|day rest IH]; intros [timetable seen] Hwf Hin;
    cbn [fold_left fst] in *.
  - now apply rearranged_refl.
  - assert (H1 : rearranged timetable
                  (fst (fold_left (teacher_visit day) (day_of day timetable)
                                  (timetable, seen)))).
    { apply (moves_of_day day (day_of day timetable));
        auto using day_refs_NoDup, teacher_fold_moves.
      apply Hin. now left. }
    eapply rearranged_trans; [exact H1|].
    apply IH; [apply H1|].
    intros k Hk. destruct H1 as (_ & -> & _). apply Hin. now right.
Qed.

Lemma resolveTeacherConflicts_rearranged timetable :
  well_formed timetable -> rearranged timetable (resolveTeacherConflicts timetable).
Proof.
  intros Hwf. unfold resolveTeacherConflicts.
  apply (teacher_days_rearranged (keys timetable) (timetable, [])); auto.
Qed.

(** ** Room-conflict resolution rewrites rooms in place *)

Lemma reroomed_refl o : reroomed o o.
Proof. split; [reflexivity|now left]. Qed.

Lemma room_scan_spec day l : forall seen,
  Forall2 reroomed l (fst (room_scan day seen l)).
Proof.
  induction l as [|cls rest IH]; intros seen; simpl.
  - constructor.
  - destruct (truthy _ && negb _).
    + destruct (has_key _ seen).
      * specialize (IH seen). destruct (room_scan day seen rest). simpl in *.
        constructor; auto. split; simpl; [reflexivity|right; eauto].
      * specialize (IH (slot_key day (Entry.time (Obj.val cls))
                                 (Entry.room (Obj.val cls)) :: seen)).
        destruct (room_scan day _ rest). simpl in *.
        constructor; auto using reroomed_refl.
    + specialize (IH seen). destruct (room_scan day seen rest). simpl in *.
      constructor; auto using reroomed_refl.
Qed.

Lemma room_days_spec timetable : forall seen,
  keys (room_days seen timetable) = keys timetable
  /\ Forall2 reroomed (elements timetable) (elements (room_days seen timetable)).
Proof.
  induction timetable as [|[day classes] rest IH]; intros seen; simpl.
  - split; [reflexivity|constructor].
  - pose proof (room_scan_spec day classes seen) as Hscan.
    destruct (room_scan day seen classes) as [classes' seen']. simpl in *.
    destruct (IH seen') as (Hk & Hf). split; [now rewrite Hk|].
    rewrite !elements_cons. now apply Forall2_app.
Qed.

Lemma reroomed_refs l l' : Forall2 reroomed l l' -> refs l' = refs l.
Proof.
  induction 1 as [|o o' l l' [Hr _] _ IH]; simpl; auto. now rewrite Hr, IH.
Qed.

Lemma reroomed_vals l l' :
  Forall2 reroomed l l' ->
  Forall2 same_but_room (map Obj.val l) (map Obj.val l').
Proof.
  induction 1 as [|o o' l l' [_ Hv] _ IH]; simpl; constructor; auto.
Qed.

Lemma resolveRoomConflicts_spec timetable :
  well_formed timetable ->
  well_formed (resolveRoomConflicts timetable)
  /\ keys (resolveRoomConflicts timetable) = keys timetable
  /\ Forall2 reroomed (elements timetable)
                      (elements (resolveRoomConflicts timetable)).
Proof.
  intros [Hk Hr]. unfold resolveRoomConflicts.
  destruct (room_days_spec timetable []) as (Hkeys & Hf).
  repeat split; auto.
  - now rewrite Hkeys.
  - now rewrite (reroomed_refs _ _ Hf).
Qed.

(** ** Workload balancing moves objects, nothing else *)

Lemma redistribute_one_step from others timetable cls :
  (forall d, In d others -> d <> from /\ In d (keys timetable)) ->
  step_from from timetable cls (redistribute_one from others timetable cls).
Proof.
  intros Hothers. unfold redistribute_one.
  set (found := find _ others).
  assert (Htarget : forall d,
             match found with
             | Some (String c r) => Some (String c r)
             | _ => hd_error others
             end = Some d -> In d others).
  { intros d. destruct found as [[|c r]|] eqn:Hf; subst found.
    - destruct others; simpl; [discriminate|]. intros [= ->]. now left.
    - intros [= <-]. now apply find_some in Hf as (Hin & _).
    - destruct others; simpl; [discriminate|]. intros [= ->]. now left. }
  destruct (match found with
            | Some (String c r) => Some (String c r)
            | _ => hd_error others
            end) as [[|c r]|]; try now left.
  right. exists (String c r).
  destruct (Hothers (String c r) (Htarget _ eq_refl)). auto.
Qed.

Lemma redistribute_moves from others l : forall timetable,
  In from (keys timetable) ->
  (forall d, In d others -> d <> from /\ In d (keys timetable)) ->
  moves_from from l timetable
             (fold_left (redistribute_one from others) l timetable).
Proof.
  induction l as [|cls rest IH]; intros timetable Hfrom Hothers; cbn [fold_left].
  - constructor.
  - pose proof (redistribute_one_step from others timetable cls Hothers) as Hstep.
    pose proof (step_from_keys _ _ _ _ Hfrom Hstep) as Hk.
    econstructor; [exact Hstep|].
    apply IH; rewrite Hk; auto.
Qed.

Lemma refs_filter_NoDup p l : NoDup (refs l) -> NoDup (refs (filter p l)).
Proof.
  induction l as [|x rest IH]; simpl; auto.
  intros H. inversion H as [|? ? Hnotin Hnd]; subst.
  destruct (p x); simpl; auto. constructor; auto.
  intros Hin. apply Hnotin. unfold refs in *.
  apply in_map_iff in Hin as (y & Hy & Hyin).
  apply filter_In in Hyin as (Hyin & _). rewrite <- Hy. now apply in_map.
Qed.

Lemma refs_firstn_NoDup n l : NoDup (refs l) -> NoDup (refs (firstn n l)).
Proof.
  intros H. rewrite <- (firstn_skipn n l) in H. unfold refs in *.
  rewrite map_app in H. now apply NoDup_app_l in H.
Qed.

Lemma in_firstn {A} n (l : list A) x : In x (firstn n l) -> In x l.
Proof.
  intros H. rewrite <- (firstn_skipn n l). apply in_app_iff. now left.
Qed.

Lemma redistributeClasses_rearranged timetable fromDay n :
  well_formed timetable -> In fromDay (keys timetable) ->
  rearranged timetable (redistributeClasses timetable fromDay n).
Proof.
  intros Hwf Hfrom. unfold redistributeClasses.
  apply (moves_of_day fromDay
           (firstn n (filter (fun cls => is_theory (Obj.val cls))
                             (day_of fromDay timetable)))); auto.
  - apply refs_firstn_NoDup, refs_filter_NoDup. now apply day_refs_NoDup.
  - intros x Hx. apply in_firstn in Hx. now apply filter_In in Hx as (Hx & _).
  - apply redistribute_moves; auto. intros d Hd. now apply other_day_in in Hd.
Qed.

Lemma balance_days_rearranged (avg : Q) dayWorkload : forall timetable,
  well_formed timetable ->
  (forall dc, In dc dayWorkload -> In (fst dc) (keys timetable)) ->
  rearranged timetable
    (fold_left
       (fun timetable dayCount =>
          let (day, count) := dayCount : string * Z in
          if negb (Qle_bool (inject_Z count) (avg + 1)%Q)
          then redistributeClasses timetable day
                 (Z.to_nat (Qfloor (inject_Z count - avg)%Q))
          else timetable)
       dayWorkload timetable).
Proof.
  induction dayWorkload as [|[day count] rest IH]; intros timetable Hwf Hin;
    cbn [fold_left].
  - now apply rearranged_refl.
  - assert (Hday : In day (keys timetable)) by (apply (Hin (day, count)); now left).
    destruct (negb _).
    + pose proof (redistributeClasses_rearranged timetable day
                    (Z.to_nat (Qfloor (inject_Z count - avg)%Q)) Hwf Hday) as H1.
      eapply rearranged_trans; [exact H1|].
      apply IH; [apply H1|].
      intros dc Hdc. destruct H1 as (_ & -> & _). apply Hin. now right.
    + apply IH; auto. intros dc Hdc. apply Hin. now right.
Qed.

Lemma balanceDailyWorkload_rearranged timetable constraints :
  well_formed timetable ->
  rearranged timetable (balanceDailyWorkload timetable constraints).
Proof.
  intros Hwf. unfold balanceDailyWorkload.
  apply balance_days_rearranged; auto.
  intros dc Hdc. apply in_map_iff in Hdc as ([d l] & <- & Hin). simpl.
  apply filter_In in Hin as (Hin & _).
  unfold keys. now apply (in_map fst) in Hin.
Qed.

(** ** The optimizer as a whole *)

Lemma optimizeTimetable_keys timetable constraints :
  NoDup (keys timetable) ->
  keys (optimizeTimetable timetable constraints) = keys timetable.
Proof.
  intros Hnd. unfold optimizeTimetable.
  pose proof (deep_copy_well_formed timetable Hnd) as Hw0.
  pose proof (resolveTeacherConflicts_rearranged _ Hw0) as (Hw1 & Hk1 & _).
  pose proof (resolveRoomConflicts_spec _ Hw1) as (Hw2 & Hk2 & _).
  pose proof (balanceDailyWorkload_rearranged _ constraints Hw2) as (_ & Hk3 & _).
  rewrite Hk3, Hk2, Hk1. apply deep_copy_keys.
Qed.

Lemma optimizeTimetable_stable Q timetable constraints :
  stable Q -> NoDup (keys timetable) ->
  Q (elements timetable) ->
  Q (elements (contents (optimizeTimetable timetable constraints))).
Proof.
  intros [Hperm Hroom] Hnd HQ. unfold optimizeTimetable.
  pose proof (deep_copy_well_formed timetable Hnd) as Hw0.
  pose proof (resolveTeacherConflicts_rearranged _ Hw0) as (Hw1 & _ & Hp1).
  pose proof (resolveRoomConflicts_spec _ Hw1) as (Hw2 & _ & Hf2).
  pose proof (balanceDailyWorkload_rearranged _ constraints Hw2) as (_ & _ & Hp3).
  rewrite elements_contents.
  eapply Hperm; [symmetry; apply Permutation_map; exact Hp3|].
  eapply Hroom; [apply reroomed_vals; exact Hf2|].
  eapply Hperm; [symmetry; apply Permutation_map; exact Hp1|].
  rewrite <- elements_contents, deep_copy_contents. exact HQ.
Qed.

(** ** Lab blocks *)

Lemma filter_perm {A} (p : A -> bool) a b :
  Permutation a b -> Permutation (filter p a) (filter p b).
Proof.
  induction 1 as [|x a b _ IH|x y a|a b c _ IH1 _ IH2]; simpl; auto.
  - destruct (p x); auto.
  - destruct (p x), (p y); auto. apply perm_swap.
  - now rewrite IH1.
Qed.

Lemma lab_blocks_perm code a b :
  Permutation a b -> lab_blocks code a = lab_blocks code b.
Proof.
  intros H. unfold lab_blocks. apply Permutation_length. now apply filter_perm.
Qed.

Lemma same_but_room_lab code e e' :
  same_but_room e e' ->
  lab_block_of code e' = lab_block_of code e
  /\ is_lab e' = is_lab e
  /\ Entry.duration e' = Entry.duration e
  /\ Entry.time e' = Entry.time e.
Proof. intros [->|(r & ->)]; auto. Qed.

Lemma lab_blocks_reroomed code a b :
  Forall2 same_but_room a b -> lab_blocks code b = lab_blocks code a.
Proof.
  unfold lab_blocks. induction 1 as [|e e' a b He _ IH]; simpl; auto.
  destruct (same_but_room_lab code e e' He) as (-> & _).
  destruct (lab_block_of code e); simpl; auto.
Qed.

Lemma Forall2_in_r {A B} (R : A -> B -> Prop) a b y :
  Forall2 R a b -> In y b -> exists x, In x a /\ R x y.
Proof.
  induction 1 as [|x0 y0 a b HR _ IH]; simpl; [tauto|].
  intros [<-|Hin]; [eauto|].
  destruct (IH Hin) as (x & Hx & Hxy). eauto.
Qed.

Lemma labs_ok_stable timeslots : stable (labs_ok timeslots).
Proof.
  split; intros a b Hab [Hcount Hspan]; split.
  - intros code. now rewrite <- (lab_blocks_perm code a b Hab).
  - intros e He. apply Hspan. eapply Permutation_in; [symmetry|]; eauto.
  - intros code. now rewrite (lab_blocks_reroomed code a b Hab).
  - intros e' He' Hlab.
    destruct (Forall2_in_r _ _ _ _ Hab He') as (e & He & Hrel).
    destruct (same_but_room_lab "" e e' Hrel) as (_ & Hl & Hd & Ht).
    rewrite Hl in Hlab. destruct (Hspan e He Hlab) as (Hdur & s & Hs).
    split; [congruence|]. exists s. now rewrite Ht.
Qed.

Lemma week_has_false code g :
  week_has code g = false ->
  forall e, In e (elements g) -> opt_eqb (Entry.code e) (Some code) = false.
Proof.
  unfold week_has, elements. intros H e He.
  apply in_concat in He as (l & Hl & He).
  destruct (opt_eqb (Entry.code e) (Some code)) eqn:Hc; auto.
  assert (Hex : existsb (fun dayClasses =>
                   existsb (fun sc => opt_eqb (Entry.code sc) (Some code)) dayClasses)
                  (map snd g) = true).
  { apply existsb_exists. exists l. split; auto.
    apply existsb_exists. eauto. }
  congruence.
Qed.

Lemma filter_none {A} (p : A -> bool) l :
  (forall x, In x l -> p x = false) -> filter p l = [].
Proof.
  induction l as [|x rest IH]; simpl; auto. intros H.
  rewrite (H x (or_introl eq_refl)). apply IH. auto.
Qed.

Lemma labs_ok_cons_other timeslots l e :
  is_lab e = false -> labs_ok timeslots l -> labs_ok timeslots (e :: l).
Proof.
  intros He [Hcount Hspan]. split.
  - intros code. unfold lab_blocks, lab_block_of. simpl. rewrite He. simpl.
    apply Hcount.
  - intros x [<-|Hx] Hlab; [congruence|auto].
Qed.

Lemma labs_ok_cons_lab timeslots l s room course :
  In s timeslots -> Timeslot.type s = "lab" ->
  (forall e, In e l -> opt_eqb (Entry.code e) (Some (lab_code course)) = false) ->
  labs_ok timeslots l ->
  labs_ok timeslots (lab_entry (time_of_slot s) room course :: l).
Proof.
  intros Hs Htype Hfresh [Hcount Hspan]. split.
  - intros code. unfold lab_blocks. simpl.
    destruct (lab_block_of code (lab_entry (time_of_slot s) room course)) eqn:Hb;
      [|apply Hcount].
    unfold lab_block_of in Hb. simpl in Hb. apply String.eqb_eq in Hb.
    rewrite filter_none; [simpl; lia|].
    intros e He. unfold lab_block_of. rewrite <- Hb.
    fold (lab_code course). rewrite (Hfresh e He). apply andb_false_r.
  - intros x [<-|Hx] Hlab; [|auto].
    split; [reflexivity|]. exists s. auto.
Qed.

Lemma labs_ok_markers timeslots l markers :
  Forall (fun m => marker_type m = true) markers ->
  labs_ok timeslots l -> labs_ok timeslots (l ++ markers).
Proof.
  intros Hm Hok. induction Hm as [|m ms Hmt _ IH].
  - now rewrite app_nil_r.
  - destruct (labs_ok_stable timeslots) as [Hperm _].
    apply (Hperm (m :: l ++ ms)); [apply Permutation_middle|].
    apply labs_ok_cons_other; auto.
    unfold marker_type in Hmt. unfold is_lab.
    apply orb_true_iff in Hmt as [H|H]; apply String.eqb_eq in H; now rewrite H.
Qed.

Lemma construct_labs_ok h sectionData constraints w u w' :
  construct h sectionData constraints w = Ok u w' ->
  labs_ok (SectionData.timeslots sectionData) (elements (grid w')).
Proof.
  destruct (labs_ok_stable (SectionData.timeslots sectionData)) as [Hperm _].
  apply (construct_invariant
           (fun g => labs_ok (SectionData.timeslots sectionData) (elements g))).
  - split; [intros code; apply Nat.le_0_l|intros e []].
  - intros g g' (day & l & s & room & course & _ & Hl & _ & _ & ->) Hok.
    eapply Hperm; [symmetry; apply elements_push; exact Hl|].
    now apply labs_ok_cons_other.
  - intros g g' (day & l & s & room & course & _ & Hl & Hweek & Hs & ->) Hok.
    eapply Hperm; [symmetry; apply elements_push; exact Hl|].
    apply filter_In in Hs as (Hs & Hkind).
    apply labs_ok_cons_lab; auto.
    + now apply String.eqb_eq in Hkind.
    + now apply week_has_false.
Qed.

(** The run up to the optimizer, then the optimizer. *)
Lemma generateTimetable_Ok h sectionData overrides w g w' :
  generateTimetable h sectionData overrides w = Ok g w' ->
  let finalConstraints := Constraints.merge this_constraints overrides in
  exists w1,
    construct h sectionData finalConstraints w = Ok tt w1
    /\ addBreaksAndLunch h w1 = Ok tt w'
    /\ Generated.days g = contents (optimizeTimetable (grid w') finalConstraints)
    /\ Generated.constraints g = finalConstraints.
Proof.
  unfold generateTimetable. intros H.
  apply bind_Ok in H as ([] & w1 & Hc & H).
  apply bind_Ok in H as ([] & w2 & Hb & H).
  apply bind_Ok in H as (timetable & w3 & Hg & H).
  injection Hg as <- <-. injection H as <- <-. simpl. eauto.
Qed.

(** C5: in the grid that [generateTimetable] returns, no lab course has more
    than one lab block in the week, and every lab block spans the start and
    end of one lab slot and records a duration of two hours. *)
Theorem one_lab_block_per_week h sectionData overrides w g w' :
  generateTimetable h sectionData overrides w = Ok g w' ->
  (forall course,
      (lab_blocks (Course.code course) (elements (Generated.days g)) <= 1)%nat)
  /\ (forall e, In e (elements (Generated.days g)) -> is_lab e = true ->
        one_lab_span (SectionData.timeslots sectionData) e).
Proof.
  intros H. apply generateTimetable_Ok in H as (w1 & Hc & Hb & -> & _).
  pose proof (construct_keys _ _ _ _ _ _ Hc) as Hkeys.
  pose proof (construct_labs_ok _ _ _ _ _ _ Hc) as Hok.
  assert (Hnd : NoDup (keys (grid w1))) by (rewrite Hkeys; apply week_NoDup).
  apply addBreaksAndLunch_injected in Hb as (Hk' & ms & Hp & Hms); auto.
  destruct (labs_ok_stable (SectionData.timeslots sectionData)) as [Hperm _].
  assert (Hok' : labs_ok (SectionData.timeslots sectionData) (elements (grid w'))).
  { eapply Hperm; [symmetry; exact Hp|]. now apply labs_ok_markers. }
  assert (Hfinal : labs_ok (SectionData.timeslots sectionData)
                     (elements (contents (optimizeTimetable (grid w')
                        (Constraints.merge this_constraints overrides))))).
  { apply optimizeTimetable_stable; auto using labs_ok_stable. congruence. }
  destruct Hfinal as [Hcount Hspan]. split; auto.
Qed.

(** ** The scorer *)

Lemma has_key_true k seen :
  has_key k seen = true <-> inherited k = true \/ In k seen.
Proof.
  unfold has_key. rewrite orb_true_iff, existsb_exists. split.
  - intros [H|(x & Hx & He)]; [now left|].
    apply String.eqb_eq in He. subst. now right.
  - intros [H|H]; [now left|]. right. exists k. split; auto.
    apply String.eqb_refl.
Qed.

Lemma nodup_length_le (l : list string) :
  (length (nodup string_dec l) <= length l)%nat.
Proof.
  induction l as [|x rest IH]; simpl; auto.
  destruct (in_dec string_dec x rest); simpl; lia.
Qed.

Lemma nodup_without k (l : list string) :
  length (nodup string_dec l)
  = ((if in_dec string_dec k l then 1 else 0)
     + length (nodup string_dec (filter (fun x => negb (String.eqb x k)) l)))%nat.
Proof.
  induction l as [|x rest IH].
  - reflexivity.
  - cbn [nodup filter].
    destruct (String.eqb x k) eqn:Hx; cbn [negb].
    + apply String.eqb_eq in Hx. subst x.
      destruct (in_dec string_dec k (k :: rest)) as [_|Hn];
        [|exfalso; apply Hn; now left].
      revert IH.
      destruct (in_dec string_dec k rest); intros IH; cbn [length]; lia.
    + assert (Hne : x <> k) by (intros ->; now rewrite String.eqb_refl in Hx).
      assert (Hiff : In x (filter (fun y => negb (String.eqb y k)) rest) <-> In x rest).
      { rewrite filter_In. rewrite Hx. simpl. tauto. }
      assert (Hk : In k (x :: rest) <-> In k rest).
      { simpl. intuition congruence. }
      cbn [nodup]. revert IH.
      destruct (in_dec string_dec x rest);
        destruct (in_dec string_dec x (filter _ rest));
        destruct (in_dec string_dec k rest);
        destruct (in_dec string_dec k (x :: rest));
        try tauto; intros IH; cbn [length]; lia.
Qed.

Lemma filter_filter {A} (p q : A -> bool) l :
  filter p (filter q l) = filter (fun x => q x && p x) l.
Proof.
  induction l as [|x rest IH]; simpl; auto.
  destruct (q x); simpl; [destruct (p x)|]; now rewrite IH.
Qed.

Lemma dups_count l : forall seen,
  (dups seen l
   + length (nodup string_dec (filter (fun k => negb (has_key k seen)) l))
   = length l)%nat.
Proof.
  induction l as [|k rest IH]; intros seen; simpl; auto.
  destruct (has_key k seen) eqn:Hk; simpl.
  - rewrite <- (IH seen). lia.
  - set (F := filter (fun k0 => negb (has_key k0 seen)) rest).
    assert (HF : filter (fun k0 => negb (has_key k0 (k :: seen))) rest
                 = filter (fun x => negb (String.eqb x k)) F).
    { unfold F. rewrite filter_filter. apply filter_ext. intros x.
      unfold has_key. cbn [existsb]. rewrite (String.eqb_sym x k).
      destruct (inherited x), (String.eqb k x), (existsb (String.eqb x) seen);
        reflexivity. }
    specialize (IH (k :: seen)). rewrite HF in IH.
    pose proof (nodup_without k F) as Hn.
    destruct (in_dec string_dec k F); simpl; lia.
Qed.

Lemma dups_flagged l : dups [] l = flagged l.
Proof.
  unfold flagged. pose proof (dups_count l []) as H.
  rewrite (filter_ext (fun k => negb (has_key k []))
                      (fun k => negb (inherited k))) in H.
  - lia.
  - intros k. unfold has_key. cbn [existsb]. now rewrite orb_false_r.
Qed.

Lemma flagged_repeats l :
  (forall k, In k l -> inherited k = false) -> flagged l = repeats l.
Proof.
  intros H. unfold flagged, repeats.
  rewrite forallb_filter_id; [reflexivity|].
  apply forallb_forall. intros k Hk. now rewrite (H k Hk).
Qed.

(** Keys are equal exactly when the triples are, for days and times
    without ["_"]. *)
Lemma append_sep_inj a : forall a' b b',
  underscore_free a = true -> underscore_free a' = true ->
  a +++ "_" +++ b = a' +++ "_" +++ b' -> a = a' /\ b = b'.
Proof.
  induction a as [|c r IH]; intros [|c' r'] b b' Ha Ha'; simpl in *.
  - intros [= ->]. auto.
  - intros [= <- _]. discriminate.
  - intros [= -> _]. discriminate.
  - apply andb_true_iff in Ha as (_ & Hr). apply andb_true_iff in Ha' as (_ & Hr').
    intros [= <- H]. destruct (IH _ _ _ Hr Hr' H) as (-> & ->). auto.
Qed.

Lemma slot_key_inj day day' time time' who who' :
  underscore_free day = true -> underscore_free day' = true ->
  underscore_free time = true -> underscore_free time' = true ->
  slot_key day time (Some who) = slot_key day' time' (Some who') ->
  day = day' /\ time = time' /\ who = who'.
Proof.
  unfold slot_key. simpl. intros Hd Hd' Ht Ht' H.
  apply append_sep_inj in H as (-> & H); auto.
  apply append_sep_inj in H as (-> & ->); auto.
Qed.

(** The nested [forEach] of [detectConflicts] is one walk over [scan]. *)
Lemma detect_walk timetable : forall st,
  fold_left (fun st dc => fold_left (detect_visit (fst dc)) (snd dc) st) timetable st
  = fold_left (fun st de => detect_visit (fst de) st (snd de)) (scan timetable) st.
Proof.
  induction timetable as [|[day classes] rest IH]; intros st; simpl; auto.
  rewrite fold_left_app, IH. f_equal.
  clear. revert st. induction classes as [|c cs IHc]; intros st; simpl; auto.
Qed.

Lemma detect_visit_skip day cls st :
  counted (day, cls) = false -> detect_visit day st cls = st.
Proof.
  unfold counted, detect_visit. simpl. destruct st as [[cs ts] rs].
  now intros ->.
Qed.

Lemma detect_visit_counted day cls cs ts rs :
  counted (day, cls) = true ->
  detect_visit day (cs, ts, rs) cls
  = (cs
       ++ (if has_key (teacher_key (day, cls)) ts
           then [double_booked "Teacher" (Entry.teacher cls) day (Entry.time cls)]
           else [])
       ++ (if has_key (room_key (day, cls)) rs
           then [double_booked "Room" (Entry.room cls) day (Entry.time cls)]
           else []),
     if has_key (teacher_key (day, cls)) ts then ts else teacher_key (day, cls) :: ts,
     if has_key (room_key (day, cls)) rs then rs else room_key (day, cls) :: rs).
Proof.
  unfold counted, detect_visit, teacher_key, room_key. simpl. intros ->.
  destruct (has_key _ ts); destruct (has_key _ rs);
    rewrite ?app_nil_r, <- ?app_assoc; reflexivity.
Qed.

Lemma detect_count walk : forall conflicts teacherSlots roomSlots,
  length (fst (fst (fold_left (fun st de => detect_visit (fst de) st (snd de))
                              walk (conflicts, teacherSlots, roomSlots))))
  = (length conflicts
     + dups teacherSlots (map teacher_key (filter counted walk))
     + dups roomSlots (map room_key (filter counted walk)))%nat.
Proof.
  induction walk as [|[day cls] rest IH]; intros conflicts teacherSlots roomSlots.
  - simpl. lia.
  - cbn [fold_left filter fst snd].
    destruct (counted (day, cls)) eqn:Hc.
    + rewrite detect_visit_counted by exact Hc. rewrite IH.
      cbn [map dups].
      destruct (has_key (teacher_key (day, cls)) teacherSlots);
        destruct (has_key (room_key (day, cls)) roomSlots);
        rewrite ?length_app; simpl; lia.
    + rewrite detect_visit_skip by exact Hc. apply IH.
Qed.

Lemma detectConflicts_count timetable :
  length (detectConflicts timetable)
  = (flagged (teacher_keys timetable) + flagged (room_keys timetable))%nat.
Proof.
  unfold detectConflicts. rewrite detect_walk, detect_count.
  now rewrite !dups_flagged.
Qed.

Lemma Math_max_from a l :
  fold_left (fun m x => num_max m (Fin x)) l (Fin a) = Fin (fold_left Z.max l a).
Proof. revert a. induction l as [|x rest IH]; intros a; simpl; auto. Qed.

Lemma Math_min_from a l :
  fold_left (fun m x => num_min m (Fin x)) l (Fin a) = Fin (fold_left Z.min l a).
Proof. revert a. induction l as [|x rest IH]; intros a; simpl; auto. Qed.

Lemma fold_max_bounds l : forall a,
  a <= fold_left Z.max l a
  /\ (forall x, In x l -> x <= fold_left Z.max l a)
  /\ (fold_left Z.max l a = a \/ In (fold_left Z.max l a) l).
Proof.
  induction l as [|y rest IH]; intros a; simpl.
  - repeat split; auto; try lia; try (now intros x []).
  - destruct (IH (Z.max a y)) as (H1 & H2 & H3). repeat split.
    + lia.
    + intros x [<-|Hx]; [lia|auto].
    + destruct H3 as [H3|H3]; [|auto].
      rewrite H3. destruct (Z.max_spec a y) as [[_ ->]|[_ ->]]; auto.
Qed.

Lemma fold_min_bounds l : forall a,
  fold_left Z.min l a <= a
  /\ (forall x, In x l -> fold_left Z.min l a <= x)
  /\ (fold_left Z.min l a = a \/ In (fold_left Z.min l a) l).
Proof.
  induction l as [|y rest IH]; intros a; simpl.
  - repeat split; auto; try lia; try (now intros x []).
  - destruct (IH (Z.min a y)) as (H1 & H2 & H3). repeat split.
    + lia.
    + intros x [<-|Hx]; [lia|auto].
    + destruct H3 as [H3|H3]; [|auto].
      rewrite H3. destruct (Z.min_spec a y) as [[_ ->]|[_ ->]]; auto.
Qed.

Lemma Math_max_greatest l most :
  In most l -> (forall x, In x l -> x <= most) -> Math_max l = Fin most.
Proof.
  destruct l as [|a rest]; [intros []|]. intros Hin Hub.
  unfold Math_max. simpl. rewrite Math_max_from. f_equal.
  destruct (fold_max_bounds rest a) as (H1 & H2 & H3).
  assert (fold_left Z.max rest a <= most).
  { destruct H3 as [->|H3]; apply Hub; simpl; auto. }
  assert (most <= fold_left Z.max rest a).
  { destruct Hin as [<-|Hin]; auto. }
  lia.
Qed.

Lemma Math_min_least l least :
  In least l -> (forall x, In x l -> least <= x) -> Math_min l = Fin least.
Proof.
  destruct l as [|a rest]; [intros []|]. intros Hin Hlb.
  unfold Math_min. simpl. rewrite Math_min_from. f_equal.
  destruct (fold_min_bounds rest a) as (H1 & H2 & H3).
  assert (least <= fold_left Z.min rest a).
  { destruct H3 as [->|H3]; apply Hlb; simpl; auto. }
  assert (fold_left Z.min rest a <= least).
  { destruct Hin as [<-|Hin]; auto. }
  lia.
Qed.

(** *** Keys and bookings *)

Lemma underscore_free_sep a b : underscore_free (a +++ "_" +++ b) = false.
Proof.
  induction a as [|c r IH]; [reflexivity|].
  change (underscore_free (String c r +++ "_" +++ b))
    with (negb (Ascii.eqb c "_") && underscore_free (r +++ "_" +++ b)).
  rewrite IH. apply andb_false_r.
Qed.

(** The key of a day with a name is no inherited property: it holds a
    ["_"] and starts with none. *)
Lemma slot_key_not_inherited day time who :
  is_day_name day = true -> inherited (slot_key day time who) = false.
Proof.
  intros Hd. apply not_true_is_false. intros H.
  unfold inherited in H. apply existsb_exists in H as (name & Hname & He).
  apply String.eqb_eq in He.
  assert (Hfree : underscore_free name = false)
    by (rewrite <- He; apply underscore_free_sep).
  destruct day as [|c r]; [discriminate|].
  unfold is_day_name in Hd. cbn in Hd.
  apply andb_true_iff in Hd as (Hc & _). apply negb_true_iff in Hc.
  unfold slot_key in He. cbn [String.append] in He.
  cbn [Object_prototype In] in Hname.
  repeat (destruct Hname as [<-|Hname];
          [first [ now vm_compute in Hfree
                 | injection He as -> _; vm_compute in Hc; discriminate Hc ]|]).
  contradiction.
Qed.

Lemma scan_in day e timetable :
  In (day, e) (scan timetable) ->
  In day (keys timetable) /\ In e (elements timetable).
Proof.
  unfold scan, keys, elements. induction timetable as [|[d l] rest IH]; simpl.
  - intros [].
  - rewrite in_app_iff. intros [H|H].
    + apply in_map_iff in H as (x & [= <- <-] & Hx). split; [now left|].
      apply in_app_iff. now left.
    + destruct (IH H) as (Hk & He). split; [now right|].
      apply in_app_iff. now right.
Qed.

(** Distinct values, counted through a map that tells them apart. *)
Lemma nodup_through {A B} (decA : forall a b : A, {a = b} + {a <> b})
    (decB : forall a b : B, {a = b} + {a <> b}) (f : A -> B) l :
  (forall x y, In x l -> In y l -> f x = f y -> x = y) ->
  length (nodup decB (map f l)) = length (nodup decA l).
Proof.
  induction l as [|x rest IH]; intros Hinj; [reflexivity|].
  cbn [map nodup].
  assert (Hrest : length (nodup decB (map f rest)) = length (nodup decA rest)).
  { apply IH. intros a b Ha Hb. apply Hinj; now right. }
  destruct (in_dec decA x rest) as [Hin|Hout];
    destruct (in_dec decB (f x) (map f rest)) as [Hin'|Hout'].
  - exact Hrest.
  - exfalso. apply Hout'. now apply in_map.
  - exfalso. apply in_map_iff in Hin' as (y & Hy & Hyin).
    apply Hout. rewrite (Hinj x y); auto; [now left|now right].
  - cbn [length]. now rewrite Hrest.
Qed.

Lemma truthy_some v : truthy v = true -> exists s, v = Some s.
Proof. destruct v as [s|]; [eauto|discriminate]. Qed.

Lemma plain_labels_scan timetable day e :
  plain_labels timetable = true -> In (day, e) (scan timetable) ->
  is_day_name day = true /\ underscore_free (Entry.time e) = true.
Proof.
  unfold plain_labels. intros H Hin.
  apply andb_true_iff in H as (Hd & Ht).
  rewrite forallb_forall in Hd, Ht.
  apply scan_in in Hin as (Hk & He). auto.
Qed.

Lemma is_day_name_free d : is_day_name d = true -> underscore_free d = true.
Proof. unfold is_day_name. intros H. now apply andb_true_iff in H. Qed.

(** On a grid with plain labels the scan flags exactly the bookings that
    repeat an earlier one. *)
Lemma flagged_bookings timetable (who : Entry.t -> option string) :
  plain_labels timetable = true ->
  (forall de, In de (filter counted (scan timetable)) ->
     truthy (who (snd de)) = true) ->
  flagged (map (fun de => slot_key (fst de) (Entry.time (snd de)) (who (snd de)))
               (filter counted (scan timetable)))
  = double_bookings
      (map (fun de => (fst de, Entry.time (snd de), who (snd de)))
           (filter counted (scan timetable))).
Proof.
  intros Hplain Hwho.
  assert (Hscan : forall de, In de (filter counted (scan timetable)) ->
            is_day_name (fst de) = true
            /\ underscore_free (Entry.time (snd de)) = true).
  { intros [d e] Hde. apply filter_In in Hde as (Hde & _).
    now apply (plain_labels_scan timetable). }
  rewrite flagged_repeats.
  - unfold repeats, double_bookings. rewrite !length_map. f_equal.
    rewrite <- (map_map (fun de => (fst de, Entry.time (snd de), who (snd de)))
                        (fun b : booking => slot_key (fst (fst b)) (snd (fst b)) (snd b))).
    apply (nodup_through booking_eq_dec string_dec).
    intros [[d t] w] [[d' t'] w'] Hb Hb' Hkey. cbn [fst snd] in Hkey.
    apply in_map_iff in Hb as (de & [= <- <- <-] & Hde).
    apply in_map_iff in Hb' as (de' & [= <- <- <-] & Hde').
    destruct (truthy_some _ (Hwho de Hde)) as (n & Hn).
    destruct (truthy_some _ (Hwho de' Hde')) as (n' & Hn').
    destruct (Hscan de Hde) as (Hd & Ht). destruct (Hscan de' Hde') as (Hd' & Ht').
    rewrite Hn, Hn' in *.
    apply slot_key_inj in Hkey as (-> & -> & ->);
      auto using is_day_name_free.
  - intros k Hk. apply in_map_iff in Hk as (de & <- & Hde).
    apply slot_key_not_inherited. now apply Hscan.
Qed.

Lemma counted_teacher de timetable :
  In de (filter counted (scan timetable)) -> truthy (Entry.teacher (snd de)) = true.
Proof.
  intros H. apply filter_In in H as (_ & H). unfold counted in H.
  now apply andb_true_iff in H.
Qed.

Lemma counted_room de timetable :
  In de (filter counted (scan timetable)) -> truthy (Entry.room (snd de)) = true.
Proof.
  intros H. apply filter_In in H as (_ & H). unfold counted in H.
  now apply andb_true_iff in H.
Qed.

(** The count the balance score takes is the count by type. *)
Lemma session_count_by_type day : session_count day = sessions_of day.
Proof.
  unfold session_count, sessions_of. f_equal.
  induction day as [|e rest IH]; [reflexivity|].
  cbn [filter map count_occ]. unfold is_session at 1.
  destruct (string_dec (Entry.type e) "theory") as [Ht|Ht];
    destruct (string_dec (Entry.type e) "lab") as [Hl|Hl].
  - rewrite Ht in Hl. discriminate.
  - rewrite Ht. cbn. rewrite IH. lia.
  - rewrite Hl. cbn. rewrite IH. lia.
  - apply String.eqb_neq in Ht, Hl. rewrite Ht, Hl. cbn. exact IH.
Qed.


(** X28: on a grid with at least one day, whose day names are not empty and
    hold no ["_"] and whose times hold no ["_"], the score is 100, less 10
    for every (day, time, teacher) and every (day, time, room) booking that
    repeats an earlier one among the entries that name both a teacher and a
    room, less 5 times the spread between the largest and the smallest daily
    number of theory and lab sessions, and never below 0. *)
Theorem score_formula timetable most least :
  plain_labels timetable = true ->
  In most (map sessions_of (map snd timetable)) ->
  (forall n, In n (map sessions_of (map snd timetable)) -> n <= most) ->
  In least (map sessions_of (map snd timetable)) ->
  (forall n, In n (map sessions_of (map snd timetable)) -> least <= n) ->
  calculateTimetableScore timetable
  = Fin (Z.max 0
           (100
            - 10 * Z.of_nat (double_bookings (teacher_bookings timetable)
                             + double_bookings (room_bookings timetable))
            + (-5) * (most - least))).
Proof.
  intros Hplain Hmost Hub Hleast Hlb.
  assert (Hcounts : map (fun dc => session_count (snd dc)) timetable
                    = map sessions_of (map snd timetable)).
  { rewrite map_map. apply map_ext. intros dc. apply session_count_by_type. }
  unfold calculateTimetableScore, calculateBalanceScore.
  rewrite Hcounts.
  rewrite (Math_max_greatest _ _ Hmost Hub), (Math_min_least _ _ Hleast Hlb).
  rewrite detectConflicts_count.
  unfold teacher_keys, room_keys, teacher_key, room_key.
  rewrite (flagged_bookings timetable Entry.teacher Hplain)
    by (intros de; apply counted_teacher).
  rewrite (flagged_bookings timetable Entry.room Hplain)
    by (intros de; apply counted_room).
  fold teacher_booking room_booking.
  change (map teacher_booking (filter counted (scan timetable)))
    with (teacher_bookings timetable).
  change (map room_booking (filter counted (scan timetable)))
    with (room_bookings timetable).
  unfold num_sub, num_add, num_neg, num_scale, num_max. f_equal. lia.
Qed.

(** ** Room selection *)

Lemma pick_from h (l : list Room.t) w :
  l <> [] ->
  exists r, In r l
            /\ (i <- random_index h (length l) ;; name_at l i) w
               = Ok (Room.name r) (mkWorld (grid w) (S (draws w)) (console w)).
Proof.
  intros Hne. unfold bind. rewrite random_index_run.
  set (i := match length l with O => O | S _ => Nat.modulo (random h (draws w)) (length l) end).
  assert (Hi : (i < length l)%nat).
  { subst i. destruct l as [|x rest]; [contradiction|].
    apply Nat.mod_upper_bound. discriminate. }
  destruct (nth_error l i) as [r|] eqn:Hn.
  - exists r. split; [eapply nth_error_In; eauto|].
    unfold name_at. now rewrite Hn.
  - apply nth_error_None in Hn. lia.
Qed.

Lemma find_none_all {A} (p : A -> bool) l :
  find p l = None <-> forall x, In x l -> p x = false.
Proof.
  split.
  - intros H x Hx. eapply find_none; eauto.
  - induction l as [|x rest IH]; simpl; auto. intros H.
    rewrite (H x (or_introl eq_refl)). apply IH. auto.
Qed.

Lemma is_classroom_spec r : is_classroom r = true <-> classroom r.
Proof. apply String.eqb_eq. Qed.

Lemma is_lab_room_spec r : is_lab_room r = true <-> lab_room r.
Proof. apply String.eqb_eq. Qed.

Lemma suitable_spec course r :
  suitable course r = true <-> classroom r /\ seats course r.
Proof.
  unfold suitable, seats, enrolment, num_or.
  rewrite andb_true_iff, is_classroom_spec, Z.leb_le.
  destruct (Course.expectedStudents course) as [[|p|p]|]; reflexivity.
Qed.

Lemma find_at {A} (p : A -> bool) before x after :
  (forall y, In y before -> p y = false) -> p x = true ->
  find p (before ++ x :: after) = Some x.
Proof.
  intros Hb Hx. induction before as [|y rest IH]; simpl.
  - now rewrite Hx.
  - rewrite (Hb y) by now left. apply IH. intros z Hz. apply Hb. now right.
Qed.

(** The only classroom of the list has no name, and the selector returns
    ["Room 201"], which names no room of the list. *)
Lemma unnamed_classroom_passed_over : ~ room_selection_as_stated.
Proof.
  intros H.
  destruct (H (host_of []) [unnamed_room] (theory_course "C1" "T1") boot)
    as (name & w' & Hrun & _ & Hfallback & _).
  injection Hrun as <- _.
  destruct Hfallback as (r & Hr & _ & Hname).
  - intros r [<-|[]] (_ & Hseats). unfold seats in Hseats. cbn in Hseats. lia.
  - exists unnamed_room. split; [now left|reflexivity].
  - destruct Hr as [<-|[]]. discriminate Hname.
Qed.

(** C7, amended: room selection always returns a room name and throws
    nothing.  For a classroom: the name of a classroom with enough seats
    when the list has one; failing that the name of the first classroom of
    the list, or ["Room 201"] when that name is empty; failing any
    classroom, ["Room 201"].  For a lab: the name of a lab room of the list,
    or ["Lab 101"] when it has none.  With an empty list both defaults are
    returned, whatever the expected enrollment. *)
Theorem room_selection_never_fails h rooms course w :
  (exists name w',
      findSuitableRoom h rooms course w = Ok name w'
      /\ same_store w w'
      /\ ((exists r, In r rooms /\ classroom r /\ seats course r) ->
          exists r, In r rooms /\ classroom r /\ seats course r
                    /\ name = Room.name r)
      /\ ((forall r, In r rooms -> ~ (classroom r /\ seats course r)) ->
          forall r, first_classroom rooms r ->
            name = if string_dec (Room.name r) "" then "Room 201"
                   else Room.name r)
      /\ ((forall r, In r rooms -> ~ classroom r) -> name = "Room 201"))
  /\ (exists name w',
        findLabRoom h rooms course w = Ok name w'
        /\ same_store w w'
        /\ ((exists r, In r rooms /\ lab_room r) ->
            exists r, In r rooms /\ lab_room r /\ name = Room.name r)
        /\ ((forall r, In r rooms -> ~ lab_room r) -> name = "Lab 101"))
  /\ findSuitableRoom h [] course w = Ok "Room 201" w
  /\ findLabRoom h [] course w = Ok "Lab 101" w.
Proof.
  split; [|split; [|split; reflexivity]].
  - unfold findSuitableRoom.
    destruct (filter (suitable course) rooms) as [|r0 sl] eqn:Hf.
    + assert (Hnone : forall r, In r rooms -> ~ (classroom r /\ seats course r)).
      { intros r Hr Hs. apply suitable_spec in Hs.
        assert (In r (filter (suitable course) rooms)) by (apply filter_In; auto).
        rewrite Hf in H. contradiction. }
      eexists _, w. split; [reflexivity|]. split; [apply same_store_refl|].
      split; [|split].
      * intros (r & Hr & Hs). now apply Hnone in Hs.
      * intros _ r (before & after & -> & Hbefore & Hr).
        rewrite (find_at is_classroom before r after).
        -- destruct (string_dec (Room.name r) "") as [->|Hne]; [reflexivity|].
           apply String.eqb_neq in Hne. now rewrite Hne.
        -- intros y Hy. apply not_true_is_false. intros Hc.
           apply is_classroom_spec in Hc. now apply (Hbefore y).
        -- now apply is_classroom_spec.
      * intros Hno.
        destruct (find is_classroom rooms) as [r1|] eqn:Hfind; auto.
        apply find_some in Hfind as (Hin & Hcl).
        apply is_classroom_spec in Hcl. now apply Hno in Hcl.
    + destruct (pick_from h (r0 :: sl) w) as (r & Hin & Hrun); [discriminate|].
      rewrite <- Hf in Hin. apply filter_In in Hin as (Hin & Hs).
      apply suitable_spec in Hs.
      eexists _, _. split; [exact Hrun|]. split; [split; reflexivity|].
      split; [|split].
      * intros _. exists r. tauto.
      * intros Hnone. now apply Hnone in Hs.
      * intros Hno. destruct Hs as (Hc & _). now apply Hno in Hc.
  - unfold findLabRoom.
    destruct (filter is_lab_room rooms) as [|r0 sl] eqn:Hf.
    + eexists _, w. split; [reflexivity|]. split; [apply same_store_refl|].
      split; [|reflexivity].
      intros (r & Hr & Hl). apply is_lab_room_spec in Hl.
      assert (In r (filter is_lab_room rooms)) by (apply filter_In; auto).
      rewrite Hf in H. contradiction.
    + destruct (pick_from h (r0 :: sl) w) as (r & Hin & Hrun); [discriminate|].
      rewrite <- Hf in Hin. apply filter_In in Hin as (Hin & Hs).
      apply is_lab_room_spec in Hs.
      eexists _, _. split; [exact Hrun|]. split; [split; reflexivity|].
      split.
      * intros _. eauto.
      * intros Hno. now apply Hno in Hs.
Qed.

(** ** Zero courses *)

(** C9, amended: with no course, whatever the rooms, the slots and the
    overrides, generation returns the six days all empty (no session and no
    marker either: a marker is only ever placed next to an entry), logs no
    unplaced course, and the scorer gives that grid exactly 100. *)
Theorem zero_courses_empty_week h department semester section rooms timeslots overrides w :
  exists g w',
    generateTimetable h
      (SectionData.mk department semester section [] rooms timeslots)
      overrides w = Ok g w'
    /\ Generated.days g = empty_week
    /\ console w' = console w
    /\ calculateTimetableScore (Generated.days g) = Fin 100.
Proof.
  eexists _, _. split; [reflexivity|]. repeat split.
Qed.

(** The markers C9 speaks of are not there. *)
Lemma zero_courses_no_markers :
  ~ zero_courses_as_stated (host_of [])
      (SectionData.mk "CSE" "3" "A" [] [R1] [slot_8; slot_9; slot_lab]).
Proof.
  intros (g & w' & Hrun & _ & (e & He & _) & _).
  vm_compute in Hrun. injection Hrun as <- _. exact He.
Qed.

(** ** Exhausted budgets *)

(** Two catalogues, one with a course that cannot be placed: the same value
    is returned for both. *)
Lemma unplaced_not_reported : ~ unplaced_are_reported.
Proof.
  intros (report & Hreport).
  set (C1 := theory_course "C1" "T1"). set (C2 := theory_course "C2" "T1").
  destruct (generateTimetable (host_of [])
              (SectionData.mk "CSE" "3" "A" [C1; C2] [R1] [slot_8])
              Constraints.none boot) as [gA wA|] eqn:HA;
    [|vm_compute in HA; discriminate].
  destruct (generateTimetable (host_of [])
              (SectionData.mk "CSE" "3" "A" [C1] [R1] [slot_8])
              Constraints.none boot) as [gB wB|] eqn:HB;
    [|vm_compute in HB; discriminate].
  destruct (Hreport _ _ _ _ _ C2 HA) as [_ HA'].
  destruct (Hreport _ _ _ _ _ C2 HB) as [HB' _].
  vm_compute in HA. injection HA as <- <-.
  vm_compute in HB. injection HB as <- <-.
  assert (Hyes : report
    (Generated.mk
       (assign "Monday"
          [theory_entry "8:00-8:40" "R1" C1; lunch_entry] empty_week)
       "CSE-3-A" "2024-01-01T00:00:00.000Z" this_constraints) C2 = true).
  { apply HA'. left. simpl. auto. }
  apply HB' in Hyes. destruct Hyes as [[]|[]].
Qed.

(** C2, amended: when the 100 attempts for a theory course (the 50 for a lab
    course) all fail, the grid is as it was, one warning naming the course
    goes to the console, and the loop goes on with the remaining courses
    from there; what the run returns carries no list of unplaced courses. *)
Theorem exhausted_budget_warns_and_continues
    h rooms timeslots constraints course rest w w1 :
  (theory_attempts h 100 (filter (is_kind "theory") timeslots) course rooms
                   constraints w = Ok false w1 ->
   grid w1 = grid w
   /\ scheduleTheoryCourses h (course :: rest) rooms timeslots constraints w
      = scheduleTheoryCourses h rest rooms timeslots constraints
          (mkWorld (grid w) (draws w1) (console w ++ [theory_warning course])))
  /\ (lab_attempts h 50 (filter (is_kind "lab") timeslots) course rooms
                   constraints w = Ok false w1 ->
      grid w1 = grid w
      /\ scheduleLabCourses h (course :: rest) rooms timeslots constraints w
         = scheduleLabCourses h rest rooms timeslots constraints
             (mkWorld (grid w) (draws w1) (console w ++ [lab_warning course]))).
Proof.
  split; intros H.
  - pose proof (theory_attempts_Ok _ _ _ _ _ _ _ _ _ H) as (Hc & [(_ & Hg)|(Hb & _)]);
      [|discriminate].
    split; [exact Hg|].
    unfold scheduleTheoryCourses. cbn [for_of].
    unfold bind at 1. unfold schedule_one_theory. unfold bind at 1.
    rewrite H. unfold console_warn. now rewrite Hg, Hc.
  - pose proof (lab_attempts_Ok _ _ _ _ _ _ _ _ _ H) as (Hc & [(_ & Hg)|(Hb & _)]);
      [|discriminate].
    split; [exact Hg|].
    unfold scheduleLabCourses. cbn [for_of].
    unfold bind at 1. unfold schedule_one_lab. unfold bind at 1.
    rewrite H. unfold console_warn. now rewrite Hg, Hc.
Qed.

(** ** The conflict checks and the random source *)

(** With two classrooms to draw from, one of them taken at that time, the
    first call says no and the second says yes. *)
Lemma checks_not_deterministic : ~ checks_are_deterministic.
Proof.
  intros H.
  set (g := assign "Monday"
              [theory_entry "8:00-8:40" "R1" (theory_course "C1" "T1")]
              initializeTimetable).
  destruct (H (host_of [0; 1]%nat) "Monday" (Some slot_8)
              (theory_course "C2" "T2") [R1; R2] this_constraints
              (mkWorld g 0 []) false (mkWorld g 1 []) true (mkWorld g 2 []))
    as (Hb & _); [reflexivity|reflexivity|discriminate].
Qed.

Lemma room_outcome_by_draw h rooms course w1 w2 :
  random h (draws w1) = random h (draws w2) ->
  outcome (findSuitableRoom h rooms course w1)
  = outcome (findSuitableRoom h rooms course w2).
Proof.
  intros Hr. unfold findSuitableRoom.
  destruct (filter (suitable course) rooms); [reflexivity|].
  unfold bind. rewrite !random_index_run, Hr. unfold name_at.
  destruct (nth_error _ _); reflexivity.
Qed.

Lemma lab_room_outcome_by_draw h rooms course w1 w2 :
  random h (draws w1) = random h (draws w2) ->
  outcome (findLabRoom h rooms course w1)
  = outcome (findLabRoom h rooms course w2).
Proof.
  intros Hr. unfold findLabRoom.
  destruct (filter is_lab_room rooms); [reflexivity|].
  unfold bind. rewrite !random_index_run, Hr. unfold name_at.
  destruct (nth_error _ _); reflexivity.
Qed.

Lemma room_outcome_single h rooms course w1 w2 :
  (length (filter (suitable course) rooms) <= 1)%nat ->
  outcome (findSuitableRoom h rooms course w1)
  = outcome (findSuitableRoom h rooms course w2).
Proof.
  intros Hlen. unfold findSuitableRoom.
  destruct (filter (suitable course) rooms) as [|r [|r' rest]]; simpl in Hlen;
    [reflexivity| |lia].
  unfold bind. rewrite !random_index_run. cbn [length].
  rewrite !Nat.mod_1_r. reflexivity.
Qed.

Lemma lab_room_outcome_single h rooms course w1 w2 :
  (length (filter is_lab_room rooms) <= 1)%nat ->
  outcome (findLabRoom h rooms course w1)
  = outcome (findLabRoom h rooms course w2).
Proof.
  intros Hlen. unfold findLabRoom.
  destruct (filter is_lab_room rooms) as [|r [|r' rest]]; simpl in Hlen;
    [reflexivity| |lia].
  unfold bind. rewrite !random_index_run. cbn [length].
  rewrite !Nat.mod_1_r. reflexivity.
Qed.

(** The checks consult the world only for the grid and for the room the
    selector returns. *)
Lemma canScheduleCourse_outcome h day slot course rooms constraints w1 w2 :
  grid w1 = grid w2 ->
  outcome (findSuitableRoom h rooms course w1)
  = outcome (findSuitableRoom h rooms course w2) ->
  outcome (canScheduleCourse h day slot course rooms constraints w1)
  = outcome (canScheduleCourse h day slot course rooms constraints w2).
Proof.
  intros Hg Hroom. unfold canScheduleCourse, bind, get_day, lift, ret.
  rewrite Hg. destruct (lookup day (grid w2)) as [l|]; [|reflexivity].
  destruct (some_E _ l) as [e|[|]]; try reflexivity.
  destruct (findSuitableRoom h rooms course w1) as [n1 v1|e1];
    destruct (findSuitableRoom h rooms course w2) as [n2 v2|e2];
    simpl in Hroom; try discriminate; [|congruence].
  injection Hroom as ->.
  destruct (some_E _ l) as [e|[|]]; try reflexivity.
  destruct (_ <=? _); reflexivity.
Qed.

Lemma canScheduleLab_outcome h day slot course rooms constraints w1 w2 :
  grid w1 = grid w2 ->
  outcome (findLabRoom h rooms course w1)
  = outcome (findLabRoom h rooms course w2) ->
  outcome (canScheduleLab h day slot course rooms constraints w1)
  = outcome (canScheduleLab h day slot course rooms constraints w2).
Proof.
  intros Hg Hroom.
  pose proof (findLabRoom_store h rooms course w1) as Hs1.
  pose proof (findLabRoom_store h rooms course w2) as Hs2.
  unfold canScheduleLab, bind, get_day, get_grid, ret.
  rewrite Hg. destruct (lookup day (grid w2)) as [l|]; [|reflexivity].
  destruct (existsb _ l); [reflexivity|].
  destruct (findLabRoom h rooms course w1) as [n1 v1|e1];
    destruct (findLabRoom h rooms course w2) as [n2 v2|e2];
    simpl in Hroom; try discriminate; [|congruence].
  injection Hroom as ->.
  destruct (Hs1 _ _ eq_refl) as [Hg1 _]. destruct (Hs2 _ _ eq_refl) as [Hg2 _].
  destruct (existsb _ l); [reflexivity|].
  rewrite Hg1, Hg2, Hg.
  destruct (existsb _ (map snd (grid w2))); reflexivity.
Qed.

(** C4, amended: the checks never change the grid (or the console); their
    answer is fixed by the grid, the arguments and the room the selector
    returns, hence by the one random number the selector draws, so it is
    the same on any two worlds that agree on those, and the same on any two
    worlds with the same grid when at most one room qualifies. *)
Theorem checks_read_only_and_fixed_by_draw
    h day slot course rooms constraints w1 w2 :
  (forall b w', canScheduleCourse h day slot course rooms constraints w1 = Ok b w' ->
                same_store w1 w')
  /\ (forall b w', canScheduleLab h day slot course rooms constraints w1 = Ok b w' ->
                   same_store w1 w')
  /\ (forall s w', findSuitableRoom h rooms course w1 = Ok s w' -> same_store w1 w')
  /\ (forall s w', findLabRoom h rooms course w1 = Ok s w' -> same_store w1 w')
  /\ (grid w1 = grid w2 ->
      outcome (findSuitableRoom h rooms course w1)
      = outcome (findSuitableRoom h rooms course w2) ->
      outcome (canScheduleCourse h day slot course rooms constraints w1)
      = outcome (canScheduleCourse h day slot course rooms constraints w2))
  /\ (grid w1 = grid w2 ->
      outcome (findLabRoom h rooms course w1)
      = outcome (findLabRoom h rooms course w2) ->
      outcome (canScheduleLab h day slot course rooms constraints w1)
      = outcome (canScheduleLab h day slot course rooms constraints w2))
  /\ (grid w1 = grid w2 ->
      random h (draws w1) = random h (draws w2) ->
      outcome (canScheduleCourse h day slot course rooms constraints w1)
      = outcome (canScheduleCourse h day slot course rooms constraints w2)
      /\ outcome (canScheduleLab h day slot course rooms constraints w1)
         = outcome (canScheduleLab h day slot course rooms constraints w2))
  /\ (grid w1 = grid w2 ->
      (length (filter (suitable course) rooms) <= 1)%nat ->
      outcome (canScheduleCourse h day slot course rooms constraints w1)
      = outcome (canScheduleCourse h day slot course rooms constraints w2))
  /\ (grid w1 = grid w2 ->
      (length (filter is_lab_room rooms) <= 1)%nat ->
      outcome (canScheduleLab h day slot course rooms constraints w1)
      = outcome (canScheduleLab h day slot course rooms constraints w2)).
Proof.
  repeat apply conj.
  - intros b w' H. eapply canScheduleCourse_Ok; eauto.
  - intros b w' H. eapply canScheduleLab_Ok; eauto.
  - intros s w' H. eapply findSuitableRoom_store; eauto.
  - intros s w' H. eapply findLabRoom_store; eauto.
  - intros Hg Hroom. now apply canScheduleCourse_outcome.
  - intros Hg Hroom. now apply canScheduleLab_outcome.
  - intros Hg Hr. split.
    + apply canScheduleCourse_outcome; auto using room_outcome_by_draw.
    + apply canScheduleLab_outcome; auto using lab_room_outcome_by_draw.
  - intros Hg Hone.
    apply canScheduleCourse_outcome; auto using room_outcome_single.
  - intros Hg Hone.
    apply canScheduleLab_outcome; auto using lab_room_outcome_single.
Qed.

(** ** Workload balancing *)

(** The mean test and the number of sessions to move, in integers. *)
Lemma above_mean_plus_one count total (n : positive) :
  negb (Qle_bool (inject_Z count)
                 (inject_Z total / inject_Z (Z.pos n) + 1)%Q)
  = (total + Z.pos n <? Z.pos n * count).
Proof.
  unfold Qle_bool, Qdiv, Qmult, Qinv, Qplus, inject_Z. cbn [Qnum Qden].
  rewrite <- Z.ltb_antisym.
  rewrite !Pos.mul_1_l, !Pos.mul_1_r, !Z.mul_1_r.
  destruct (total + Z.pos n <? Z.pos n * count) eqn:H.
  - apply Z.ltb_lt in H. apply Z.ltb_lt. lia.
  - apply Z.ltb_ge in H. apply Z.ltb_ge. lia.
Qed.

Lemma floor_of_excess count total (n : positive) :
  Qfloor (inject_Z count - inject_Z total / inject_Z (Z.pos n))%Q
  = (Z.pos n * count - total) / Z.pos n.
Proof.
  unfold Qfloor, Qminus, Qopp, Qdiv, Qmult, Qinv, Qplus, inject_Z.
  cbn [Qnum Qden]. rewrite !Pos.mul_1_l, !Z.mul_1_r. f_equal. lia.
Qed.

Lemma find_first {A} (p : A -> bool) l x :
  find p l = Some x ->
  exists before after,
    l = before ++ x :: after
    /\ (forall y, In y before -> p y = false) /\ p x = true.
Proof.
  induction l as [|y rest IH]; simpl; [discriminate|].
  destruct (p y) eqn:Hy.
  - intros [= ->]. exists [], rest. repeat split; auto. intros z [].
  - intros H. destruct (IH H) as (b & a & -> & Hb & Hx).
    exists (y :: b), a. repeat split; auto.
    intros z [<-|Hz]; auto.
Qed.

Lemma redistribute_one_target from others timetable cls :
  others <> [] -> (forall d, In d others -> d <> "") ->
  exists to,
    In to others
    /\ redistribute_one from others timetable cls
       = move_object timetable from to cls
    /\ target_rule others timetable from to.
Proof.
  intros Hne Hnamed. unfold redistribute_one.
  set (p := fun day =>
              (length (day_of day timetable) <? length (day_of from timetable))%nat).
  assert (Hp : forall d, p d = true <-> lighter timetable from d).
  { intros d. unfold p, lighter. apply Nat.ltb_lt. }
  destruct (find p others) as [to|] eqn:Hfind.
  - destruct (find_first p others to Hfind) as (b & a & Heq & Hb & Hto).
    assert (Hin : In to others) by (rewrite Heq; apply in_elt).
    destruct to as [|c r]; [now apply Hnamed in Hin|].
    exists (String c r). split; [exact Hin|]. split; [reflexivity|].
    exists b, a. split; [exact Heq|]. split.
    + intros d Hd Hl. apply Hp in Hl. rewrite (Hb d Hd) in Hl. discriminate.
    + left. now apply Hp.
  - destruct others as [|to rest]; [contradiction|]. cbn [hd_error].
    assert (Hin : In to (to :: rest)) by now left.
    destruct to as [|c r]; [now apply Hnamed in Hin|].
    exists (String c r). split; [exact Hin|]. split; [reflexivity|].
    exists [], rest. split; [reflexivity|]. split.
    + intros d [].
    + right. split; [reflexivity|]. intros d Hd Hl. apply Hp in Hl.
      rewrite (find_none _ _ Hfind d Hd) in Hl. discriminate.
Qed.

(** When every step does move, the source day loses exactly the listed
    objects. *)
Lemma redistribute_source from others l : forall timetable,
  well_formed timetable -> In from (keys timetable) ->
  others <> [] ->
  (forall d, In d others -> d <> "" /\ d <> from /\ In d (keys timetable)) ->
  NoDup (refs l) -> (forall x, In x l -> In x (day_of from timetable)) ->
  day_of from (fold_left (redistribute_one from others) l timetable)
  = filter (fun c => negb (existsb (same_object c) l)) (day_of from timetable).
Proof.
  induction l as [|cls rest IH]; intros timetable Hwf Hfrom Hne Hothers Hnd Hin;
    cbn [fold_left].
  - simpl. symmetry. apply forallb_filter_id. apply forallb_forall. reflexivity.
  - inversion Hnd as [|? ? Hnotin Hnd']; subst.
    destruct (redistribute_one_target from others timetable cls Hne)
      as (to & Hto & -> & _).
    { intros d Hd. apply Hothers, Hd. }
    destruct (Hothers to Hto) as (_ & Htf & Htk).
    destruct (move_object_spec timetable from to cls) as (Hwf1 & Hk1 & _ & Hd1 & _);
      auto.
    { apply Hin. now left. }
    rewrite IH; auto.
    + rewrite Hd1, filter_filter. apply filter_ext. intros c. simpl.
      now rewrite negb_orb.
    + now rewrite Hk1.
    + intros d Hd. rewrite Hk1. auto.
    + intros x Hx. rewrite Hd1. apply filter_In. split.
      * apply Hin. now right.
      * unfold same_object.
        destruct (Nat.eqb (Obj.ref x) (Obj.ref cls)) eqn:He; auto.
        apply Nat.eqb_eq in He. exfalso. apply Hnotin.
        rewrite <- He. now apply in_map.
Qed.

Lemma other_days_of_week fromDay :
  In fromDay week ->
  filter (not_day fromDay) week <> []
  /\ forall d, In d (filter (not_day fromDay) week) ->
               d <> "" /\ d <> fromDay /\ In d week.
Proof.
  intros Hin. split.
  - simpl in Hin. intuition (subst; discriminate).
  - intros d Hd. apply other_day_in in Hd as (Hne & Hd). repeat split; auto.
    simpl in Hd. intuition (subst; discriminate).
Qed.

Lemma fold_left_ext {A B} (f g : A -> B -> A) l a :
  (forall x y, f x y = g x y) -> fold_left f l a = fold_left g l a.
Proof.
  intros H. revert a. induction l as [|y rest IH]; intros a; simpl; auto.
  now rewrite H, IH.
Qed.

Lemma settable_all (timetable : Heap) :
  ~ In "__proto__" (keys timetable) -> filter settable timetable = timetable.
Proof.
  intros H. apply forallb_filter_id, forallb_forall. intros [d l] Hin.
  unfold settable. cbn [fst]. apply negb_true_iff, String.eqb_neq.
  intros ->. apply H. unfold keys. now apply (in_map fst) in Hin.
Qed.

Lemma balance_integers timetable constraints :
  timetable <> [] -> ~ In "__proto__" (keys timetable) ->
  balanceDailyWorkload timetable constraints = balance_in_integers timetable.
Proof.
  intros Hne Hown. unfold balanceDailyWorkload, balance_in_integers, average.
  rewrite (settable_all timetable Hown).
  rewrite !length_map.
  destruct (Z.of_nat (length timetable)) as [|n|n] eqn:Hn;
    [destruct timetable; [contradiction|discriminate]| |lia].
  apply fold_left_ext. intros t [day count]. cbn [fst snd].
  now rewrite above_mean_plus_one, floor_of_excess.
Qed.

(** The first Monday session goes to Tuesday, which holds a session, while
    Wednesday to Saturday hold none. *)
Lemma first_move_not_to_fewest : ~ moves_go_to_fewest.
Proof.
  intros H.
  assert (Hwf : well_formed lopsided_week).
  { apply deep_copy_well_formed. apply week_NoDup. }
  specialize (H lopsided_week "Monday"
                (Obj.mk 0 (theory_entry "8:00-8:40" "R1" (theory_course "C1" "T1")))
                "Tuesday" Hwf eq_refl).
  destruct H as (_ & Hfew).
  - simpl. auto.
  - discriminate.
  - vm_compute. auto.
  - specialize (Hfew "Wednesday"). vm_compute in Hfew.
    apply Hfew; auto 10. discriminate.
Qed.

(** C6, amended: the pass counts each day's theory and lab sessions and
    takes their mean once, before any move; a day is rebalanced when its
    count exceeds the mean by more than one, by [floor(count - mean)]
    sessions.  Rebalancing a day removes from it its first so-many theory
    sessions in list order (all of them if it has fewer) and loses or copies
    no object.  Each session goes to the first of the other days, in week
    order, that at that moment holds fewer entries than the source day,
    markers included, or to the first other day when none does: not to the
    day with the fewest sessions. *)
Theorem balancing_as_implemented timetable constraints :
  well_formed timetable -> keys timetable = week ->
  balanceDailyWorkload timetable constraints = balance_in_integers timetable
  /\ (forall fromDay n, In fromDay week ->
        let moved :=
          firstn n (filter (fun cls => is_theory (Obj.val cls))
                           (day_of fromDay timetable)) in
        rearranged timetable (redistributeClasses timetable fromDay n)
        /\ day_of fromDay (redistributeClasses timetable fromDay n)
           = filter (fun c => negb (existsb (same_object c) moved))
                    (day_of fromDay timetable))
  /\ (forall fromDay cls, In fromDay week ->
        exists to,
          In to week /\ to <> fromDay
          /\ redistribute_one fromDay (filter (not_day fromDay) (keys timetable))
                              timetable cls
             = move_object timetable fromDay to cls
          /\ target_rule (filter (not_day fromDay) week) timetable fromDay to).
Proof.
  intros Hwf Hkeys. split; [|split].
  - apply balance_integers; [intros ->; discriminate|].
    rewrite Hkeys. simpl. intuition discriminate.
  - intros fromDay n Hfrom moved.
    destruct (other_days_of_week fromDay Hfrom) as (Hne & Hothers).
    split.
    + apply redistributeClasses_rearranged; auto. now rewrite Hkeys.
    + unfold redistributeClasses. rewrite Hkeys.
      apply redistribute_source; auto.
      * now rewrite Hkeys.
      * intros d Hd. rewrite Hkeys. auto.
      * apply refs_firstn_NoDup, refs_filter_NoDup. now apply day_refs_NoDup.
      * intros x Hx. apply in_firstn in Hx. now apply filter_In in Hx as (Hx & _).
  - intros fromDay cls Hfrom. rewrite Hkeys.
    destruct (other_days_of_week fromDay Hfrom) as (Hne & Hothers).
    destruct (redistribute_one_target fromDay (filter (not_day fromDay) week)
                timetable cls Hne) as (to & Hto & Heq & Hrule).
    { intros d Hd. apply Hothers, Hd. }
    exists to. destruct (Hothers to Hto) as (_ & Hn & Hw). auto.
Qed.

(** ** The per-day ceiling *)

(** Theory placement does keep to the ceiling: it only pushes onto a day
    that is below it. *)
Lemma theory_placement_respects_ceiling
    h courses rooms timeslots constraints w u w' :
  0 <= Constraints.MAX_CLASSES_PER_DAY constraints ->
  grid w = initializeTimetable ->
  scheduleTheoryCourses h courses rooms timeslots constraints w = Ok u w' ->
  forall day l,
    lookup day (grid w') = Some l ->
    Z.of_nat (length l) <= Constraints.MAX_CLASSES_PER_DAY constraints.
Proof.
  intros Hmax Hinit Hrun. unfold scheduleTheoryCourses in Hrun.
  eapply (theory_loop_invariant h rooms constraints
            (fun g => forall day l, lookup day g = Some l ->
               Z.of_nat (length l) <= Constraints.MAX_CLASSES_PER_DAY constraints));
    [|exact Hrun|].
  - intros g g' (day & l & s & room & course & _ & Hl & Hlt & _ & ->) Hg day' l'.
    destruct (String.eqb day day') eqn:Hd.
    + apply String.eqb_eq in Hd. subst day'. rewrite lookup_assign_same.
      intros [= <-]. rewrite length_app. simpl. lia.
    + rewrite lookup_assign_other; [apply Hg|].
      intros ->. now rewrite String.eqb_refl in Hd.
  - rewrite Hinit. intros day l Hl.
    assert (l = []) as ->; [|simpl; lia].
    unfold initializeTimetable in Hl. simpl in Hl.
    repeat match type of Hl with
           | (if ?c then _ else _) = _ => destruct c
           end; congruence.
Qed.

(** C1 fails on the code: lab placement never looks at the ceiling, so with
    the default ceiling of 6 the returned grid can hold seven lab blocks on
    Monday. *)
Theorem seven_labs_on_one_day :
  exists g w',
    generateTimetable (host_of seven_labs_draws) seven_labs_section
                      Constraints.none boot = Ok g w'
    /\ Constraints.MAX_CLASSES_PER_DAY (Generated.constraints g) = 6
    /\ Z.of_nat (length (classes_on "Monday" (Generated.days g))) = 7
    /\ session_count (day_of "Monday" (Generated.days g)) = 7.
Proof.
  eexists _, _. split; [vm_compute; reflexivity|]. repeat split.
Qed.

(** ** The gap that calls for a break *)

(** C8 fails on the code: the bound is read from [this.constraints], so the
    override is reported back but not applied.  Both lectures land on
    Monday, twenty minutes apart, and a break is put between them although
    the caller set the minimum gap to 30. *)
Theorem break_ignores_override :
  exists g w',
    generateTimetable (host_of [0; 0; 0; 0; 0; 1; 0; 0]%nat)
                      two_lectures_section gap_30 boot = Ok g w'
    /\ Constraints.MIN_BREAK_BETWEEN_CLASSES (Generated.constraints g) = 30
    /\ getTimeDifference (Some "8:40") "9:00" = inr (double_of_Z 20)
    /\ day_of "Monday" (grid w')
       = [theory_entry "8:00-8:40" "R1" (theory_course "C1" "T1");
          lunch_entry;
          break_entry "8:40" "9:00";
          theory_entry "9:00-9:40" "R1" (theory_course "C2" "T2")]
    /\ In (break_entry "8:40" "9:00") (day_of "Monday" (Generated.days g)).
Proof.
  eexists _, _. split; [vm_compute; reflexivity|]. repeat split.
  simpl. auto.
Qed.

(** ** Saturday *)

(** Monday then holds four entries and so does every other teaching day,
    which leaves Saturday as the first lighter day: balancing sends the
    first Monday lecture there. *)
Lemma saturday_reached_by_balancing :
  exists g w',
    generateTimetable (host_of eleven_lectures_draws) eleven_lectures_section
                      Constraints.none boot = Ok g w'
    /\ lookup "Saturday" (grid w') = Some []
    /\ day_of "Saturday" (Generated.days g)
       = [theory_entry "8:00-8:40" "R1" (theory_course "M1" "T1")].
Proof.
  eexists _, _. split; [vm_compute; reflexivity|]. split; reflexivity.
Qed.

(** C10: when the constructive phase ends, and still after breaks and lunch
    have been injected, Saturday holds nothing: placements go to the five
    teaching days only.  A session can reach Saturday in the optimizer, as
    one run shows. *)
Theorem saturday_empty_before_repair h sectionData constraints w :
  (forall u w',
      construct h sectionData constraints w = Ok u w' ->
      lookup "Saturday" (grid w') = Some [])
  /\ (forall u w',
        (construct h sectionData constraints ;;; addBreaksAndLunch h) w = Ok u w' ->
        lookup "Saturday" (grid w') = Some [])
  /\ (exists h' sectionData' g w',
        generateTimetable h' sectionData' Constraints.none boot = Ok g w'
        /\ day_of "Saturday" (Generated.days g) <> []).
Proof.
  split; [|split].
  - intros u w'. apply construct_saturday.
  - intros u w' H. apply bind_Ok in H as (u1 & w1 & Hc & H).
    pose proof (construct_keys _ _ _ _ _ _ Hc) as Hkeys.
    pose proof (construct_saturday _ _ _ _ _ _ Hc) as Hsat.
    apply addBreaksAndLunch_Ok in H as (_ & _ & _ & Hdays).
    2:{ rewrite Hkeys. apply week_NoDup. }
    destruct (Hdays "Saturday") as (l & l' & Hl & Hinj & Hl').
    { rewrite Hkeys. simpl. tauto. }
    rewrite Hsat in Hl. injection Hl as <-.
    cbn in Hinj. injection Hinj as <-. exact Hl'.
  - destruct saturday_reached_by_balancing as (g & w' & Hrun & _ & Hsat).
    exists (host_of eleven_lectures_draws), eleven_lectures_section, g, w'.
    split; [exact Hrun|]. rewrite Hsat. discriminate.
Qed.

(** ** The theorems at concrete inputs *)

Lemma score_formula_witness :
  plain_labels double_booked_week = true
  /\ In 2 (map sessions_of (map snd double_booked_week))
  /\ In 1 (map sessions_of (map snd double_booked_week))
  /\ double_bookings (teacher_bookings double_booked_week) = 1%nat
  /\ double_bookings (room_bookings double_booked_week) = 1%nat
  /\ calculateTimetableScore double_booked_week = Fin 75.
Proof.
  split; [reflexivity|]. split; [vm_compute; auto|]. split; [vm_compute; auto|].
  split; [reflexivity|]. split; [reflexivity|].
  rewrite (score_formula double_booked_week 2 1).
  - reflexivity.
  - reflexivity.
  - vm_compute. auto.
  - intros n Hn. vm_compute in Hn. destruct Hn as [<-|[<-|[]]]; lia.
  - vm_compute. auto.
  - intros n Hn. vm_compute in Hn. destruct Hn as [<-|[<-|[]]]; lia.
Defined.

Lemma one_lab_block_per_week_witness :
  exists g w',
    generateTimetable (host_of seven_labs_draws) seven_labs_section
                      Constraints.none boot = Ok g w'
    /\ (forall course,
          (lab_blocks (Course.code course) (elements (Generated.days g)) <= 1)%nat)
    /\ (forall e, In e (elements (Generated.days g)) -> is_lab e = true ->
          one_lab_span (SectionData.timeslots seven_labs_section) e).
Proof.
  eexists _, _. split; [vm_compute; reflexivity|].
  eapply (one_lab_block_per_week (host_of seven_labs_draws) seven_labs_section
                                 Constraints.none boot).
  vm_compute. reflexivity.
Defined.

Lemma exhausted_budget_witness :
  (exists w1,
      theory_attempts (host_of []) 100 (filter (is_kind "theory") [slot_8; slot_lab])
                      (theory_course "C2" "T1") [R1] this_constraints monday_taken
      = Ok false w1
      /\ grid w1 = grid monday_taken
      /\ scheduleTheoryCourses (host_of []) [theory_course "C2" "T1"] [R1]
                               [slot_8; slot_lab] this_constraints monday_taken
         = Ok tt (mkWorld (grid monday_taken) 200
                          ["Could not schedule theory course: C2"]))
  /\ (exists w1,
        lab_attempts (host_of []) 50 (filter (is_kind "lab") [slot_8; slot_lab])
                     (lab_course "L1" "T1") [R1] this_constraints monday_taken
        = Ok false w1
        /\ grid w1 = grid monday_taken
        /\ scheduleLabCourses (host_of []) [lab_course "L1" "T1"] [R1]
                              [slot_8; slot_lab] this_constraints monday_taken
           = Ok tt (mkWorld (grid monday_taken) 100
                            ["Could not schedule lab course: L1"])).
Proof.
  split.
  - eexists. split; [vm_compute; reflexivity|].
    destruct (exhausted_budget_warns_and_continues
                (host_of []) [R1] [slot_8; slot_lab] this_constraints
                (theory_course "C2" "T1") [] monday_taken
                (mkWorld (grid monday_taken) 200 [])) as (Htheory & _).
    destruct Htheory as (Hg & Hrun); [vm_compute; reflexivity|].
    split; [exact Hg|]. rewrite Hrun. reflexivity.
  - eexists. split; [vm_compute; reflexivity|].
    destruct (exhausted_budget_warns_and_continues
                (host_of []) [R1] [slot_8; slot_lab] this_constraints
                (lab_course "L1" "T1") [] monday_taken
                (mkWorld (grid monday_taken) 100 [])) as (_ & Hlab).
    destruct Hlab as (Hg & Hrun); [vm_compute; reflexivity|].
    split; [exact Hg|]. rewrite Hrun. reflexivity.
Defined.

Lemma checks_fixed_by_draw_witness :
  let w1 := monday_taken in
  let w2 := mkWorld (grid monday_taken) 5 ["earlier warning"] in
  grid w1 = grid w2
  /\ random (host_of [1; 0; 0; 0; 0; 1]%nat) (draws w1)
     = random (host_of [1; 0; 0; 0; 0; 1]%nat) (draws w2)
  /\ outcome (canScheduleCourse (host_of [1; 0; 0; 0; 0; 1]%nat) "Monday"
                (Some slot_8) (theory_course "C2" "T2") [R1; R2]
                this_constraints w1) = inr true
  /\ outcome (canScheduleCourse (host_of [1; 0; 0; 0; 0; 1]%nat) "Monday"
                (Some slot_8) (theory_course "C2" "T2") [R1; R2]
                this_constraints w2) = inr true.
Proof.
  intros w1 w2.
  destruct (checks_read_only_and_fixed_by_draw
              (host_of [1; 0; 0; 0; 0; 1]%nat) "Monday" (Some slot_8)
              (theory_course "C2" "T2") [R1; R2] this_constraints w1 w2)
    as (_ & _ & _ & _ & _ & _ & Hdraw & _ & _).
  destruct Hdraw as (Hcourse & _); [reflexivity|reflexivity|].
  split; [reflexivity|]. split; [reflexivity|].
  split; [reflexivity|]. rewrite <- Hcourse. reflexivity.
Defined.

Lemma balancing_witness :
  well_formed lopsided_week
  /\ keys lopsided_week = week
  /\ balanceDailyWorkload lopsided_week this_constraints
     = balance_in_integers lopsided_week
  /\ map (fun dc => (fst dc, length (snd dc)))
         (balanceDailyWorkload lopsided_week this_constraints)
     = [("Monday", 1); ("Tuesday", 3); ("Wednesday", 2);
        ("Thursday", 0); ("Friday", 0); ("Saturday", 0)]%nat.
Proof.
  assert (Hwf : well_formed lopsided_week).
  { split; [apply week_NoDup|].
    vm_compute. repeat constructor; simpl; intuition discriminate. }
  split; [exact Hwf|]. split; [reflexivity|].
  destruct (balancing_as_implemented lopsided_week this_constraints Hwf eq_refl)
    as (Hint & _).
  split; [exact Hint|]. vm_compute. reflexivity.
Defined.

Lemma room_selection_witness :
  let small := Room.mk "Seminar" "classroom" 20 in
  let course := theory_course "C1" "T1" in
  (forall r, In r [small; unnamed_room] -> ~ (classroom r /\ seats course r))
  /\ first_classroom [small; unnamed_room] small
  /\ first_classroom [Room.mk "Lab A" "lab" 30; unnamed_room] unnamed_room
  /\ findSuitableRoom (host_of []) [small; unnamed_room] course boot
     = Ok "Seminar" boot
  /\ findSuitableRoom (host_of []) [Room.mk "Lab A" "lab" 30; unnamed_room]
                      course boot
     = Ok "Room 201" boot
  /\ findSuitableRoom (host_of []) [R1; small] course boot
     = Ok "R1" (mkWorld [] 1 []).
Proof.
  intros small course.
  assert (H1 : forall r, In r [small; unnamed_room] ->
               ~ (classroom r /\ seats course r)).
  { intros r [<-|[<-|[]]] (_ & Hs); unfold seats in Hs; cbn in Hs; lia. }
  assert (H2 : first_classroom [small; unnamed_room] small).
  { exists [], [unnamed_room]. repeat split. intros x []. }
  assert (H3 : first_classroom [Room.mk "Lab A" "lab" 30; unnamed_room]
                               unnamed_room).
  { exists [Room.mk "Lab A" "lab" 30], []. repeat split.
    intros x [<-|[]]. discriminate. }
  split; [exact H1|]. split; [exact H2|]. split; [exact H3|].
  destruct (room_selection_never_fails (host_of []) [small; unnamed_room]
              course boot)
    as ((name & w' & Hrun & _ & _ & Hfallback & _) & _).
  pose proof (Hfallback H1 small H2) as Hname.
  repeat split.
Defined.

Lemma saturday_empty_witness :
  exists w',
    construct (host_of eleven_lectures_draws) eleven_lectures_section
              this_constraints boot = Ok tt w'
    /\ lookup "Saturday" (grid w') = Some [].
Proof.
  eexists. split; [vm_compute; reflexivity|].
  destruct (saturday_empty_before_repair
              (host_of eleven_lectures_draws) eleven_lectures_section
              this_constraints boot) as (Hconstruct & _).
  eapply Hconstruct. vm_compute. reflexivity.
Defined.

(** * Further properties *)

(** ** Runs that return *)

Lemma findSuitableRoom_total h rooms course w :
  exists name w', findSuitableRoom h rooms course w = Ok name w'.
Proof.
  unfold findSuitableRoom.
  destruct (filter (suitable course) rooms) as [|r0 sl] eqn:Hf.
  - eexists _, _. reflexivity.
  - destruct (pick_from h (r0 :: sl) w) as (r & _ & Hrun); [discriminate|].
    eexists _, _. exact Hrun.
Qed.

Lemma findLabRoom_total h rooms course w :
  exists name w', findLabRoom h rooms course w = Ok name w'.
Proof.
  unfold findLabRoom.
  destruct (filter is_lab_room rooms) as [|r0 sl] eqn:Hf.
  - eexists _, _. reflexivity.
  - destruct (pick_from h (r0 :: sl) w) as (r & _ & Hrun); [discriminate|].
    eexists _, _. exact Hrun.
Qed.

Lemma some_E_total {A} (p : A -> E bool) l :
  (forall x, In x l -> exists b, p x = inr b) -> exists b, some_E p l = inr b.
Proof.
  induction l as [|x rest IH]; intros H; simpl.
  - eauto.
  - destruct (H x (or_introl eq_refl)) as (b & ->).
    destruct b; [eauto|]. apply IH. intros y Hy. apply H. now right.
Qed.

Lemma some_E_false {A} (p : A -> E bool) l :
  some_E p l = inr false -> forall x, In x l -> p x = inr false.
Proof.
  induction l as [|x rest IH]; simpl; [intros _ y []|].
  destruct (p x) as [e|[|]] eqn:Hp; try discriminate.
  intros H y [<-|Hy]; auto.
Qed.

Lemma at_slot_total s same sc : exists b, at_slot (Some s) same sc = inr b.
Proof. unfold at_slot. destruct same; simpl; eauto. Qed.

Lemma canScheduleCourse_total h day s course rooms constraints w :
  In day (keys (grid w)) ->
  exists b w', canScheduleCourse h day (Some s) course rooms constraints w = Ok b w'.
Proof.
  intros Hday. apply in_keys_lookup in Hday as (l & Hl).
  unfold canScheduleCourse, bind, get_day, lift. rewrite Hl.
  destruct (some_E_total (fun sc =>
      at_slot (Some s) (opt_eqb (Entry.teacher sc) (Course.teacherId course)) sc) l)
    as (b & ->); [intros; apply at_slot_total|].
  destruct b; [eexists _, _; reflexivity|].
  destruct (findSuitableRoom_total h rooms course w) as (room & w1 & ->).
  destruct (some_E_total (fun sc =>
      at_slot (Some s) (opt_eqb (Entry.room sc) (Some room)) sc) l)
    as (b & ->); [intros; apply at_slot_total|].
  destruct b; [eexists _, _; reflexivity|].
  destruct (_ <=? _); eexists _, _; reflexivity.
Qed.

Lemma canScheduleLab_total h day slot course rooms constraints w :
  In day (keys (grid w)) ->
  exists b w', canScheduleLab h day slot course rooms constraints w = Ok b w'.
Proof.
  intros Hday. apply in_keys_lookup in Hday as (l & Hl).
  unfold canScheduleLab, bind, get_day, get_grid. rewrite Hl.
  destruct (existsb _ l); [eexists _, _; reflexivity|].
  destruct (findLabRoom_total h rooms course w) as (room & w1 & ->).
  destruct (existsb _ l); [eexists _, _; reflexivity|].
  destruct (existsb _ (map snd (grid w1))); eexists _, _; reflexivity.
Qed.

Lemma teaching_day_in_week day : In day teaching_days -> In day week.
Proof. simpl. tauto. Qed.

Lemma push_day_total day e w :
  In day (keys (grid w)) -> exists w', push_day day e w = Ok tt w'.
Proof.
  intros Hday. apply in_keys_lookup in Hday as (l & Hl).
  unfold push_day. rewrite Hl. eauto.
Qed.

Lemma theory_attempts_total h budget slots course rooms constraints : forall w,
  slots <> [] -> keys (grid w) = week ->
  exists b w', theory_attempts h budget slots course rooms constraints w = Ok b w'.
Proof.
  induction budget as [|budget IH]; intros w Hslots Hkeys; simpl.
  - eexists _, _. reflexivity.
  - unfold bind at 1. unfold getRandomDay, bind at 1.
    rewrite random_index_run. cbn [ret].
    set (w1 := mkWorld (grid w) (S (draws w)) (console w)).
    set (day := nth _ teaching_days "Monday").
    assert (Hday : In day week) by apply teaching_day_in_week, nth_teaching_day.
    unfold bind at 1. rewrite random_index_run.
    set (w2 := mkWorld (grid w1) (S (draws w1)) (console w1)).
    set (i := match length slots with O => O | S _ => _ end).
    assert (Hi : (i < length slots)%nat).
    { subst i. destruct slots as [|x rest]; [contradiction|].
      apply Nat.mod_upper_bound. discriminate. }
    destruct (nth_error slots i) as [s|] eqn:Hs;
      [|apply nth_error_None in Hs; lia].
    destruct (canScheduleCourse_total h day s course rooms constraints w2)
      as (ok & w3 & Hcan); [simpl; now rewrite Hkeys|].
    unfold bind at 1. rewrite Hcan.
    apply canScheduleCourse_Ok in Hcan as ([Hg3 _] & _).
    destruct ok.
    + unfold bind at 1. cbn [lift slot_time].
      destruct (findSuitableRoom_total h rooms course w3) as (room & w4 & Hroom).
      unfold bind at 1. rewrite Hroom.
      apply findSuitableRoom_store in Hroom as [Hg4 _].
      destruct (push_day_total day
                  (theory_entry (Timeslot.start s +++ "-" +++ Timeslot.end_ s)
                                room course) w4) as (w5 & Hpush).
      { rewrite Hg4, Hg3. simpl. now rewrite Hkeys. }
      unfold bind. rewrite Hpush. eexists _, _. reflexivity.
    + apply IH; auto. rewrite Hg3. simpl. exact Hkeys.
Qed.

Lemma lab_attempts_total h budget slots course rooms constraints : forall w,
  slots <> [] -> keys (grid w) = week ->
  exists b w', lab_attempts h budget slots course rooms constraints w = Ok b w'.
Proof.
  induction budget as [|budget IH]; intros w Hslots Hkeys; cbn [lab_attempts].
  - eexists _, _. reflexivity.
  - unfold bind at 1. rewrite random_index_run. cbv zeta.
    set (w1 := mkWorld (grid w) (S (draws w)) (console w)).
    set (day := nth _ teaching_days "Monday").
    assert (Hday : In day week) by apply teaching_day_in_week, nth_teaching_day.
    unfold bind at 1. rewrite random_index_run.
    set (w2 := mkWorld (grid w1) (S (draws w1)) (console w1)).
    set (i := match length slots with O => O | S _ => _ end).
    assert (Hi : (i < length slots)%nat).
    { subst i. destruct slots as [|x rest]; [contradiction|].
      apply Nat.mod_upper_bound. discriminate. }
    destruct (nth_error slots i) as [s|] eqn:Hs;
      [|apply nth_error_None in Hs; lia].
    destruct (canScheduleLab_total h day (Some s) course rooms constraints w2)
      as (ok & w3 & Hcan); [simpl; now rewrite Hkeys|].
    unfold bind at 1. rewrite Hcan.
    apply canScheduleLab_Ok in Hcan as ([Hg3 _] & _).
    destruct ok.
    + unfold bind at 1. cbn [lift slot_time].
      destruct (findLabRoom_total h rooms course w3) as (room & w4 & Hroom).
      unfold bind at 1. rewrite Hroom.
      apply findLabRoom_store in Hroom as [Hg4 _].
      destruct (push_day_total day
                  (lab_entry (Timeslot.start s +++ "-" +++ Timeslot.end_ s)
                             room course) w4) as (w5 & Hpush).
      { rewrite Hg4, Hg3. simpl. now rewrite Hkeys. }
      unfold bind. rewrite Hpush. eexists _, _. reflexivity.
    + apply IH; auto. rewrite Hg3. simpl. exact Hkeys.
Qed.

Lemma theory_attempts_keys h budget slots course rooms constraints w b w' :
  theory_attempts h budget slots course rooms constraints w = Ok b w' ->
  keys (grid w') = keys (grid w).
Proof.
  intros H. apply theory_attempts_Ok in H as (_ & [(_ & ->)|(_ & Hs)]); auto.
  eapply theory_step_keys; eauto.
Qed.

Lemma lab_attempts_keys h budget slots course rooms constraints w b w' :
  lab_attempts h budget slots course rooms constraints w = Ok b w' ->
  keys (grid w') = keys (grid w).
Proof.
  intros H. apply lab_attempts_Ok in H as (_ & [(_ & ->)|(_ & Hs)]); auto.
  eapply lab_step_keys; eauto.
Qed.

Lemma theory_loop_total h slots rooms constraints courses : forall w,
  (courses = [] \/ slots <> []) -> keys (grid w) = week ->
  exists w',
    for_of (schedule_one_theory h slots rooms constraints) courses w = Ok tt w'
    /\ keys (grid w') = week.
Proof.
  induction courses as [|course rest IH]; intros w Hslots Hkeys; simpl.
  - eexists. split; [reflexivity|exact Hkeys].
  - destruct Hslots as [|Hslots]; [discriminate|].
    destruct (theory_attempts_total h 100 slots course rooms constraints w Hslots Hkeys)
      as (b & w1 & Hatt).
    pose proof (theory_attempts_keys _ _ _ _ _ _ _ _ _ Hatt) as Hk1.
    unfold bind at 1. unfold schedule_one_theory, bind at 1. rewrite Hatt.
    destruct b; cbn [ret console_warn]; apply IH; auto; simpl; congruence.
Qed.

Lemma lab_loop_total h slots rooms constraints courses : forall w,
  (courses = [] \/ slots <> []) -> keys (grid w) = week ->
  exists w',
    for_of (schedule_one_lab h slots rooms constraints) courses w = Ok tt w'
    /\ keys (grid w') = week.
Proof.
  induction courses as [|course rest IH]; intros w Hslots Hkeys; simpl.
  - eexists. split; [reflexivity|exact Hkeys].
  - destruct Hslots as [|Hslots]; [discriminate|].
    destruct (lab_attempts_total h 50 slots course rooms constraints w Hslots Hkeys)
      as (b & w1 & Hatt).
    pose proof (lab_attempts_keys _ _ _ _ _ _ _ _ _ Hatt) as Hk1.
    unfold bind at 1. unfold schedule_one_lab, bind at 1. rewrite Hatt.
    destruct b; cbn [ret console_warn]; apply IH; auto; simpl; congruence.
Qed.

Lemma construct_total h sectionData constraints w :
  slots_cover_courses sectionData ->
  exists w', construct h sectionData constraints w = Ok tt w'.
Proof.
  intros [Ht Hl]. unfold construct.
  unfold bind at 1. cbn [set_grid].
  unfold scheduleTheoryCourses, scheduleLabCourses.
  destruct (theory_loop_total h _ (SectionData.rooms sectionData) constraints _
              (mkWorld initializeTimetable (draws w) (console w)) Ht eq_refl)
    as (w1 & Hrun1 & Hk1).
  unfold bind at 1. rewrite Hrun1.
  destruct (lab_loop_total h _ (SectionData.rooms sectionData) constraints _
              w1 Hl Hk1) as (w2 & Hrun2 & _).
  eexists. exact Hrun2.
Qed.

(** ** Times with a dash *)

Lemma split_nonempty sep s : split sep s <> [].
Proof.
  destruct s as [|c r]; simpl; [discriminate|].
  destruct (Ascii.eqb c sep); [discriminate|].
  destruct (split sep r); discriminate.
Qed.

Lemma split_template a b :
  nth_error (split "-" (a +++ "-" +++ b)) 1 <> None.
Proof.
  induction a as [|c r IH]; simpl.
  - pose proof (split_nonempty "-" b). destruct (split "-" b); [contradiction|].
    discriminate.
  - destruct (Ascii.eqb c "-").
    + simpl in IH.
      pose proof (split_nonempty "-" (r +++ String "-" b)).
      destruct (split "-" (r +++ String "-" b)); [contradiction|]. discriminate.
    + simpl in IH. destruct (split "-" (r +++ String "-" b)) as [|x [|y t]];
        simpl in *; congruence.
Qed.

Lemma getTimeDifference_total time1 time2 :
  exists diff, getTimeDifference (Some time1) time2 = inr diff.
Proof.
  unfold getTimeDifference. eauto.
Qed.

Lemma with_breaks_total l :
  Forall dashed l -> exists l', with_breaks l = inr l'.
Proof.
  induction l as [|current rest IH]; intros Hd.
  - simpl. eauto.
  - inversion Hd as [|? ? Hc Hrest]; subst. cbn [with_breaks].
    destruct rest as [|next rest']; [eauto|].
    unfold dashed in Hc. destruct (end_of current) as [e|]; [|contradiction].
    destruct (getTimeDifference_total e (start_of next)) as (diff & ->).
    destruct (IH Hrest) as (updated & ->).
    destruct (exceeds _ _); eauto.
Qed.

Lemma inject_day_total h l :
  Forall dashed l -> exists l', inject_day h l = inr l'.
Proof.
  intros Hd. unfold inject_day.
  destruct (with_breaks_total
              (sort_by (fun a b => localeCompare h (start_of a) (start_of b)) l))
    as (l' & ->); [|eauto].
  eapply Permutation_Forall; [symmetry; apply sort_by_perm|exact Hd].
Qed.

Lemma inject_loop_total h ks : forall w,
  NoDup ks ->
  (forall k, In k ks -> exists l, lookup k (grid w) = Some l /\ Forall dashed l) ->
  exists w',
    for_of (fun day =>
              daySchedule <- get_day day ;;
              updatedSchedule <- lift (inject_day h daySchedule) ;;
              set_day day updatedSchedule) ks w = Ok tt w'.
Proof.
  induction ks as [|k rest IH]; intros w Hnd Hall; simpl.
  - eauto.
  - inversion Hnd as [|? ? Hnotin Hnd']; subst.
    destruct (Hall k (or_introl eq_refl)) as (l & Hl & Hd).
    destruct (inject_day_total h l Hd) as (l' & Hinj).
    unfold bind at 1. unfold bind at 1, get_day. rewrite Hl.
    unfold bind at 1, lift. rewrite Hinj. cbn [set_day].
    apply IH; auto. intros k' Hk'. simpl.
    rewrite lookup_assign_other; [apply Hall; now right|].
    intros ->. contradiction.
Qed.

Lemma construct_dashed h sectionData constraints w u w' :
  construct h sectionData constraints w = Ok u w' ->
  Forall dashed (elements (grid w')).
Proof.
  apply (construct_invariant (fun g => Forall dashed (elements g))).
  - constructor.
  - intros g g' (day & l & s & room & course & _ & Hl & _ & _ & ->) Hg.
    eapply Permutation_Forall; [symmetry; apply elements_push; exact Hl|].
    constructor; auto. apply split_template.
  - intros g g' (day & l & s & room & course & _ & Hl & _ & _ & ->) Hg.
    eapply Permutation_Forall; [symmetry; apply elements_push; exact Hl|].
    constructor; auto. apply split_template.
Qed.

(** X1: generation throws nothing when the catalogue has a theory slot for
    its theory courses and a lab slot for its lab courses (a kind without
    courses needs no slot): for every random source, collation, rooms and
    overrides the run returns a grid. *)
Theorem generation_returns h sectionData overrides w :
  slots_cover_courses sectionData ->
  exists g w', generateTimetable h sectionData overrides w = Ok g w'.
Proof.
  intros Hcover. unfold generateTimetable.
  destruct (construct_total h sectionData
              (Constraints.merge this_constraints overrides) w Hcover)
    as (w1 & Hc).
  unfold bind at 1. rewrite Hc.
  pose proof (construct_keys _ _ _ _ _ _ Hc) as Hkeys.
  pose proof (construct_dashed _ _ _ _ _ _ Hc) as Hd.
  destruct (inject_loop_total h (keys (grid w1)) w1) as (w2 & Hinj).
  { rewrite Hkeys. apply week_NoDup. }
  { intros k Hk. apply in_keys_lookup in Hk as (l & Hl). exists l. split; auto.
    rewrite Forall_forall in *. intros e He. apply Hd.
    eapply in_day_elements; eauto. }
  unfold bind at 1. unfold addBreaksAndLunch, bind at 1. cbn [get_grid].
  rewrite Hinj. eexists _, _. reflexivity.
Qed.

(** ** Runs that throw *)

Lemma lookup_initial day :
  In day week -> lookup day initializeTimetable = Some [].
Proof.
  simpl. intros [<-|[<-|[<-|[<-|[<-|[<-|[]]]]]]]; reflexivity.
Qed.

Lemma first_theory_attempt_throws h budget course rooms constraints w :
  grid w = initializeTimetable ->
  0 < Constraints.MAX_CLASSES_PER_DAY constraints ->
  theory_attempts h (S budget) [] course rooms constraints w = Throw undefined_slot.
Proof.
  intros Hg Hmax. cbn [theory_attempts].
  unfold bind at 1. unfold getRandomDay, bind at 1.
  rewrite random_index_run. cbn [ret].
  set (day := nth _ teaching_days "Monday").
  assert (Hday : lookup day initializeTimetable = Some [])
    by apply lookup_initial, teaching_day_in_week, nth_teaching_day.
  unfold bind at 1. rewrite random_index_run. cbn [length nth_error].
  unfold bind at 1. unfold canScheduleCourse.
  unfold bind at 1. unfold get_day. cbn [grid]. rewrite Hg, Hday.
  unfold bind at 1. cbn [some_E lift].
  unfold bind at 1.
  match goal with
  | |- context [findSuitableRoom h rooms course ?w0] =>
      destruct (findSuitableRoom_total h rooms course w0) as (room & w1 & Hroom);
      rewrite Hroom
  end.
  unfold bind at 1. cbn [some_E lift length].
  destruct (Constraints.MAX_CLASSES_PER_DAY constraints <=? Z.of_nat 0) eqn:Hle.
  { apply Z.leb_le in Hle. simpl in Hle. lia. }
  reflexivity.
Qed.

Lemma first_lab_attempt_throws h budget course rooms constraints w :
  grid w = initializeTimetable ->
  lab_attempts h (S budget) [] course rooms constraints w = Throw undefined_slot.
Proof.
  intros Hg. cbn [lab_attempts].
  unfold bind at 1. rewrite random_index_run. cbv zeta.
  set (day := nth _ teaching_days "Monday").
  assert (Hday : lookup day initializeTimetable = Some [])
    by apply lookup_initial, teaching_day_in_week, nth_teaching_day.
  unfold bind at 1. rewrite random_index_run. cbn [length nth_error].
  unfold bind at 1. unfold canScheduleLab.
  unfold bind at 1. unfold get_day. cbn [grid]. rewrite Hg, Hday.
  cbn [existsb].
  unfold bind at 1.
  match goal with
  | |- context [findLabRoom h rooms course ?w0] =>
      destruct (findLabRoom_total h rooms course w0) as (room & w1 & Hroom);
      rewrite Hroom
  end.
  apply findLabRoom_store in Hroom as [Hg1 _]. cbn [grid] in Hg1.
  unfold bind at 1. unfold get_grid. rewrite Hg1. rewrite ?Hg.
  reflexivity.
Qed.

(** X2: a catalogue with a theory course and no theory slot makes
    generation throw, whatever the random source, as long as the ceiling is
    positive: the first attempt finds the empty day free and then reads the
    start of a slot that is [undefined]. *)
Theorem no_theory_slot_throws h sectionData overrides w :
  filter (fun c => String.eqb (Course.type c) "theory")
         (SectionData.courses sectionData) <> [] ->
  filter (is_kind "theory") (SectionData.timeslots sectionData) = [] ->
  0 < Constraints.MAX_CLASSES_PER_DAY (Constraints.merge this_constraints overrides) ->
  generateTimetable h sectionData overrides w = Throw undefined_slot.
Proof.
  intros Hcourses Hslots Hmax. unfold generateTimetable.
  unfold bind at 1. unfold construct.
  unfold bind at 1. cbn [set_grid].
  unfold bind at 1. unfold scheduleTheoryCourses. rewrite Hslots.
  destruct (filter _ (SectionData.courses sectionData)) as [|course rest];
    [contradiction|].
  cbn [for_of]. unfold bind at 1. unfold schedule_one_theory, bind at 1.
  rewrite first_theory_attempt_throws; auto.
Qed.

(** X3: a catalogue with no theory course, a lab course and no lab slot
    makes generation throw, whatever the random source: the lab check never
    looks at the slot, accepts the empty day, and the push reads the start
    of a slot that is [undefined].  The course is not reported unplaced. *)
Theorem no_lab_slot_throws h sectionData overrides w :
  filter (fun c => String.eqb (Course.type c) "theory")
         (SectionData.courses sectionData) = [] ->
  filter (fun c => String.eqb (Course.type c) "lab")
         (SectionData.courses sectionData) <> [] ->
  filter (is_kind "lab") (SectionData.timeslots sectionData) = [] ->
  generateTimetable h sectionData overrides w = Throw undefined_slot.
Proof.
  intros Htheory Hcourses Hslots. unfold generateTimetable.
  unfold bind at 1. unfold construct.
  unfold bind at 1. cbn [set_grid].
  unfold bind at 1. unfold scheduleTheoryCourses. rewrite Htheory.
  cbn [for_of ret].
  unfold scheduleLabCourses. rewrite Hslots.
  destruct (filter (fun c => String.eqb (Course.type c) "lab")
                   (SectionData.courses sectionData)) as [|course rest];
    [contradiction|].
  cbn [for_of]. unfold bind at 1. unfold schedule_one_lab, bind at 1.
  rewrite first_lab_attempt_throws; auto.
Qed.

(** ** The trace of the constructive phase *)

Lemma opt_eqb_eq a b : opt_eqb a b = true <-> a = b.
Proof.
  destruct a as [x|], b as [y|]; simpl; split; try discriminate; auto.
  - intros H. apply String.eqb_eq in H. now subst.
  - intros [= ->]. apply String.eqb_refl.
Qed.

Lemma existsb_false {A} (p : A -> bool) l :
  existsb p l = false -> forall x, In x l -> p x = false.
Proof.
  intros H x Hx. destruct (p x) eqn:Hp; auto.
  assert (existsb p l = true) by (apply existsb_exists; eauto). congruence.
Qed.

Lemma canScheduleCourse_true h day s course rooms constraints w w' :
  canScheduleCourse h day (Some s) course rooms constraints w = Ok true w' ->
  exists l checked,
    lookup day (grid w) = Some l
    /\ Z.of_nat (length l) < Constraints.MAX_CLASSES_PER_DAY constraints
    /\ (forall sc, In sc l -> teacher_clash course s sc = false)
    /\ (forall sc, In sc l -> room_clash checked s sc = false)
    /\ selectable h rooms course checked.
Proof.
  unfold canScheduleCourse. intros H.
  apply bind_Ok in H as (l & w1 & Hget & H).
  apply get_day_Ok in Hget as (-> & Hday).
  apply bind_Ok in H as (teacherConflict & w2 & Ht & H).
  apply lift_Ok in Ht as (Ht & ->).
  destruct teacherConflict; [discriminate|].
  apply bind_Ok in H as (room & w3 & Hroom & H).
  apply bind_Ok in H as (roomConflict & w4 & Hr & H).
  apply lift_Ok in Hr as (Hr & ->).
  destruct roomConflict; [discriminate|].
  destruct (Constraints.MAX_CLASSES_PER_DAY constraints <=? Z.of_nat (length l)) eqn:Hmax;
    [discriminate|].
  apply Z.leb_gt in Hmax.
  exists l, room. repeat apply conj; auto.
  - intros sc Hsc. pose proof (some_E_false _ _ Ht sc Hsc) as Hp.
    unfold at_slot in Hp. unfold teacher_clash.
    destruct (opt_eqb _ _); [|reflexivity]. simpl in Hp. now injection Hp.
  - intros sc Hsc. pose proof (some_E_false _ _ Hr sc Hsc) as Hp.
    unfold at_slot in Hp. unfold room_clash.
    destruct (opt_eqb _ _); [|reflexivity]. simpl in Hp. now injection Hp.
  - exists w, w3. exact Hroom.
Qed.

Lemma canScheduleLab_true h day slot course rooms constraints w w' :
  canScheduleLab h day slot course rooms constraints w = Ok true w' ->
  exists l checked,
    lookup day (grid w) = Some l
    /\ (forall sc, In sc l ->
          opt_eqb (Entry.teacher sc) (Course.teacherId course) = false)
    /\ (forall sc, In sc l -> opt_eqb (Entry.room sc) (Some checked) = false)
    /\ week_has (lab_code course) (grid w) = false
    /\ lab_selectable h rooms course checked.
Proof.
  unfold canScheduleLab. intros H.
  apply bind_Ok in H as (l & w1 & Hget & H).
  apply get_day_Ok in Hget as (-> & Hday).
  destruct (existsb _ l) eqn:Ht; [discriminate|].
  apply bind_Ok in H as (labRoom & w2 & Hroom & H).
  destruct (existsb (fun sc => opt_eqb (Entry.room sc) (Some labRoom)) l) eqn:Hr;
    [discriminate|].
  apply bind_Ok in H as (timetable & w3 & Hgrid & H).
  injection Hgrid as <- <-.
  fold (week_has (lab_code course) (grid w2)) in H.
  destruct (week_has (lab_code course) (grid w2)) eqn:Hweek; [discriminate|].
  pose proof (findLabRoom_store _ _ _ _ _ _ Hroom) as [Hg _].
  exists l, labRoom. repeat apply conj; auto.
  - apply (existsb_false _ _ Ht).
  - apply (existsb_false _ _ Hr).
  - now rewrite <- Hg.
  - exists w, w2. exact Hroom.
Qed.

Lemma nth_error_slot slots i t :
  slot_time (nth_error slots i) = inr t ->
  exists s, nth_error slots i = Some s /\ In s slots /\ t = time_of_slot s.
Proof.
  destruct (nth_error slots i) eqn:Hn; simpl; [|discriminate].
  intros [= <-]. exists t0. repeat split. eapply nth_error_In; eauto.
Qed.

Lemma theory_attempts_placed h budget slots course rooms constraints w b w' :
  theory_attempts h budget slots course rooms constraints w = Ok b w' ->
  console w' = console w
  /\ ((b = false /\ grid w' = grid w)
      \/ (b = true
          /\ theory_placed h rooms constraints slots course (grid w) (grid w'))).
Proof.
  revert w. induction budget as [|budget IH]; intros w; simpl.
  - intros [= <- <-]. auto.
  - intros H.
    apply bind_Ok in H as (randomDay & w1 & Hday & H).
    unfold getRandomDay in Hday.
    apply bind_Ok in Hday as (d & w0 & Hd & Hday).
    apply random_index_Ok in Hd as (Hs0 & _).
    injection Hday as <- <-.
    apply bind_Ok in H as (i & w2 & Hi & H).
    apply random_index_Ok in Hi as (Hs1 & _).
    apply bind_Ok in H as (ok & w3 & Hcan & H).
    pose proof (canScheduleCourse_Ok _ _ _ _ _ _ _ _ _ Hcan) as (Hs2 & _).
    assert (Hs : same_store w w3) by eauto with store.
    destruct Hs as [Hg Hc].
    destruct ok.
    + apply bind_Ok in H as (time & w4 & Htime & H).
      apply lift_Ok in Htime as (Htime & ->).
      apply nth_error_slot in Htime as (s & Hnth & Hin & ->).
      rewrite Hnth in Hcan.
      apply canScheduleCourse_true in Hcan
        as (l & checked & Hl & Hmax & Hteacher & Hroomfree & Hsel).
      apply bind_Ok in H as (room & w5 & Hroom & H).
      pose proof (findSuitableRoom_store _ _ _ _ _ _ Hroom) as [Hg5 Hc5].
      apply bind_Ok in H as (u & w6 & Hpush & H).
      injection H as <- <-.
      apply push_day_Ok in Hpush as (l' & Hl' & ->). simpl.
      split; [congruence|]. right. split; [reflexivity|].
      destruct Hs2 as [Hg2 _]. destruct Hs1 as [Hg1 _]. destruct Hs0 as [Hg0 _].
      assert (Hgw : grid w5 = grid w) by congruence.
      assert (Hg2w : grid w2 = grid w) by congruence.
      rewrite Hg2w in Hl. rewrite Hgw in Hl'.
      assert (l' = l) by congruence. subst l'.
      exists (nth d teaching_days "Monday"), l, s, checked, room.
      rewrite Hgw. repeat apply conj; auto using nth_teaching_day.
      exists w3, w5. exact Hroom.
    + apply IH in H as (Hc' & Hcases). split; [congruence|].
      destruct Hcases as [(-> & Hg')|(-> & Hstep)].
      * left. split; congruence.
      * right. split; [reflexivity|]. now rewrite <- Hg.
Qed.

Lemma lab_attempts_placed h budget slots course rooms constraints w b w' :
  lab_attempts h budget slots course rooms constraints w = Ok b w' ->
  console w' = console w
  /\ ((b = false /\ grid w' = grid w)
      \/ (b = true /\ lab_placed h rooms slots course (grid w) (grid w'))).
Proof.
  revert w. induction budget as [|budget IH]; intros w; simpl.
  - intros [= <- <-]. auto.
  - intros H.
    apply bind_Ok in H as (d & w1 & Hd & H).
    apply random_index_Ok in Hd as (Hs0 & _).
    apply bind_Ok in H as (i & w2 & Hi & H).
    apply random_index_Ok in Hi as (Hs1 & _).
    apply bind_Ok in H as (ok & w3 & Hcan & H).
    pose proof (canScheduleLab_Ok _ _ _ _ _ _ _ _ _ Hcan) as (Hs2 & _).
    assert (Hs : same_store w w3) by eauto with store.
    destruct Hs as [Hg Hc].
    destruct ok.
    + apply bind_Ok in H as (time & w4 & Htime & H).
      apply lift_Ok in Htime as (Htime & ->).
      apply nth_error_slot in Htime as (s & Hnth & Hin & ->).
      apply canScheduleLab_true in Hcan
        as (l & checked & Hl & Hteacher & Hroomfree & Hweek & Hsel).
      apply bind_Ok in H as (room & w5 & Hroom & H).
      pose proof (findLabRoom_store _ _ _ _ _ _ Hroom) as [Hg5 Hc5].
      apply bind_Ok in H as (u & w6 & Hpush & H).
      injection H as <- <-.
      apply push_day_Ok in Hpush as (l' & Hl' & ->). simpl.
      split; [congruence|]. right. split; [reflexivity|].
      destruct Hs2 as [Hg2 _]. destruct Hs1 as [Hg1 _]. destruct Hs0 as [Hg0 _].
      assert (Hgw : grid w5 = grid w) by congruence.
      assert (Hg2w : grid w2 = grid w) by congruence.
      rewrite Hg2w in Hl, Hweek. rewrite Hgw in Hl'.
      assert (l' = l) by congruence. subst l'.
      exists (nth d teaching_days "Monday"), l, s, checked, room.
      rewrite Hgw. repeat apply conj; auto using nth_teaching_day.
      exists w3, w5. exact Hroom.
    + apply IH in H as (Hc' & Hcases). split; [congruence|].
      destruct Hcases as [(-> & Hg')|(-> & Hstep)].
      * left. split; congruence.
      * right. split; [reflexivity|]. now rewrite <- Hg.
Qed.

Lemma theory_loop_run h slots rooms constraints courses : forall w u w',
  for_of (schedule_one_theory h slots rooms constraints) courses w = Ok u w' ->
  run_of (theory_placed h rooms constraints slots) theory_warning
         courses (grid w) (console w) (grid w') (console w').
Proof.
  induction courses as [|course rest IH]; intros w u w'; simpl.
  - intros [= _ <-]. constructor.
  - intros H. apply bind_Ok in H as (u1 & w1 & Hone & H).
    apply IH in H. unfold schedule_one_theory in Hone.
    apply bind_Ok in Hone as (scheduled & w2 & Hatt & Hone).
    apply theory_attempts_placed in Hatt as (Hc & [(-> & Hg)|(-> & Hp)]).
    + injection Hone as _ <-. simpl in H. rewrite Hg, Hc in H.
      now apply run_unplaced.
    + injection Hone as _ <-. rewrite Hc in H.
      eapply run_placed; eauto.
Qed.

Lemma lab_loop_run h slots rooms constraints courses : forall w u w',
  for_of (schedule_one_lab h slots rooms constraints) courses w = Ok u w' ->
  run_of (lab_placed h rooms slots) lab_warning
         courses (grid w) (console w) (grid w') (console w').
Proof.
  induction courses as [|course rest IH]; intros w u w'; simpl.
  - intros [= _ <-]. constructor.
  - intros H. apply bind_Ok in H as (u1 & w1 & Hone & H).
    apply IH in H. unfold schedule_one_lab in Hone.
    apply bind_Ok in Hone as (scheduled & w2 & Hatt & Hone).
    apply lab_attempts_placed in Hatt as (Hc & [(-> & Hg)|(-> & Hp)]).
    + injection Hone as _ <-. simpl in H. rewrite Hg, Hc in H.
      now apply run_unplaced.
    + injection Hone as _ <-. rewrite Hc in H.
      eapply run_placed; eauto.
Qed.

(** The constructive phase is a theory run from the empty week followed by
    a lab run. *)
Lemma construct_runs h sectionData constraints w u w' :
  construct h sectionData constraints w = Ok u w' ->
  exists g1 c1,
    run_of (theory_placed h (SectionData.rooms sectionData) constraints
                          (theory_slots sectionData))
           theory_warning (theory_courses sectionData)
           initializeTimetable (console w) g1 c1
    /\ run_of (lab_placed h (SectionData.rooms sectionData) (lab_slots sectionData))
              lab_warning (lab_courses sectionData)
              g1 c1 (grid w') (console w').
Proof.
  intros H. unfold construct in H.
  apply bind_Ok in H as (u0 & w0 & Hset & H).
  injection Hset as _ <-.
  apply bind_Ok in H as (u1 & w1 & Htheory & H).
  apply theory_loop_run in Htheory. apply lab_loop_run in H.
  exists (grid w1), (console w1). split; assumption.
Qed.

(** ** What a placement loop leaves behind *)

Section Runs.
Variable placed : Course.t -> Timetable -> Timetable -> Prop.
Variable warning : Course.t -> string.

Lemma run_of_invariant (P : Timetable -> Prop) courses g c g' c' :
  (forall course a b, placed course a b -> P a -> P b) ->
  run_of placed warning courses g c g' c' -> P g -> P g'.
Proof.
  intros Hstep Hrun. induction Hrun; eauto.
Qed.

(** The same, when the step is only known to keep [P] for the courses of
    the run. *)
Lemma run_of_invariant_in (P : Timetable -> Prop) courses g c g' c' :
  (forall course a b, In course courses -> placed course a b -> P a -> P b) ->
  run_of placed warning courses g c g' c' -> P g -> P g'.
Proof.
  intros Hstep Hrun.
  induction Hrun as [g c|course rest g c g' c' _ IH|course rest g g1 c g' c' Hp _ IH];
    intros Hg.
  - exact Hg.
  - apply IH; [|exact Hg]. intros x a b Hx. apply Hstep. now right.
  - apply IH.
    + intros x a b Hx. apply Hstep. now right.
    + apply (Hstep course g g1); [now left|exact Hp|exact Hg].
Qed.

(** The courses split into those placed, each with the entry pushed for it,
    and those warned about. *)
Lemma run_of_outcome (R : Course.t -> Entry.t -> Prop) courses g c g' c' :
  (forall course a b, placed course a b ->
     exists e, R course e /\ Permutation (elements b) (e :: elements a)) ->
  run_of placed warning courses g c g' c' ->
  exists (placements : list (Course.t * Entry.t)) (unplaced : list Course.t),
    Permutation courses (map fst placements ++ unplaced)
    /\ Forall (fun p => R (fst p) (snd p)) placements
    /\ c' = c ++ map warning unplaced
    /\ Permutation (elements g') (map snd placements ++ elements g).
Proof.
  intros Hplaced Hrun. induction Hrun as
    [g c|course rest g c g' c' _ IH|course rest g g1 c g' c' Hp _ IH].
  - exists [], []. simpl. rewrite app_nil_r. auto.
  - destruct IH as (ps & us & Hperm & HR & Hc & Hel).
    exists ps, (course :: us). repeat apply conj; auto.
    + rewrite Hperm. apply Permutation_middle.
    + rewrite Hc. simpl. now rewrite <- app_assoc.
  - destruct IH as (ps & us & Hperm & HR & Hc & Hel).
    destruct (Hplaced _ _ _ Hp) as (e & He & Hpe).
    exists ((course, e) :: ps), us. repeat apply conj; auto.
    + simpl. now constructor.
    + rewrite Hel, Hpe. simpl. symmetry. apply Permutation_middle.
Qed.
End Runs.

Lemma kind_slot kind s timeslots :
  In s (filter (is_kind kind) timeslots) ->
  In s timeslots /\ Timeslot.type s = kind.
Proof.
  intros H. apply filter_In in H as (Hin & Hk). split; auto.
  now apply String.eqb_eq in Hk.
Qed.

Lemma theory_placed_entry h sectionData constraints course a b :
  theory_placed h (SectionData.rooms sectionData) constraints
                (theory_slots sectionData) course a b ->
  exists e, theory_entry_of h sectionData course e
            /\ Permutation (elements b) (e :: elements a).
Proof.
  intros (day & l & s & checked & room & _ & Hl & _ & Hs & _ & _ & _ & Hsel & ->).
  apply kind_slot in Hs as (Hs & Hk).
  eexists. split; [exists s, room; eauto|].
  apply elements_push. exact Hl.
Qed.

Lemma lab_placed_entry h sectionData course a b :
  lab_placed h (SectionData.rooms sectionData) (lab_slots sectionData) course a b ->
  exists e, lab_entry_of h sectionData course e
            /\ Permutation (elements b) (e :: elements a).
Proof.
  intros (day & l & s & checked & room & _ & Hl & Hs & _ & _ & _ & _ & Hsel & ->).
  apply kind_slot in Hs as (Hs & Hk).
  eexists. split; [exists s, room; eauto|].
  apply elements_push. exact Hl.
Qed.

(** X4: the constructive phase places every theory or lab course at most
    once and accounts for each: the courses split into those placed, whose
    entries (the course's own name, code, teacher and credits at a slot of
    its kind) are exactly what the grid holds, and those not placed, whose
    warnings are exactly what was added to the console, theory first.
    Courses of any other type are ignored. *)
Theorem construction_accounts_for_every_course h sectionData constraints w u w' :
  construct h sectionData constraints w = Ok u w' ->
  exists theory_in lab_in theory_out lab_out,
    Permutation (theory_courses sectionData) (map fst theory_in ++ theory_out)
    /\ Permutation (lab_courses sectionData) (map fst lab_in ++ lab_out)
    /\ Forall (fun p => theory_entry_of h sectionData (fst p) (snd p)) theory_in
    /\ Forall (fun p => lab_entry_of h sectionData (fst p) (snd p)) lab_in
    /\ console w'
       = console w ++ map theory_warning theory_out ++ map lab_warning lab_out
    /\ Permutation (elements (grid w')) (map snd theory_in ++ map snd lab_in).
Proof.
  intros H. apply construct_runs in H as (g1 & c1 & Ht & Hl).
  apply (run_of_outcome _ _ (theory_entry_of h sectionData)) in Ht
    as (pt & ut & Hpt & HRt & Hct & Het);
    [|intros; eapply theory_placed_entry; eauto].
  apply (run_of_outcome _ _ (lab_entry_of h sectionData)) in Hl
    as (pl & ul & Hpl & HRl & Hcl & Hel);
    [|intros; eapply lab_placed_entry; eauto].
  exists pt, pl, ut, ul. repeat apply conj; auto.
  - rewrite Hcl, Hct. now rewrite <- app_assoc.
  - rewrite Hel, Het. change (elements initializeTimetable) with (@nil Entry.t).
    rewrite app_nil_r. apply Permutation_app_comm.
Qed.

(** ** Teachers in the constructed grid *)

Lemma NoDup_snoc {A} (l : list A) x : NoDup l -> ~ In x l -> NoDup (l ++ [x]).
Proof.
  intros Hnd Hx. apply NoDup_rev in Hnd.
  rewrite <- (rev_involutive (l ++ [x])). apply NoDup_rev.
  rewrite rev_app_distr. simpl. constructor; auto.
  now rewrite <- in_rev.
Qed.

Lemma pushed_no_teacher_twice g day l e :
  lookup day g = Some l ->
  (forall sc, In sc l -> teacher_time sc <> teacher_time e) ->
  no_teacher_twice g -> no_teacher_twice (assign day (l ++ [e]) g).
Proof.
  intros Hl Hfree Hg day' l'.
  destruct (String.eqb day day') eqn:Hd.
  - apply String.eqb_eq in Hd. subst day'. rewrite lookup_assign_same.
    intros [= <-]. rewrite map_app. simpl.
    apply NoDup_snoc; [exact (Hg day l Hl)|].
    intros Hin. apply in_map_iff in Hin as (sc & Heq & Hsc).
    now apply (Hfree sc Hsc).
  - rewrite lookup_assign_other; [apply Hg|].
    intros ->. now rewrite String.eqb_refl in Hd.
Qed.

(** X5: when the constructive phase ends no teacher is booked twice at the
    same time on a day: the (teacher, time) pairs of each day's entries are
    all different, entries without a teacher included. *)
Theorem construction_books_no_teacher_twice h sectionData constraints w u w' :
  construct h sectionData constraints w = Ok u w' ->
  forall day l,
    lookup day (grid w') = Some l -> NoDup (map teacher_time l).
Proof.
  intros H. apply construct_runs in H as (g1 & c1 & Ht & Hl).
  change (no_teacher_twice (grid w')).
  eapply run_of_invariant; [|exact Hl|].
  - intros course a b
      (day & l & s & checked & room & _ & Hday & _ & Hfree & _ & _ & _ & _ & ->).
    apply pushed_no_teacher_twice; auto.
    intros sc Hsc [= Hteacher _]. specialize (Hfree sc Hsc).
    apply opt_eqb_eq in Hteacher. congruence.
  - eapply run_of_invariant; [|exact Ht|].
    + intros course a b
        (day & l & s & checked & room & _ & Hday & _ & _ & Hfree & _ & _ & _ & ->).
      apply pushed_no_teacher_twice; auto.
      intros sc Hsc [= Hteacher Htime]. specialize (Hfree sc Hsc).
      unfold teacher_clash in Hfree.
      apply opt_eqb_eq in Hteacher. rewrite Hteacher in Hfree.
      apply String.eqb_eq in Htime. rewrite Htime in Hfree. discriminate.
    + intros day l Hday.
      assert (In day week) by (apply lookup_in_keys in Hday; exact Hday).
      rewrite lookup_initial in Hday by assumption. injection Hday as <-.
      constructor.
Qed.

Lemma opt_eqb_sym a b : opt_eqb a b = opt_eqb b a.
Proof.
  destruct a, b; simpl; auto using String.eqb_sym.
Qed.

Lemma opt_eqb_refl a : opt_eqb a a = true.
Proof. now apply opt_eqb_eq. Qed.

(** X6: when the constructive phase ends, a teacher who has a lab block on
    a day has nothing else on that day: the lab is that day's only entry
    with that teacher. *)
Theorem construction_keeps_lab_days_free h sectionData constraints w u w' :
  construct h sectionData constraints w = Ok u w' ->
  forall day l e,
    lookup day (grid w') = Some l -> In e l -> is_lab e = true ->
    same_teacher e l = [e].
Proof.
  intros H.
  assert (Halone : lab_teachers_alone (grid w')).
  { apply construct_runs in H as (g1 & c1 & Ht & Hl).
    eapply run_of_invariant; [|exact Hl|].
    - intros course a b
        (day & l & s & checked & room & _ & Hday & _ & Hfree & _ & _ & _ & _ & ->)
        Ha day' l' e.
      destruct (String.eqb day day') eqn:Hd.
      + apply String.eqb_eq in Hd. subst day'. rewrite lookup_assign_same.
        intros [= <-] Hin Hlab. unfold same_teacher. rewrite filter_app, length_app.
        apply in_app_iff in Hin as [Hin|[<-|[]]].
        * fold (same_teacher e l). rewrite (Ha day l e Hday Hin Hlab).
          simpl. rewrite opt_eqb_sym. now rewrite (Hfree e Hin).
        * rewrite filter_none; [simpl; now rewrite opt_eqb_refl|].
          intros sc Hsc. apply (Hfree sc Hsc).
      + rewrite lookup_assign_other; [apply Ha|].
        intros ->. now rewrite String.eqb_refl in Hd.
    - assert (Hnolab : forall e, In e (elements g1) -> is_lab e = false).
      { eapply (run_of_invariant _ _
                  (fun g => forall e, In e (elements g) -> is_lab e = false));
          [|exact Ht|intros e []].
        intros course a b
          (day & l & s & checked & room & _ & Hday & _ & _ & _ & _ & _ & _ & ->)
          Ha e He.
        eapply Permutation_in in He; [|apply elements_push; exact Hday].
        destruct He as [<-|He]; [reflexivity|auto]. }
      intros day l e Hday Hin Hlab.
      rewrite (Hnolab e) in Hlab; [discriminate|].
      eapply in_day_elements; eauto. }
  intros day l e Hday Hin Hlab.
  pose proof (Halone day l e Hday Hin Hlab) as Hlen.
  assert (Hmem : In e (same_teacher e l)).
  { apply filter_In. split; auto. apply opt_eqb_refl. }
  destruct (same_teacher e l) as [|x [|y rest]]; simpl in *; try discriminate.
  destruct Hmem as [->|[]]. reflexivity.
Qed.

(** ** Where the entries of the returned grid come from *)

Lemma from_catalogue_stable sectionData :
  stable (fun l => Forall (from_catalogue sectionData) l).
Proof.
  split.
  - intros a b Hab Ha. eapply Permutation_Forall; eauto.
  - intros a b Hab Ha. induction Hab as [|e e' a b He _ IH]; [constructor|].
    inversion Ha as [|? ? Hfrom Hrest]; subst. constructor; auto.
    destruct He as [->|(r & ->)]; auto.
    destruct Hfrom as [Hm|[(c & s & room & H)|(c & s & room & H)]].
    + left. exact Hm.
    + right. left. exists c, s, r.
      destruct H as (? & ? & ? & ? & ->). auto.
    + right. right. exists c, s, r.
      destruct H as (? & ? & ? & ? & ->). auto.
Qed.

Lemma course_of_kind kind c courses :
  In c (filter (fun c => String.eqb (Course.type c) kind) courses) ->
  In c courses /\ Course.type c = kind.
Proof.
  intros H. apply filter_In in H as (Hin & Hk). split; auto.
  now apply String.eqb_eq in Hk.
Qed.

Lemma construct_from_catalogue h sectionData constraints w u w' :
  construct h sectionData constraints w = Ok u w' ->
  Forall (from_catalogue sectionData) (elements (grid w')).
Proof.
  intros H. apply construct_runs in H as (g1 & c1 & Ht & Hl).
  apply (run_of_outcome _ _ (theory_entry_of h sectionData)) in Ht
    as (pt & ut & Hpt & HRt & _ & Het);
    [|intros; eapply theory_placed_entry; eauto].
  apply (run_of_outcome _ _ (lab_entry_of h sectionData)) in Hl
    as (pl & ul & Hpl & HRl & _ & Hel);
    [|intros; eapply lab_placed_entry; eauto].
  eapply Permutation_Forall; [symmetry; exact Hel|].
  apply Forall_app. split.
  - apply Forall_forall. intros e He. apply in_map_iff in He as ([c e'] & <- & Hp).
    rewrite Forall_forall in HRl. destruct (HRl _ Hp) as (s & room & Hs & Hk & _ & ->).
    assert (Hc : In c (lab_courses sectionData)).
    { eapply Permutation_in; [symmetry; exact Hpl|].
      apply in_app_iff. left. now apply (in_map fst) in Hp. }
    apply course_of_kind in Hc as (Hc & Hty).
    right. right. exists c, s, room. auto.
  - eapply Permutation_Forall; [symmetry; exact Het|].
    change (elements initializeTimetable) with (@nil Entry.t). rewrite app_nil_r.
    apply Forall_forall. intros e He. apply in_map_iff in He as ([c e'] & <- & Hp).
    rewrite Forall_forall in HRt. destruct (HRt _ Hp) as (s & room & Hs & Hk & _ & ->).
    assert (Hc : In c (theory_courses sectionData)).
    { eapply Permutation_in; [symmetry; exact Hpt|].
      apply in_app_iff. left. now apply (in_map fst) in Hp. }
    apply course_of_kind in Hc as (Hc & Hty).
    right. left. exists c, s, room. auto.
Qed.

(** X7: the returned grid holds nothing that was not asked for: each of its
    entries is a break or lunch marker, or the entry of a theory course of
    the catalogue at one of its theory slots, or the lab entry of a lab
    course at one of its lab slots, with the course's own name, code,
    teacher and credits; only the room may have been rewritten. *)
Theorem returned_entries_come_from_catalogue h sectionData overrides w g w' :
  generateTimetable h sectionData overrides w = Ok g w' ->
  forall e, In e (elements (Generated.days g)) -> from_catalogue sectionData e.
Proof.
  intros H. apply generateTimetable_Ok in H as (w1 & Hc & Hb & -> & _).
  pose proof (construct_keys _ _ _ _ _ _ Hc) as Hkeys.
  pose proof (construct_from_catalogue _ _ _ _ _ _ Hc) as Hfrom.
  assert (Hnd : NoDup (keys (grid w1))) by (rewrite Hkeys; apply week_NoDup).
  apply addBreaksAndLunch_injected in Hb as (Hk' & ms & Hp & Hms); auto.
  apply Forall_forall.
  apply (optimizeTimetable_stable (fun l => Forall (from_catalogue sectionData) l));
    [apply from_catalogue_stable|congruence|].
  eapply Permutation_Forall; [symmetry; exact Hp|].
  apply Forall_app. split; auto.
  eapply Forall_impl; [|exact Hms]. intros e He. now left.
Qed.

(** ** What injection adds to a day *)

Lemma with_breaks_adds l : forall l',
  with_breaks l = inr l' ->
  exists breaks,
    Permutation l' (l ++ breaks)
    /\ Forall is_break_entry breaks
    /\ (length breaks <= pred (length l))%nat.
Proof.
  induction l as [|current rest IH]; intros l'.
  - simpl. intros [= <-]. exists []. auto.
  - cbn [with_breaks]. destruct rest as [|next rest'].
    + intros [= <-]. exists []. auto.
    + destruct (getTimeDifference _ _) as [e|diff]; [discriminate|].
      destruct (with_breaks (next :: rest')) as [e|updated]; [discriminate|].
      destruct (IH updated eq_refl) as (bs & Hperm & Hbs & Hlen).
      destruct (exceeds diff _); intros [= <-].
      * eexists (_ :: bs). repeat apply conj.
        -- rewrite Hperm. simpl. constructor.
           change (next :: rest' ++ ?b :: bs) with ((next :: rest') ++ b :: bs).
           now rewrite <- Permutation_middle.
        -- constructor; auto. eexists _, _. reflexivity.
        -- simpl in *. lia.
      * exists bs. repeat apply conj; auto.
        -- rewrite Hperm. reflexivity.
        -- simpl in *. lia.
Qed.

Lemma findIndex_nonempty {A} (p : A -> bool) l i :
  findIndex p l = Some i -> l <> [].
Proof. destruct l; [discriminate|]. intros _. discriminate. Qed.

Lemma inject_day_adds h l l' :
  inject_day h l = inr l' ->
  exists breaks lunch,
    Permutation l' (l ++ breaks ++ lunch)
    /\ Forall is_break_entry breaks
    /\ (length breaks <= pred (length l))%nat
    /\ (lunch = [] \/ (lunch = [lunch_entry] /\ l <> [])).
Proof.
  unfold inject_day.
  destruct (with_breaks _) as [e|updated] eqn:Hb; [discriminate|].
  intros [= <-].
  apply with_breaks_adds in Hb as (bs & Hperm & Hbs & Hlen).
  assert (Hsort : Permutation
            (sort_by (fun a b => localeCompare h (start_of a) (start_of b)) l) l)
    by apply sort_by_perm.
  rewrite (Permutation_length Hsort) in Hlen.
  assert (Hup : Permutation updated (l ++ bs)).
  { rewrite Hperm. now apply Permutation_app_tail. }
  unfold with_lunch. destruct (existsb _ updated).
  - exists bs, []. rewrite app_nil_r. auto.
  - destruct (findIndex _ updated) as [i|] eqn:Hi.
    + exists bs, [lunch_entry]. repeat apply conj; auto.
      * rewrite splice_in_perm, Hup.
        rewrite app_assoc. apply Permutation_cons_append.
      * right. split; [reflexivity|]. intros ->.
        apply findIndex_nonempty in Hi.
        simpl in Hlen. destruct bs; [|simpl in Hlen; lia].
        simpl in Hup. apply Permutation_sym, Permutation_nil in Hup.
        now apply Hi.
    + exists bs, []. rewrite app_nil_r. auto.
Qed.

(** X8: injecting breaks and lunch into a day drops, copies and alters no
    entry: the new array holds the day's entries and, besides, fewer break
    markers than the day has entries and at most one lunch marker, and none
    at all when the day is empty. *)
Theorem injection_only_adds_markers h l l' :
  inject_day h l = inr l' ->
  exists breaks lunch,
    Permutation l' (l ++ breaks ++ lunch)
    /\ Forall is_break_entry breaks
    /\ (length breaks <= pred (length l))%nat
    /\ (lunch = [] \/ (lunch = [lunch_entry] /\ l <> [])).
Proof. apply inject_day_adds. Qed.

(** ** What the optimizer keeps *)

(** X9: the optimizer loses nothing and invents nothing: on a grid with
    distinct day keys it returns the same keys in the same order, and its
    entries are those of the input, up to the day they sit on and the room
    they are given. *)
Theorem optimizer_conserves_entries timetable constraints :
  NoDup (keys timetable) ->
  keys (optimizeTimetable timetable constraints) = keys timetable
  /\ Permutation
       (map without_room
            (elements (contents (optimizeTimetable timetable constraints))))
       (map without_room (elements timetable)).
Proof.
  intros Hnd. split; [now apply optimizeTimetable_keys|].
  apply (optimizeTimetable_stable
           (fun l => Permutation (map without_room l)
                                 (map without_room (elements timetable))));
    [split| exact Hnd | reflexivity].
  - intros a b Hab Ha. rewrite <- Ha. symmetry. now apply Permutation_map.
  - intros a b Hab Ha. rewrite <- Ha.
    assert (map without_room b = map without_room a) as ->; [|reflexivity].
    clear Ha. induction Hab as [|e e' a' b' He _ IH]; simpl; [reflexivity|].
    rewrite IH. f_equal. destruct He as [->|(r & ->)]; reflexivity.
Qed.

(** ** What each pass of the optimizer leaves where it is *)

Lemma same_ref_eq l a b :
  NoDup (refs l) -> In a l -> In b l -> Obj.ref a = Obj.ref b -> a = b.
Proof.
  induction l as [|x rest IH]; simpl; [tauto|].
  intros Hnd Ha Hb Hab. inversion Hnd as [|? ? Hnotin Hnd']; subst.
  destruct Ha as [->|Ha], Hb as [->|Hb]; auto.
  - exfalso. apply Hnotin. rewrite Hab. now apply in_map.
  - exfalso. apply Hnotin. rewrite <- Hab. now apply in_map.
Qed.

Lemma filter_spared p l cls :
  NoDup (refs l) -> In cls l -> p cls = false ->
  filter p (filter (fun c => negb (same_object c cls)) l) = filter p l.
Proof.
  intros Hnd Hin Hp. rewrite filter_filter. apply filter_ext_in.
  intros c Hc. unfold same_object.
  destruct (Nat.eqb (Obj.ref c) (Obj.ref cls)) eqn:He; simpl; auto.
  apply Nat.eqb_eq in He.
  rewrite (same_ref_eq l c cls Hnd Hc Hin He). now rewrite Hp.
Qed.

Lemma spared_refl p t : well_formed t -> spared p t t.
Proof. intros H. repeat split; auto; apply H. Qed.

Lemma spared_trans p t0 t1 t2 :
  spared p t0 t1 -> spared p t1 t2 -> spared p t0 t2.
Proof.
  intros (_ & Hk1 & Hd1) (Hw2 & Hk2 & Hd2). repeat split; try apply Hw2.
  - congruence.
  - intros day. now rewrite Hd2, Hd1.
Qed.

Lemma moves_sparing_spec p from l t0 t2 :
  moves_sparing p from l t0 t2 ->
  well_formed t0 -> In from (keys t0) ->
  NoDup (refs l) -> (forall x, In x l -> In x (day_of from t0)) ->
  spared p t0 t2.
Proof.
  induction 1 as [t|cls rest t0 t1 t2 Hstep Hrest IH]; intros Hwf Hfrom Hnd Hin.
  - now apply spared_refl.
  - inversion Hnd as [|? ? Hnotin Hnd']; subst.
    destruct Hstep as [->|(Hp & to & Hne & Hto & ->)].
    + apply IH; auto. intros x Hx. apply Hin. now right.
    + assert (Hcls : In cls (day_of from t0)) by (apply Hin; now left).
      destruct (move_object_spec t0 from to cls)
        as (Hwf1 & Hk1 & _ & Hd1 & Hto1 & Hother); auto.
      eapply spared_trans; [|apply IH; auto].
      * repeat split; try apply Hwf1; auto.
        intros day. destruct (string_dec day from) as [->|Hdf].
        -- rewrite Hd1. apply filter_spared; auto.
           now apply day_refs_NoDup.
        -- destruct (string_dec day to) as [->|Hdt].
           ++ rewrite Hto1, filter_app. simpl. rewrite Hp.
              now rewrite app_nil_r.
           ++ now rewrite Hother.
      * now rewrite Hk1.
      * intros x Hx. rewrite Hd1. apply filter_In. split.
        -- apply Hin. now right.
        -- unfold same_object.
           destruct (Nat.eqb (Obj.ref x) (Obj.ref cls)) eqn:He; auto.
           apply Nat.eqb_eq in He. exfalso. apply Hnotin.
           rewrite <- He. now apply in_map.
Qed.

Lemma moves_from_sparing p from l t0 t2 :
  moves_from from l t0 t2 -> (forall x, In x l -> p x = false) ->
  moves_sparing p from l t0 t2.
Proof.
  induction 1 as [t|cls rest t0 t1 t2 Hstep _ IH]; intros Hp.
  - constructor.
  - econstructor.
    + destruct Hstep as [->|Hmove]; [now left|right].
      split; [apply Hp; now left|exact Hmove].
    + apply IH. intros x Hx. apply Hp. now right.
Qed.

Lemma teacher_fold_sparing day l : forall timetable seen,
  moves_sparing no_teacher_or_marker day l timetable
                (fst (fold_left (teacher_visit day) l (timetable, seen))).
Proof.
  induction l as [|cls rest IH]; intros timetable seen; cbn [fold_left].
  - constructor.
  - assert (Hstep : step_sparing no_teacher_or_marker day timetable cls
                      (fst (teacher_visit day (timetable, seen) cls))).
    { unfold teacher_visit.
      destruct (truthy _ && negb _) eqn:Hsel; [|now left].
      destruct (has_key _ seen); simpl; [|now left].
      destruct (moveClass_step timetable day cls) as [->|Hmove]; [now left|].
      right. split; [|exact Hmove].
      unfold no_teacher_or_marker. now rewrite Hsel. }
    destruct (teacher_visit day (timetable, seen) cls) as [t1 seen1].
    econstructor; [exact Hstep|apply IH].
Qed.

Lemma teacher_days_spared ks : forall st,
  well_formed (fst st) ->
  (forall k, In k ks -> In k (keys (fst st))) ->
  spared no_teacher_or_marker (fst st)
    (fst (fold_left
            (fun st day => fold_left (teacher_visit day) (day_of day (fst st)) st)
            ks st)).
Proof.
  induction ks as [|day rest IH]; intros [timetable seen] Hwf Hin;
    cbn [fold_left fst] in *.
  - now apply spared_refl.
  - assert (H1 : spared no_teacher_or_marker timetable
                  (fst (fold_left (teacher_visit day) (day_of day timetable)
                                  (timetable, seen)))).
    { apply (moves_sparing_spec _ day (day_of day timetable));
        auto using day_refs_NoDup, teacher_fold_sparing.
      apply Hin. now left. }
    eapply spared_trans; [exact H1|].
    apply IH; [apply H1|].
    intros k Hk. destruct H1 as (_ & -> & _). apply Hin. now right.
Qed.

Lemma redistributeClasses_spared timetable fromDay n :
  well_formed timetable -> In fromDay (keys timetable) ->
  spared not_theory timetable (redistributeClasses timetable fromDay n).
Proof.
  intros Hwf Hfrom. unfold redistributeClasses.
  apply (moves_sparing_spec _ fromDay
           (firstn n (filter (fun cls => is_theory (Obj.val cls))
                             (day_of fromDay timetable)))); auto.
  - apply moves_from_sparing.
    + apply redistribute_moves; auto. intros d Hd. now apply other_day_in in Hd.
    + intros x Hx. apply in_firstn in Hx. apply filter_In in Hx as (_ & Hx).
      unfold not_theory. now rewrite Hx.
  - apply refs_firstn_NoDup, refs_filter_NoDup. now apply day_refs_NoDup.
  - intros x Hx. apply in_firstn in Hx. now apply filter_In in Hx as (Hx & _).
Qed.

Lemma balance_days_spared (avg : Q) dayWorkload : forall timetable,
  well_formed timetable ->
  (forall dc, In dc dayWorkload -> In (fst dc) (keys timetable)) ->
  spared not_theory timetable
    (fold_left
       (fun timetable dayCount =>
          let (day, count) := dayCount : string * Z in
          if negb (Qle_bool (inject_Z count) (avg + 1)%Q)
          then redistributeClasses timetable day
                 (Z.to_nat (Qfloor (inject_Z count - avg)%Q))
          else timetable)
       dayWorkload timetable).
Proof.
  induction dayWorkload as [|[day count] rest IH]; intros timetable Hwf Hin;
    cbn [fold_left].
  - now apply spared_refl.
  - assert (Hday : In day (keys timetable)) by (apply (Hin (day, count)); now left).
    destruct (negb _).
    + pose proof (redistributeClasses_spared timetable day
                    (Z.to_nat (Qfloor (inject_Z count - avg)%Q)) Hwf Hday) as H1.
      eapply spared_trans; [exact H1|].
      apply IH; [apply H1|].
      intros dc Hdc. destruct H1 as (_ & -> & _). apply Hin. now right.
    + apply IH; auto. intros dc Hdc. apply Hin. now right.
Qed.

(** X10: resolving teacher conflicts moves only entries that name a teacher
    and are no markers: on every day the markers and the entries without a
    teacher are the same objects, in the same order, before and after. *)
Theorem teacher_pass_spares_the_rest timetable day :
  well_formed timetable ->
  filter no_teacher_or_marker (day_of day (resolveTeacherConflicts timetable))
  = filter no_teacher_or_marker (day_of day timetable).
Proof.
  intros Hwf. unfold resolveTeacherConflicts.
  apply (teacher_days_spared (keys timetable) (timetable, [])); auto.
Qed.

(** X11: balancing the workload moves theory entries only: on every day the
    entries of any other type (labs, breaks, lunch) are the same objects, in
    the same order, before and after. *)
Theorem balancing_moves_theory_only timetable constraints day :
  well_formed timetable ->
  filter not_theory (day_of day (balanceDailyWorkload timetable constraints))
  = filter not_theory (day_of day timetable).
Proof.
  intros Hwf. unfold balanceDailyWorkload.
  apply balance_days_spared; auto.
  intros dc Hdc. apply in_map_iff in Hdc as ([d l] & <- & Hin). simpl.
  apply filter_In in Hin as (Hin & _).
  unfold keys. now apply (in_map fst) in Hin.
Qed.

(** ** Room-conflict resolution, day by day *)

Lemma findAlternativeRoom_choice currentRoom :
  (findAlternativeRoom currentRoom = "Room 202"
   \/ findAlternativeRoom currentRoom = "Room 203")
  /\ currentRoom <> Some (findAlternativeRoom currentRoom).
Proof.
  unfold findAlternativeRoom. cbn [find].
  destruct (opt_eqb (Some "Room 202") currentRoom) eqn:H2; cbn [negb].
  - apply opt_eqb_eq in H2. subst currentRoom. cbn. split; [now right|discriminate].
  - split; [now left|]. intros ->. now rewrite opt_eqb_refl in H2.
Qed.

Lemma room_scan_rerouted day l : forall seen,
  Forall2 rerouted l (fst (room_scan day seen l)).
Proof.
  induction l as [|cls rest IH]; intros seen; cbn [room_scan].
  - constructor.
  - destruct (truthy _ && negb _) eqn:Hsel.
    + destruct (has_key _ seen).
      * specialize (IH seen). destruct (room_scan day seen rest). cbn [fst] in *.
        constructor; auto. right.
        apply andb_true_iff in Hsel as (Hroom & Hmark).
        apply negb_true_iff in Hmark.
        destruct (findAlternativeRoom_choice (Entry.room (Obj.val cls)))
          as (Hr & Hne).
        repeat split; auto.
        exists (findAlternativeRoom (Entry.room (Obj.val cls))). auto.
      * specialize (IH (slot_key day (Entry.time (Obj.val cls))
                                 (Entry.room (Obj.val cls)) :: seen)).
        destruct (room_scan day _ rest). cbn [fst] in *.
        constructor; auto. now left.
    + specialize (IH seen). destruct (room_scan day seen rest). cbn [fst] in *.
      constructor; auto. now left.
Qed.

Lemma room_days_rerouted day timetable : forall seen,
  Forall2 rerouted (day_of day timetable) (day_of day (room_days seen timetable)).
Proof.
  induction timetable as [|[d classes] rest IH]; intros seen.
  - constructor.
  - cbn [room_days].
    pose proof (room_scan_rerouted d classes seen) as Hscan.
    destruct (room_scan d seen classes) as [classes' seen']. cbn [fst] in Hscan.
    unfold day_of in *. cbn [lookup].
    destruct (String.eqb d day); [exact Hscan|apply IH].
Qed.

(** X12: resolving room conflicts moves and drops nothing: every day keeps
    its objects in their order, and an object is either untouched or, being
    an entry with a room and no marker, has its room (and nothing else)
    replaced by Room 202 or Room 203, whichever differs from the room it
    had.  The remaining alternatives of the source, and its Room 201
    fallback, are never chosen. *)
Theorem room_pass_rewrites_rooms_in_place timetable day :
  Forall2 rerouted (day_of day timetable)
                   (day_of day (resolveRoomConflicts timetable)).
Proof. apply room_days_rerouted. Qed.

(** ** Markers through the optimizer *)

Lemma day_of_contents day timetable :
  day_of day (contents timetable) = map Obj.val (day_of day timetable).
Proof.
  unfold day_of, contents.
  induction timetable as [|[d classes] rest IH]; cbn [map lookup fst snd]; auto.
  destruct (String.eqb d day); auto.
Qed.

Lemma filter_map_val (p : Entry.t -> bool) l :
  filter p (map Obj.val l) = map Obj.val (filter (fun o => p (Obj.val o)) l).
Proof.
  induction l as [|o rest IH]; simpl; auto.
  destruct (p (Obj.val o)); simpl; now rewrite IH.
Qed.

Lemma filter_absorb {A} (p q : A -> bool) l :
  (forall x, In x l -> q x = true -> p x = true) ->
  filter q (filter p l) = filter q l.
Proof.
  intros H. rewrite filter_filter. apply filter_ext_in. intros x Hx.
  destruct (q x) eqn:Hq; [|now rewrite andb_false_r].
  now rewrite (H x Hx Hq).
Qed.

Lemma filter_weaken {A} (p q : A -> bool) a b :
  (forall x, In x a -> q x = true -> p x = true) ->
  (forall x, In x b -> q x = true -> p x = true) ->
  filter p a = filter p b -> filter q a = filter q b.
Proof.
  intros Ha Hb H.
  rewrite <- (filter_absorb p q a Ha), <- (filter_absorb p q b Hb).
  now rewrite H.
Qed.

Lemma rerouted_markers l l' :
  Forall2 rerouted l l' -> filter marker_object l' = filter marker_object l.
Proof.
  induction 1 as [|o o' l l' Ho _ IH]; simpl; auto.
  destruct Ho as [->|(_ & Hm & r & _ & _ & ->)].
  - now rewrite IH.
  - assert (Hm' : marker_object
                    (Obj.mk (Obj.ref o) (Entry.set_room r (Obj.val o))) = false)
      by exact Hm.
    assert (Hm0 : marker_object o = false) by exact Hm.
    now rewrite Hm', Hm0.
Qed.

Lemma flags_agree_stable : stable (fun l => forallb flags_agree l = true).
Proof.
  split.
  - intros a b Hab Ha. apply forallb_forall. intros x Hx.
    rewrite forallb_forall in Ha. apply Ha.
    eapply Permutation_in; [symmetry; exact Hab|exact Hx].
  - intros a b Hab. induction Hab as [|e e' a b He _ IH]; simpl; auto.
    intros H. apply andb_true_iff in H as (He1 & Hrest).
    rewrite IH by exact Hrest. rewrite andb_true_r.
    destruct He as [->|(r & ->)]; exact He1.
Qed.

Lemma day_in_elements {V} day (obj : list (string * list V)) x :
  In x (day_of day obj) -> In x (elements obj).
Proof.
  unfold day_of. destruct (lookup day obj) as [l|] eqn:Hl; [|intros []].
  apply (in_day_elements day l obj x Hl).
Qed.

Lemma optimizer_markers timetable constraints day :
  NoDup (keys timetable) ->
  forallb flags_agree (elements timetable) = true ->
  filter is_marker (day_of day (contents (optimizeTimetable timetable constraints)))
  = filter is_marker (day_of day timetable).
Proof.
  intros Hnd Hflags. unfold optimizeTimetable.
  pose proof (deep_copy_well_formed timetable Hnd) as Hw0.
  set (t0 := deep_copy 0 timetable) in *.
  pose proof (resolveTeacherConflicts_rearranged _ Hw0) as (Hw1 & _ & Hp1).
  pose proof (teacher_days_spared (keys t0) (t0, []) Hw0 (fun k H => H))
    as (_ & _ & Hs1).
  fold (resolveTeacherConflicts t0) in Hs1. cbn [fst] in Hs1.
  set (t1 := resolveTeacherConflicts t0) in *.
  pose proof (resolveRoomConflicts_spec _ Hw1) as (Hw2 & _ & Hf2).
  pose proof (room_days_rerouted day t1 []) as Hr2.
  fold (resolveRoomConflicts t1) in Hr2.
  set (t2 := resolveRoomConflicts t1) in *.
  pose proof (balanceDailyWorkload_rearranged _ constraints Hw2) as (_ & _ & Hp3).
  assert (Hs3 : spared not_theory t2 (balanceDailyWorkload t2 constraints)).
  { unfold balanceDailyWorkload. apply balance_days_spared; auto.
    intros dc Hdc. apply in_map_iff in Hdc as ([d l] & <- & Hin). simpl.
    apply filter_In in Hin as (Hin & _).
    unfold keys. now apply (in_map fst) in Hin. }
  destruct Hs3 as (_ & _ & Hs3).
  set (t3 := balanceDailyWorkload t2 constraints) in *.
  assert (Hflags2 : forallb flags_agree (map Obj.val (elements t2)) = true).
  { destruct flags_agree_stable as (Hperm & Hroom).
    eapply Hroom; [apply reroomed_vals; exact Hf2|].
    eapply Hperm; [symmetry; apply Permutation_map; exact Hp1|].
    rewrite <- elements_contents. unfold t0. now rewrite deep_copy_contents. }
  assert (Hmt : forall t, Permutation (elements t) (elements t2) ->
                forall x, In x (day_of day t) ->
                marker_object x = true -> not_theory x = true).
  { intros t Hperm x Hx Hm. apply day_in_elements in Hx.
    apply (Permutation_in _ Hperm) in Hx.
    rewrite forallb_forall in Hflags2.
    specialize (Hflags2 (Obj.val x) (in_map _ _ _ Hx)).
    unfold flags_agree in Hflags2. unfold marker_object in Hm.
    unfold not_theory. rewrite Hm, andb_true_r in Hflags2. exact Hflags2. }
  rewrite day_of_contents, filter_map_val.
  fold marker_object.
  rewrite (filter_weaken not_theory marker_object _ (day_of day t2));
    [| apply Hmt; exact Hp3 | apply Hmt; reflexivity | apply Hs3].
  rewrite (rerouted_markers _ _ Hr2).
  rewrite (filter_weaken no_teacher_or_marker marker_object _ (day_of day t0));
    [| | | apply Hs1].
  - unfold marker_object. rewrite <- filter_map_val, <- day_of_contents.
    unfold t0. now rewrite deep_copy_contents.
  - intros x _ Hm. unfold no_teacher_or_marker. unfold marker_object in Hm.
    rewrite Hm. cbn. now rewrite andb_false_r.
  - intros x _ Hm. unfold no_teacher_or_marker. unfold marker_object in Hm.
    rewrite Hm. cbn. now rewrite andb_false_r.
Qed.

(** X13: the optimizer leaves every break and lunch marker on the day it was
    on, whatever happens to the sessions around it: on a grid with distinct
    day keys, in which no theory entry is flagged as a marker, the markers
    of each day are the same, in the same order, before and after. *)
Theorem optimizer_leaves_markers_in_place timetable constraints day :
  NoDup (keys timetable) ->
  forallb flags_agree (elements timetable) = true ->
  filter is_marker (day_of day (contents (optimizeTimetable timetable constraints)))
  = filter is_marker (day_of day timetable).
Proof. apply optimizer_markers. Qed.

(** ** Markers of the returned grid *)

Lemma construct_no_markers h sectionData constraints w u w' :
  construct h sectionData constraints w = Ok u w' ->
  Forall (fun e => is_marker e = false) (elements (grid w')).
Proof.
  apply (construct_invariant
           (fun g => Forall (fun e => is_marker e = false) (elements g))).
  - constructor.
  - intros g g' (day & l & s & room & course & _ & Hl & _ & _ & ->) Hg.
    eapply Permutation_Forall; [symmetry; apply elements_push; exact Hl|].
    constructor; auto.
  - intros g g' (day & l & s & room & course & _ & Hl & _ & _ & ->) Hg.
    eapply Permutation_Forall; [symmetry; apply elements_push; exact Hl|].
    constructor; auto.
Qed.

Lemma marker_type_not_theory e : marker_type e = true -> is_theory e = false.
Proof.
  unfold marker_type, is_theory. intros H.
  apply orb_true_iff in H as [H|H]; apply String.eqb_eq in H; now rewrite H.
Qed.

Lemma day_of_absent {V} day (obj : list (string * list V)) :
  ~ In day (keys obj) -> day_of day obj = [].
Proof.
  intros H. unfold day_of. destruct (lookup day obj) eqn:Hl; auto.
  apply lookup_in_keys in Hl. contradiction.
Qed.

Lemma filter_none_length {A} (p : A -> bool) l :
  Forall (fun x => p x = false) l -> length (filter p l) = O.
Proof.
  induction 1 as [|x rest Hx _ IH]; simpl; auto. now rewrite Hx.
Qed.

(** X14: the markers of the grid that [generateTimetable] returns are those
    that break and lunch injection wrote, each on the day it was written
    to, although the optimizer may have moved the sessions they separated;
    and no day of the returned grid holds two lunch markers. *)
Theorem returned_markers_are_those_injected h sectionData overrides w g w' :
  generateTimetable h sectionData overrides w = Ok g w' ->
  forall day,
    filter is_marker (day_of day (Generated.days g))
    = filter is_marker (day_of day (grid w'))
    /\ (length (filter Entry.isLunch (day_of day (Generated.days g))) <= 1)%nat.
Proof.
  intros H day.
  apply generateTimetable_Ok in H as (w1 & Hc & Hb & Hdays & _).
  pose proof (construct_keys _ _ _ _ _ _ Hc) as Hk1.
  pose proof (construct_no_markers _ _ _ _ _ _ Hc) as Hplain.
  assert (Hnd1 : NoDup (keys (grid w1))) by (rewrite Hk1; apply week_NoDup).
  pose proof (addBreaksAndLunch_injected _ _ _ _ Hnd1 Hb) as (_ & ms & Hperm & Hms).
  apply addBreaksAndLunch_Ok in Hb as (Hk & _ & _ & Hday); auto.
  assert (Hnd : NoDup (keys (grid w'))) by (now rewrite Hk).
  assert (Hflags : forallb flags_agree (elements (grid w')) = true).
  { apply forallb_forall. intros e He.
    apply (Permutation_in _ Hperm) in He. apply in_app_iff in He as [He|He].
    - rewrite Forall_forall in Hplain. unfold flags_agree.
      now rewrite (Hplain e He), andb_false_r.
    - rewrite Forall_forall in Hms. unfold flags_agree.
      now rewrite (marker_type_not_theory e (Hms e He)). }
  assert (Hmark : filter is_marker (day_of day (Generated.days g))
                  = filter is_marker (day_of day (grid w'))).
  { rewrite Hdays. now apply optimizer_markers. }
  split; [exact Hmark|].
  assert (Hsub : forall l, filter Entry.isLunch (filter is_marker l)
                           = filter Entry.isLunch l).
  { intros l. apply filter_absorb. intros x _ Hx. unfold is_marker.
    now rewrite Hx, orb_true_r. }
  rewrite <- Hsub, Hmark, Hsub.
  destruct (in_dec string_dec day (keys (grid w1))) as [Hin|Hout].
  - destruct (Hday day Hin) as (l & l' & Hl & Hinj & Hl').
    unfold day_of. rewrite Hl'.
    apply inject_day_adds in Hinj as (bs & lunch & Hp & Hbs & _ & Hlunch).
    rewrite (Permutation_length (filter_perm Entry.isLunch _ _ Hp)).
    rewrite !filter_app, !length_app.
    rewrite (filter_none_length Entry.isLunch l).
    + rewrite (filter_none_length Entry.isLunch bs).
      * destruct Hlunch as [->|(-> & _)]; simpl; lia.
      * eapply Forall_impl; [|exact Hbs]. intros m (a & b & ->). reflexivity.
    + apply Forall_forall. intros e He.
      rewrite Forall_forall in Hplain.
      specialize (Hplain e (in_day_elements day l _ e Hl He)).
      unfold is_marker in Hplain. now apply orb_false_iff in Hplain.
  - rewrite day_of_absent; [simpl; lia|]. now rewrite Hk.
Qed.

(** ** The ceiling through theory placement *)

(** X15: theory placement never takes a day past the daily ceiling: if no
    day of the grid holds more entries than [MAX_CLASSES_PER_DAY] before
    [scheduleTheoryCourses] runs, none does after it. *)
Theorem theory_phase_keeps_ceiling
    h courses rooms timeslots constraints w u w' :
  (forall day l, lookup day (grid w) = Some l ->
     Z.of_nat (length l) <= Constraints.MAX_CLASSES_PER_DAY constraints) ->
  scheduleTheoryCourses h courses rooms timeslots constraints w = Ok u w' ->
  forall day l,
    lookup day (grid w') = Some l ->
    Z.of_nat (length l) <= Constraints.MAX_CLASSES_PER_DAY constraints.
Proof.
  intros Hinit Hrun. unfold scheduleTheoryCourses in Hrun.
  eapply (theory_loop_invariant h rooms constraints
            (fun g => forall day l, lookup day g = Some l ->
               Z.of_nat (length l) <= Constraints.MAX_CLASSES_PER_DAY constraints));
    [|exact Hrun|exact Hinit].
  intros g g' (day & l & s & room & course & _ & Hl & Hlt & _ & ->) Hg day' l'.
  destruct (String.eqb day day') eqn:Hd.
  - apply String.eqb_eq in Hd. subst day'. rewrite lookup_assign_same.
    intros [= <-]. rewrite length_app. simpl. lia.
  - rewrite lookup_assign_other; [apply Hg|].
    intros ->. now rewrite String.eqb_refl in Hd.
Qed.

(** ** Conflict detection and the score *)

Lemma nodup_le {A} (dec : forall a b : A, {a = b} + {a <> b}) l :
  (length (nodup dec l) <= length l)%nat.
Proof.
  induction l as [|x rest IH]; simpl; auto.
  destruct (in_dec dec x rest); simpl; lia.
Qed.

Lemma nodup_all {A} (dec : forall a b : A, {a = b} + {a <> b}) l :
  (length l - length (nodup dec l) = 0)%nat <-> NoDup l.
Proof.
  split.
  - induction l as [|x rest IH]; [constructor|].
    pose proof (nodup_le dec rest) as Hle. cbn [nodup].
    destruct (in_dec dec x rest) as [Hin|Hout]; cbn [length]; intros H.
    + lia.
    + constructor; [exact Hout|]. apply IH. lia.
  - intros H. rewrite (nodup_fixed_point dec H). lia.
Qed.

Lemma repeats_none l : repeats l = O <-> NoDup l.
Proof. apply nodup_all. Qed.

Lemma filter_all {A} (p : A -> bool) l :
  length (filter p l) = length l -> filter p l = l.
Proof.
  induction l as [|x rest IH]; [reflexivity|]. cbn [filter].
  pose proof (filter_length_le p rest) as Hle.
  destruct (p x); cbn [length]; intros H; [|lia].
  f_equal. apply IH. lia.
Qed.

(** Nothing is flagged exactly when no key is inherited and none repeats. *)
Lemma flagged_none l :
  flagged l = O <-> (forall k, In k l -> inherited k = false) /\ NoDup l.
Proof.
  unfold flagged.
  pose proof (nodup_le string_dec (filter (fun k => negb (inherited k)) l)) as H1.
  pose proof (filter_length_le (fun k => negb (inherited k)) l) as H2.
  split.
  - intros H.
    assert (Hf : filter (fun k => negb (inherited k)) l = l)
      by (apply filter_all; lia).
    rewrite Hf in H. split; [|now apply (nodup_all string_dec)].
    intros k Hk. rewrite <- Hf in Hk. apply filter_In in Hk as (_ & Hk).
    now apply negb_true_iff in Hk.
  - intros (Hin & Hnd). rewrite forallb_filter_id.
    + now apply (nodup_all string_dec).
    + apply forallb_forall. intros k Hk. now rewrite (Hin k Hk).
Qed.

Lemma double_bookings_none l : double_bookings l = O <-> NoDup l.
Proof. apply nodup_all. Qed.

(** X16: [detectConflicts] reports nothing exactly when, among the entries
    that name both a teacher and a room, no day_time_teacher key and no
    day_time_room key occurs twice and none of these keys is the name of a
    property that every object inherits (such a key is reported at its
    first occurrence).  On a grid whose day names are not empty and hold no
    ["_"] and whose times hold no ["_"], that is exactly when no
    (day, time, teacher) and no (day, time, room) is booked twice.  Entries
    that lack a teacher or a room are not looked at. *)
Theorem no_conflict_iff_keys_distinct timetable :
  (detectConflicts timetable = []
   <-> NoDup (teacher_keys timetable) /\ NoDup (room_keys timetable)
       /\ forall k, In k (teacher_keys timetable ++ room_keys timetable) ->
                    inherited k = false)
  /\ (plain_labels timetable = true ->
      (detectConflicts timetable = []
       <-> NoDup (teacher_bookings timetable)
           /\ NoDup (room_bookings timetable))).
Proof.
  assert (Hlen : detectConflicts timetable = []
                 <-> flagged (teacher_keys timetable) = O
                     /\ flagged (room_keys timetable) = O).
  { rewrite <- length_zero_iff_nil, detectConflicts_count. lia. }
  split.
  - rewrite Hlen, !flagged_none. split.
    + intros ((Ht & Hnt) & (Hr & Hnr)). repeat apply conj; auto.
      intros k Hk. apply in_app_iff in Hk as [Hk|Hk]; auto.
    + intros (Hnt & Hnr & Hin). repeat apply conj; auto.
      * intros k Hk. apply Hin, in_app_iff. now left.
      * intros k Hk. apply Hin, in_app_iff. now right.
  - intros Hplain. rewrite Hlen.
    unfold teacher_keys, room_keys, teacher_key, room_key.
    rewrite (flagged_bookings timetable Entry.teacher Hplain)
      by (intros de; apply counted_teacher).
    rewrite (flagged_bookings timetable Entry.room Hplain)
      by (intros de; apply counted_room).
    rewrite !double_bookings_none. reflexivity.
Qed.

Lemma counts_extremes (l : list Z) :
  l <> [] ->
  exists most least,
    In most l /\ (forall x, In x l -> x <= most)
    /\ In least l /\ (forall x, In x l -> least <= x).
Proof.
  destruct l as [|a rest]; [contradiction|]. intros _.
  destruct (fold_max_bounds rest a) as (M1 & M2 & M3).
  destruct (fold_min_bounds rest a) as (L1 & L2 & L3).
  exists (fold_left Z.max rest a), (fold_left Z.min rest a).
  repeat apply conj.
  - destruct M3 as [->|M3]; simpl; auto.
  - intros x [<-|Hx]; auto.
  - destruct L3 as [->|L3]; simpl; auto.
  - intros x [<-|Hx]; auto.
Qed.

(** X17: the score of a grid with at least one day key is a number between
    0 and 100, and it is 100 exactly when [detectConflicts] reports nothing
    and every day holds the same number of theory and lab sessions. *)
Theorem score_between_0_and_100 timetable :
  timetable <> [] ->
  exists s,
    calculateTimetableScore timetable = Fin s
    /\ 0 <= s <= 100
    /\ (s = 100 <->
        detectConflicts timetable = []
        /\ forall a b, In a (day_counts timetable) ->
                       In b (day_counts timetable) -> a = b).
Proof.
  intros Hne.
  destruct (counts_extremes (day_counts timetable))
    as (most & least & Hmost & Hub & Hleast & Hlb).
  { unfold day_counts. destruct timetable; [contradiction|discriminate]. }
  unfold calculateTimetableScore, calculateBalanceScore.
  fold (day_counts timetable).
  rewrite (Math_max_greatest _ _ Hmost Hub), (Math_min_least _ _ Hleast Hlb).
  pose proof (Hub least Hleast) as Hspread.
  set (n := Z.of_nat (length (detectConflicts timetable))).
  assert (Hn : 0 <= n) by (unfold n; lia).
  exists (Z.max 0 (100 - n * 10 + (most - least) * -5)).
  split; [reflexivity|]. split; [lia|]. split.
  - intros Hs. assert (n = 0 /\ most = least) as (Hz & Heq) by lia. split.
    + apply length_zero_iff_nil. unfold n in Hz. lia.
    + intros a b Ha Hb.
      pose proof (Hub a Ha). pose proof (Hlb a Ha).
      pose proof (Hub b Hb). pose proof (Hlb b Hb). lia.
  - intros (Hnone & Hsame).
    assert (n = 0) by (unfold n; now rewrite Hnone).
    assert (most = least) by (apply Hsame; auto). lia.
Qed.

(** ** Balancing a grid that needs none *)

Lemma sum_from (l : list Z) : forall a,
  fold_left Z.add l a = a + fold_left Z.add l 0.
Proof.
  induction l as [|x rest IH]; intros a; simpl; [lia|].
  rewrite (IH (a + x)), (IH x). lia.
Qed.

Lemma sum_lower_bound (l : list Z) m :
  (forall x, In x l -> m <= x) ->
  Z.of_nat (length l) * m <= fold_left Z.add l 0.
Proof.
  induction l as [|x rest IH]; intros H; [simpl; lia|].
  cbn [fold_left length]. rewrite sum_from.
  assert (m <= x) by (apply H; now left).
  assert (Z.of_nat (length rest) * m <= fold_left Z.add rest 0)
    by (apply IH; intros y Hy; apply H; now right).
  lia.
Qed.

Lemma fold_left_fixed {A B} (f : A -> B -> A) (l : list B) a :
  (forall x, In x l -> f a x = a) -> fold_left f l a = a.
Proof.
  induction l as [|x rest IH]; intros H; simpl; auto.
  rewrite (H x) by now left. apply IH. intros y Hy. apply H. now right.
Qed.

Lemma balance_even timetable constraints :
  (forall a b, In a timetable -> In b timetable ->
     workload (snd a) <= workload (snd b) + 1) ->
  balanceDailyWorkload timetable constraints = timetable.
Proof.
  intros Heven. unfold balanceDailyWorkload, average.
  set (days := filter settable timetable).
  assert (Hdays : forall dc, In dc days -> In dc timetable).
  { intros dc Hdc. now apply filter_In in Hdc. }
  apply fold_left_fixed.
  intros [day count] Hin.
  apply in_map_iff in Hin as (a & [= <- <-] & Ha).
  rewrite map_map. cbn [snd]. rewrite !length_map.
  destruct (Z.of_nat (length days)) as [|n|n] eqn:Hn;
    [destruct days; [destruct Ha|discriminate]| |lia].
  rewrite above_mean_plus_one.
  pose proof (sum_lower_bound (map (fun dc => workload (snd dc)) days)
                              (workload (snd a) - 1)) as Hsum.
  rewrite length_map, Hn in Hsum.
  destruct (_ <? _) eqn:Hlt; [|reflexivity].
  apply Z.ltb_lt in Hlt. exfalso.
  assert (Hlow : Z.pos n * (workload (snd a) - 1)
                 <= fold_left Z.add
                      (map (fun dc => workload (snd dc)) days) 0).
  { apply Hsum. intros x Hx. apply in_map_iff in Hx as (b & <- & Hb).
    specialize (Heven a b (Hdays a Ha) (Hdays b Hb)). lia. }
  lia.
Qed.

(** X18: balancing leaves alone a grid whose days differ by at most one
    session: when no day holds more than one theory or lab session above
    any other day, [balanceDailyWorkload] returns the grid as it is. *)
Theorem even_grid_is_not_rebalanced timetable constraints :
  (forall a b, In a timetable -> In b timetable ->
     workload (snd a) <= workload (snd b) + 1) ->
  balanceDailyWorkload timetable constraints = timetable.
Proof. apply balance_even. Qed.

(** ** Grids without conflicts pass through unchanged *)

Lemma has_key_false key table :
  inherited key = false -> ~ In key table -> has_key key table = false.
Proof.
  intros Hi H. apply not_true_is_false. intros He.
  apply has_key_true in He as [He|He]; [congruence|contradiction].
Qed.

Lemma NoDup_app_disjoint {A} (a b : list A) :
  NoDup (a ++ b) -> forall x, In x a -> ~ In x b.
Proof.
  induction a as [|y rest IH]; simpl; [tauto|].
  intros H x [->|Hx] Hb; inversion H as [|? ? Hnotin Hnd]; subst.
  - apply Hnotin. apply in_app_iff. now right.
  - now apply (IH Hnd x).
Qed.

Lemma teacher_slots_of_cons day cls rest :
  teacher_slots_of day (cls :: rest)
  = if teacher_visited cls
    then slot_key day (Entry.time (Obj.val cls)) (Entry.teacher (Obj.val cls))
           :: teacher_slots_of day rest
    else teacher_slots_of day rest.
Proof.
  unfold teacher_slots_of. cbn [filter]. now destruct (teacher_visited cls).
Qed.

Lemma room_slots_of_cons day cls rest :
  room_slots_of day (cls :: rest)
  = if room_visited cls
    then slot_key day (Entry.time (Obj.val cls)) (Entry.room (Obj.val cls))
           :: room_slots_of day rest
    else room_slots_of day rest.
Proof.
  unfold room_slots_of. cbn [filter]. now destruct (room_visited cls).
Qed.

Lemma teacher_fold_fresh timetable day l : forall seen,
  (forall k, In k (teacher_slots_of day l) -> inherited k = false) ->
  NoDup (teacher_slots_of day l) ->
  (forall k, In k (teacher_slots_of day l) -> ~ In k seen) ->
  fold_left (teacher_visit day) l (timetable, seen)
  = (timetable, rev (teacher_slots_of day l) ++ seen).
Proof.
  induction l as [|cls rest IH]; intros seen Hown Hnd Hfresh; cbn [fold_left].
  - reflexivity.
  - rewrite teacher_slots_of_cons in *.
    unfold teacher_visit at 2. cbv zeta.
    change (truthy (Entry.teacher (Obj.val cls)) && negb (is_marker (Obj.val cls)))
      with (teacher_visited cls).
    destruct (teacher_visited cls).
    + inversion Hnd as [|? ? Hnotin Hnd']; subst.
      rewrite has_key_false by (first [apply Hown|apply Hfresh]; now left).
      rewrite IH; auto.
      * cbn [rev]. now rewrite <- app_assoc.
      * intros k Hk. apply Hown. now right.
      * intros k Hk [<-|Hs]; [contradiction|].
        apply (Hfresh k); auto. now right.
    + apply IH; auto.
Qed.

Lemma teacher_days_fresh timetable ds : forall seen,
  (forall k, In k (flat_map (fun d => teacher_slots_of d (day_of d timetable)) ds)
             -> inherited k = false) ->
  NoDup (flat_map (fun d => teacher_slots_of d (day_of d timetable)) ds) ->
  (forall k, In k (flat_map (fun d => teacher_slots_of d (day_of d timetable)) ds)
             -> ~ In k seen) ->
  fst (fold_left
         (fun st day => fold_left (teacher_visit day) (day_of day (fst st)) st)
         ds (timetable, seen))
  = timetable.
Proof.
  induction ds as [|d rest IH]; intros seen Hown Hnd Hfresh; cbn [fold_left fst].
  - reflexivity.
  - cbn [flat_map] in Hown, Hnd, Hfresh.
    rewrite teacher_fold_fresh.
    + apply IH; [|now apply NoDup_app_r in Hnd|].
      * intros k Hk. apply Hown, in_app_iff. now right.
      * intros k Hk Hs. apply in_app_iff in Hs as [Hs|Hs].
        -- apply in_rev in Hs. now apply (NoDup_app_disjoint _ _ Hnd k).
        -- apply (Hfresh k); auto. apply in_app_iff. now right.
    + intros k Hk. apply Hown, in_app_iff. now left.
    + now apply NoDup_app_l in Hnd.
    + intros k Hk. apply Hfresh. apply in_app_iff. now left.
Qed.

Lemma lookup_member {V} day (l : V) obj :
  NoDup (keys obj) -> In (day, l) obj -> lookup day obj = Some l.
Proof.
  induction obj as [|[k x] rest IH]; simpl; [tauto|].
  intros Hnd Hin. inversion Hnd as [|? ? Hnotin Hnd']; subst.
  destruct Hin as [[= -> ->]|Hin].
  - now rewrite String.eqb_refl.
  - destruct (String.eqb k day) eqn:Hk; [|auto].
    apply String.eqb_eq in Hk. subst. exfalso. apply Hnotin.
    now apply (in_map fst) in Hin.
Qed.

Lemma flat_map_ext_in {A B} (f g : A -> list B) l :
  (forall x, In x l -> f x = g x) -> flat_map f l = flat_map g l.
Proof.
  induction l as [|x rest IH]; intros H; simpl; auto.
  rewrite (H x) by now left. f_equal. apply IH. intros y Hy. apply H. now right.
Qed.

Lemma teacher_slots_by_day timetable :
  NoDup (keys timetable) ->
  flat_map (fun d => teacher_slots_of d (day_of d timetable)) (keys timetable)
  = teacher_slots timetable.
Proof.
  intros Hnd. unfold keys, teacher_slots. rewrite flat_map_concat_map, map_map.
  rewrite <- flat_map_concat_map. apply flat_map_ext_in.
  intros [d l] Hin. cbn [fst snd]. unfold day_of.
  now rewrite (lookup_member d l timetable Hnd Hin).
Qed.

(** Under day names the keys of a pass are no inherited properties. *)
Lemma slots_own (timetable : Heap) (slots_of : string -> list Obj.t -> list string) :
  (forall day classes k, In k (slots_of day classes) ->
     exists time who, k = slot_key day time who) ->
  forallb is_day_name (keys timetable) = true ->
  forall k, In k (flat_map (fun dc => slots_of (fst dc) (snd dc)) timetable) ->
            inherited k = false.
Proof.
  intros Hshape Hdays k Hk.
  apply in_flat_map in Hk as ([d l] & Hin & Hk). cbn [fst snd] in Hk.
  destruct (Hshape d l k Hk) as (time & who & ->).
  apply slot_key_not_inherited.
  rewrite forallb_forall in Hdays. apply Hdays.
  unfold keys. now apply (in_map fst) in Hin.
Qed.

Lemma teacher_slots_shape day classes k :
  In k (teacher_slots_of day classes) ->
  exists time who, k = slot_key day time who.
Proof.
  unfold teacher_slots_of. intros H.
  apply in_map_iff in H as (o & <- & _). eauto.
Qed.

Lemma room_slots_shape day classes k :
  In k (room_slots_of day classes) ->
  exists time who, k = slot_key day time who.
Proof.
  unfold room_slots_of. intros H.
  apply in_map_iff in H as (o & <- & _). eauto.
Qed.

Lemma teacher_pass_fresh timetable :
  NoDup (keys timetable) ->
  forallb is_day_name (keys timetable) = true ->
  NoDup (teacher_slots timetable) ->
  resolveTeacherConflicts timetable = timetable.
Proof.
  intros Hk Hdays Hnd. unfold resolveTeacherConflicts.
  apply teacher_days_fresh.
  - rewrite teacher_slots_by_day by exact Hk.
    apply (slots_own timetable teacher_slots_of), Hdays.
    apply teacher_slots_shape.
  - now rewrite teacher_slots_by_day.
  - intros k _ [].
Qed.

(** X19: a grid whose day names are not empty and hold no ["_"], and in
    which no day_time_teacher key occurs twice among the entries that name
    a teacher and are no markers, comes out of [resolveTeacherConflicts] as
    it went in.  (With an empty day name a key can be the name of a
    property every object inherits, and its entry is moved at first
    sight.) *)
Theorem no_teacher_clash_no_move timetable :
  NoDup (keys timetable) ->
  forallb is_day_name (keys timetable) = true ->
  NoDup (teacher_slots timetable) ->
  resolveTeacherConflicts timetable = timetable.
Proof. apply teacher_pass_fresh. Qed.

Lemma room_scan_fresh day l : forall seen,
  (forall k, In k (room_slots_of day l) -> inherited k = false) ->
  NoDup (room_slots_of day l) ->
  (forall k, In k (room_slots_of day l) -> ~ In k seen) ->
  room_scan day seen l = (l, rev (room_slots_of day l) ++ seen).
Proof.
  induction l as [|cls rest IH]; intros seen Hown Hnd Hfresh; cbn [room_scan].
  - reflexivity.
  - rewrite room_slots_of_cons in *. cbv zeta.
    change (truthy (Entry.room (Obj.val cls)) && negb (is_marker (Obj.val cls)))
      with (room_visited cls).
    destruct (room_visited cls).
    + inversion Hnd as [|? ? Hnotin Hnd']; subst.
      rewrite has_key_false by (first [apply Hown|apply Hfresh]; now left).
      rewrite IH; auto.
      * cbn [rev]. now rewrite <- app_assoc.
      * intros k Hk. apply Hown. now right.
      * intros k Hk [<-|Hs]; [contradiction|].
        apply (Hfresh k); auto. now right.
    + rewrite IH; auto.
Qed.

Lemma room_days_fresh timetable : forall seen,
  (forall k, In k (room_slots timetable) -> inherited k = false) ->
  NoDup (room_slots timetable) ->
  (forall k, In k (room_slots timetable) -> ~ In k seen) ->
  room_days seen timetable = timetable.
Proof.
  induction timetable as [|[day classes] rest IH]; intros seen Hown Hnd Hfresh;
    cbn [room_days].
  - reflexivity.
  - unfold room_slots in *. cbn [flat_map fst snd] in Hown, Hnd, Hfresh.
    rewrite room_scan_fresh.
    + f_equal. apply IH; [|now apply NoDup_app_r in Hnd|].
      * intros k Hk. apply Hown, in_app_iff. now right.
      * intros k Hk Hs. apply in_app_iff in Hs as [Hs|Hs].
        -- apply in_rev in Hs. now apply (NoDup_app_disjoint _ _ Hnd k).
        -- apply (Hfresh k); auto. apply in_app_iff. now right.
    + intros k Hk. apply Hown, in_app_iff. now left.
    + now apply NoDup_app_l in Hnd.
    + intros k Hk. apply Hfresh. apply in_app_iff. now left.
Qed.

Lemma room_pass_fresh timetable :
  forallb is_day_name (keys timetable) = true ->
  NoDup (room_slots timetable) ->
  resolveRoomConflicts timetable = timetable.
Proof.
  intros Hdays Hnd. unfold resolveRoomConflicts. apply room_days_fresh; auto.
  apply (slots_own timetable room_slots_of), Hdays. apply room_slots_shape.
Qed.

(** X20: a grid whose day names are not empty and hold no ["_"], and in
    which no day_time_room key occurs twice among the entries that name a
    room and are no markers, comes out of [resolveRoomConflicts] as it went
    in. *)
Theorem no_room_clash_no_change timetable :
  forallb is_day_name (keys timetable) = true ->
  NoDup (room_slots timetable) ->
  resolveRoomConflicts timetable = timetable.
Proof. apply room_pass_fresh. Qed.

(** X27: the optimizer hands back a copy of a grid that needs no repair:
    when its day keys are distinct names (not empty, without ["_"]), no
    day_time_teacher key and no day_time_room key occurs twice among its
    sessions, and no day holds more than one session above any other, the
    optimized grid is the grid that went in. *)
Theorem sound_grid_is_returned_as_it_is timetable constraints :
  NoDup (keys timetable) ->
  forallb is_day_name (keys timetable) = true ->
  NoDup (teacher_slots (deep_copy 0 timetable)) ->
  NoDup (room_slots (deep_copy 0 timetable)) ->
  (forall a b,
     In a (deep_copy 0 timetable) -> In b (deep_copy 0 timetable) ->
     workload (snd a) <= workload (snd b) + 1) ->
  contents (optimizeTimetable timetable constraints) = timetable.
Proof.
  intros Hk Hdays Ht Hr Heven. unfold optimizeTimetable.
  rewrite teacher_pass_fresh;
    [|now rewrite deep_copy_keys|now rewrite deep_copy_keys|exact Ht].
  rewrite room_pass_fresh; [|now rewrite deep_copy_keys|exact Hr].
  rewrite balance_even by exact Heven.
  apply deep_copy_contents.
Qed.

(** ** Where a conflicting class is moved *)

(** X21: [moveClassToResolveConflict] moves the class to the first other
    day, in key order, that holds no entry with its time and its teacher:
    the class is appended there and removed from its own day, and every
    further day is as it was.  When every other day holds such an entry the
    grid is returned unchanged, the class staying where it clashes. *)
Theorem class_moves_to_first_clash_free_day timetable day cls :
  well_formed timetable ->
  In day (keys timetable) ->
  In cls (day_of day timetable) ->
  let moved := moveClassToResolveConflict timetable day cls in
  (moved = timetable
   /\ forall d, In d (keys timetable) -> d <> day ->
        existsb (clashes_with cls) (day_of d timetable) = true)
  \/ (exists before to after,
        filter (not_day day) (keys timetable) = before ++ to :: after
        /\ (forall d, In d before ->
              existsb (clashes_with cls) (day_of d timetable) = true)
        /\ existsb (clashes_with cls) (day_of to timetable) = false
        /\ day_of to moved = day_of to timetable ++ [cls]
        /\ day_of day moved
           = filter (fun c => negb (same_object c cls)) (day_of day timetable)
        /\ forall d, d <> day -> d <> to ->
             day_of d moved = day_of d timetable).
Proof.
  intros Hwf Hday Hcls moved. subst moved.
  unfold moveClassToResolveConflict. fold (clashes_with cls).
  destruct (find _ _) as [to|] eqn:Hfind.
  - right. destruct (find_first _ _ _ Hfind) as (before & after & Heq & Hb & Hto).
    assert (Hin : In to (filter (not_day day) (keys timetable)))
      by (rewrite Heq; apply in_elt).
    apply other_day_in in Hin as (Hne & Hin).
    destruct (move_object_spec timetable day to cls)
      as (_ & _ & _ & Hfrom & Hpush & Hother); auto.
    exists before, to, after. repeat apply conj; auto.
    + intros d Hd. specialize (Hb d Hd). now apply negb_false_iff in Hb.
    + now apply negb_true_iff in Hto.
  - left. split; [reflexivity|]. intros d Hd Hne.
    assert (Hin : In d (filter (not_day day) (keys timetable))).
    { apply filter_In. split; [exact Hd|]. unfold not_day.
      apply negb_true_iff. now apply String.eqb_neq. }
    pose proof (find_none _ _ Hfind d Hin) as Hc.
    now apply negb_false_iff in Hc.
Qed.

(** ** How many random numbers a run draws *)

Lemma findSuitableRoom_draws h rooms course w s w' :
  findSuitableRoom h rooms course w = Ok s w' ->
  (draws w <= draws w' <= S (draws w))%nat.
Proof.
  unfold findSuitableRoom. destruct (filter (suitable course) rooms).
  - intros [= _ <-]. lia.
  - intros H. apply bind_Ok in H as (i & w1 & Hi & H).
    apply random_index_Ok in Hi as (_ & Hd & _).
    apply name_at_Ok in H as (-> & _). lia.
Qed.

Lemma findLabRoom_draws h rooms course w s w' :
  findLabRoom h rooms course w = Ok s w' ->
  (draws w <= draws w' <= S (draws w))%nat.
Proof.
  unfold findLabRoom. destruct (filter is_lab_room rooms).
  - intros [= _ <-]. lia.
  - intros H. apply bind_Ok in H as (i & w1 & Hi & H).
    apply random_index_Ok in Hi as (_ & Hd & _).
    apply name_at_Ok in H as (-> & _). lia.
Qed.

Lemma canScheduleCourse_draws h day slot course rooms constraints w b w' :
  canScheduleCourse h day slot course rooms constraints w = Ok b w' ->
  (draws w <= draws w' <= S (draws w))%nat.
Proof.
  unfold canScheduleCourse. intros H.
  apply bind_Ok in H as (l & w1 & Hget & H).
  apply get_day_Ok in Hget as (-> & _).
  apply bind_Ok in H as (teacherConflict & w2 & Ht & H).
  apply lift_Ok in Ht as (_ & ->).
  destruct teacherConflict.
  { injection H as _ <-. lia. }
  apply bind_Ok in H as (room & w3 & Hroom & H).
  apply findSuitableRoom_draws in Hroom.
  apply bind_Ok in H as (roomConflict & w4 & Hr & H).
  apply lift_Ok in Hr as (_ & ->).
  destruct roomConflict.
  { injection H as _ <-. exact Hroom. }
  destruct (_ <=? _); injection H as _ <-; exact Hroom.
Qed.

Lemma canScheduleLab_draws h day slot course rooms constraints w b w' :
  canScheduleLab h day slot course rooms constraints w = Ok b w' ->
  (draws w <= draws w' <= S (draws w))%nat.
Proof.
  unfold canScheduleLab. intros H.
  apply bind_Ok in H as (l & w1 & Hget & H).
  apply get_day_Ok in Hget as (-> & _).
  destruct (existsb _ l).
  { injection H as _ <-. lia. }
  apply bind_Ok in H as (labRoom & w2 & Hroom & H).
  apply findLabRoom_draws in Hroom.
  destruct (existsb _ l).
  { injection H as _ <-. exact Hroom. }
  apply bind_Ok in H as (timetable & w3 & Hgrid & H).
  injection Hgrid as _ <-.
  destruct (existsb _ _); injection H as _ <-; exact Hroom.
Qed.

Lemma theory_attempts_draws h budget slots course rooms constraints : forall w b w',
  theory_attempts h budget slots course rooms constraints w = Ok b w' ->
  (draws w <= draws w' <= draws w + 3 * budget + 1)%nat
  /\ (budget <> O -> draws w + 2 <= draws w')%nat.
Proof.
  induction budget as [|budget IH]; intros w b w'; cbn [theory_attempts].
  - intros [= _ <-]. split; [lia|congruence].
  - intros H.
    apply bind_Ok in H as (randomDay & w1 & Hday & H).
    unfold getRandomDay in Hday.
    apply bind_Ok in Hday as (d & w0 & Hd & Hday).
    apply random_index_Ok in Hd as (_ & Hd0 & _).
    injection Hday as _ <-.
    apply bind_Ok in H as (i & w2 & Hi & H).
    apply random_index_Ok in Hi as (_ & Hd1 & _).
    apply bind_Ok in H as (ok & w3 & Hcan & H).
    apply canScheduleCourse_draws in Hcan.
    destruct ok.
    + apply bind_Ok in H as (time & w4 & Htime & H).
      apply lift_Ok in Htime as (_ & ->).
      apply bind_Ok in H as (room & w5 & Hroom & H).
      apply findSuitableRoom_draws in Hroom.
      apply bind_Ok in H as (u & w6 & Hpush & H).
      injection H as _ <-.
      apply push_day_Ok in Hpush as (l' & _ & ->). cbn [draws]. lia.
    + apply IH in H as (Hrest & _). lia.
Qed.

Lemma lab_attempts_draws h budget slots course rooms constraints : forall w b w',
  lab_attempts h budget slots course rooms constraints w = Ok b w' ->
  (draws w <= draws w' <= draws w + 3 * budget + 1)%nat
  /\ (budget <> O -> draws w + 2 <= draws w')%nat.
Proof.
  induction budget as [|budget IH]; intros w b w'; cbn [lab_attempts].
  - intros [= _ <-]. split; [lia|congruence].
  - intros H.
    apply bind_Ok in H as (d & w1 & Hd & H).
    apply random_index_Ok in Hd as (_ & Hd0 & _).
    apply bind_Ok in H as (i & w2 & Hi & H).
    apply random_index_Ok in Hi as (_ & Hd1 & _).
    apply bind_Ok in H as (ok & w3 & Hcan & H).
    apply canScheduleLab_draws in Hcan.
    destruct ok.
    + apply bind_Ok in H as (time & w4 & Htime & H).
      apply lift_Ok in Htime as (_ & ->).
      apply bind_Ok in H as (room & w5 & Hroom & H).
      apply findLabRoom_draws in Hroom.
      apply bind_Ok in H as (u & w6 & Hpush & H).
      injection H as _ <-.
      apply push_day_Ok in Hpush as (l' & _ & ->). cbn [draws]. lia.
    + apply IH in H as (Hrest & _). lia.
Qed.

Lemma theory_loop_draws h slots rooms constraints courses : forall w u w',
  for_of (schedule_one_theory h slots rooms constraints) courses w = Ok u w' ->
  (draws w + 2 * length courses <= draws w'
   <= draws w + 301 * length courses)%nat.
Proof.
  induction courses as [|course rest IH]; intros w u w'; cbn [for_of length].
  - intros [= _ <-]. lia.
  - intros H. apply bind_Ok in H as (u1 & w1 & Hone & H).
    apply IH in H. unfold schedule_one_theory in Hone.
    apply bind_Ok in Hone as (scheduled & w2 & Hatt & Hone).
    apply theory_attempts_draws in Hatt as (Hup & Hlow).
    specialize (Hlow ltac:(discriminate)).
    destruct scheduled; injection Hone as _ <-; cbn [draws] in *; lia.
Qed.

Lemma lab_loop_draws h slots rooms constraints courses : forall w u w',
  for_of (schedule_one_lab h slots rooms constraints) courses w = Ok u w' ->
  (draws w + 2 * length courses <= draws w'
   <= draws w + 151 * length courses)%nat.
Proof.
  induction courses as [|course rest IH]; intros w u w'; cbn [for_of length].
  - intros [= _ <-]. lia.
  - intros H. apply bind_Ok in H as (u1 & w1 & Hone & H).
    apply IH in H. unfold schedule_one_lab in Hone.
    apply bind_Ok in Hone as (scheduled & w2 & Hatt & Hone).
    apply lab_attempts_draws in Hatt as (Hup & Hlow).
    specialize (Hlow ltac:(discriminate)).
    destruct scheduled; injection Hone as _ <-; cbn [draws] in *; lia.
Qed.

(** X22: a run that returns has called [Math.random()] at least twice for
    every theory and lab course and at most 301 times for every theory
    course and 151 times for every lab course: three calls for each of the
    100 (or 50) attempts and one more when the course is placed.  Nothing
    after placement draws. *)
Theorem random_draws_are_bounded h sectionData overrides w g w' :
  generateTimetable h sectionData overrides w = Ok g w' ->
  (draws w + 2 * (length (theory_courses sectionData)
                  + length (lab_courses sectionData))
   <= draws w'
   <= draws w + 301 * length (theory_courses sectionData)
      + 151 * length (lab_courses sectionData))%nat.
Proof.
  intros H. apply generateTimetable_Ok in H as (w1 & Hc & Hb & _).
  pose proof (construct_keys _ _ _ _ _ _ Hc) as Hk1.
  apply addBreaksAndLunch_Ok in Hb as (_ & Hd & _);
    [|rewrite Hk1; apply week_NoDup].
  rewrite Hd. unfold construct in Hc.
  apply bind_Ok in Hc as (u0 & w0 & Hset & Hc).
  injection Hset as _ <-.
  apply bind_Ok in Hc as (u1 & w2 & Htheory & Hlab).
  apply theory_loop_draws in Htheory. apply lab_loop_draws in Hlab.
  cbn [draws] in Htheory. unfold theory_courses, lab_courses. lia.
Qed.

(** ** Differences of clock times *)

Lemma forallb_below (p : nat -> bool) n :
  forallb p (seq 0 n) = true -> forall i, (i < n)%nat -> p i = true.
Proof.
  intros H i Hi. rewrite forallb_forall in H. apply H. apply in_seq. lia.
Qed.

Lemma double_eqb_eq a b : double_eqb a b = true -> a = b.
Proof.
  destruct a as [s|s| |s m e], b as [s'|s'| |s' m' e']; simpl;
    try discriminate; auto.
  - intros H. apply Bool.eqb_prop in H. now subst.
  - intros H. apply Bool.eqb_prop in H. now subst.
  - intros H. apply andb_true_iff in H as (H & He).
    apply andb_true_iff in H as (Hs & Hm).
    apply Bool.eqb_prop in Hs. apply Pos.eqb_eq in Hm. apply Z.eqb_eq in He.
    now subst.
Qed.

Lemma reads_as_eq l a b : reads_as l a b = true -> l = [a; b].
Proof.
  destruct l as [|x [|y [|z rest]]]; simpl; try discriminate.
  intros H. apply andb_true_iff in H as (Hx & Hy).
  now rewrite (double_eqb_eq _ _ Hx), (double_eqb_eq _ _ Hy).
Qed.

(** A clock time splits into its hour and its minute, read exactly. *)
Lemma clock_parts h m :
  (h < 24)%nat -> (m < 60)%nat ->
  map Number (split ":" (clock h m))
  = [double_of_Z (Z.of_nat h); double_of_Z (Z.of_nat m)].
Proof.
  intros Hh Hm.
  assert (H : forallb (fun h => forallb (fun m =>
                reads_as (map Number (split ":" (clock h m)))
                         (double_of_Z (Z.of_nat h)) (double_of_Z (Z.of_nat m)))
                (seq 0 60)) (seq 0 24) = true)
    by (vm_compute; reflexivity).
  apply reads_as_eq.
  exact (forallb_below _ _ (forallb_below _ _ H h Hh) m Hm).
Qed.

(** Subtraction of two numbers below 60 is exact. *)
Lemma sub_below_60 a b :
  (a < 60)%nat -> (b < 60)%nat ->
  double_sub (double_of_Z (Z.of_nat a)) (double_of_Z (Z.of_nat b))
  = double_of_Z (Z.of_nat a - Z.of_nat b).
Proof.
  intros Ha Hb.
  assert (H : forallb (fun a => forallb (fun b =>
                double_eqb
                  (double_sub (double_of_Z (Z.of_nat a)) (double_of_Z (Z.of_nat b)))
                  (double_of_Z (Z.of_nat a - Z.of_nat b)))
                (seq 0 60)) (seq 0 60) = true)
    by (vm_compute; reflexivity).
  apply double_eqb_eq.
  exact (forallb_below _ _ (forallb_below _ _ H a Ha) b Hb).
Qed.

(** Hours to minutes, and minutes on top, are exact within a day. *)
Lemma minutes_of_day i j :
  (i < 47)%nat -> (j < 119)%nat ->
  double_add (double_mul (double_of_Z (Z.of_nat i - 23)) (double_of_Z 60))
             (double_of_Z (Z.of_nat j - 59))
  = double_of_Z ((Z.of_nat i - 23) * 60 + (Z.of_nat j - 59)).
Proof.
  intros Hi Hj.
  assert (H : forallb (fun i => forallb (fun j =>
                double_eqb
                  (double_add
                     (double_mul (double_of_Z (Z.of_nat i - 23)) (double_of_Z 60))
                     (double_of_Z (Z.of_nat j - 59)))
                  (double_of_Z ((Z.of_nat i - 23) * 60 + (Z.of_nat j - 59))))
                (seq 0 119)) (seq 0 47) = true)
    by (vm_compute; reflexivity).
  apply double_eqb_eq.
  exact (forallb_below _ _ (forallb_below _ _ H i Hi) j Hj).
Qed.

(** X23: on clock times, an hour below 24 and a minute below 60 written
    [h:mm], [getTimeDifference] is the number of minutes from the first to
    the second, exactly: the doubles it computes with do not round there.
    (On long digit strings they do.) *)
Theorem clock_difference_is_exact h1 m1 h2 m2 :
  (h1 < 24)%nat -> (m1 < 60)%nat -> (h2 < 24)%nat -> (m2 < 60)%nat ->
  getTimeDifference (Some (clock h1 m1)) (clock h2 m2)
  = inr (double_of_Z ((Z.of_nat h2 - Z.of_nat h1) * 60
                      + (Z.of_nat m2 - Z.of_nat m1))).
Proof.
  intros Hh1 Hm1 Hh2 Hm2. unfold getTimeDifference.
  rewrite (clock_parts h1 m1 Hh1 Hm1), (clock_parts h2 m2 Hh2 Hm2).
  cbn [part nth_error]. f_equal.
  rewrite !sub_below_60 by lia.
  replace (Z.of_nat h2 - Z.of_nat h1) with (Z.of_nat (h2 + 23 - h1) - 23) by lia.
  replace (Z.of_nat m2 - Z.of_nat m1) with (Z.of_nat (m2 + 59 - m1) - 59) by lia.
  apply minutes_of_day; lia.
Qed.

(** ** Rooms, when the selectors have no choice *)

Lemma pushed_no_room_twice g day l e :
  lookup day g = Some l ->
  (forall sc, In sc l -> room_time sc <> room_time e) ->
  no_room_twice g -> no_room_twice (assign day (l ++ [e]) g).
Proof.
  intros Hl Hfree Hg day' l'.
  destruct (String.eqb day day') eqn:Hd.
  - apply String.eqb_eq in Hd. subst day'. rewrite lookup_assign_same.
    intros [= <-]. rewrite map_app. simpl.
    apply NoDup_snoc; [exact (Hg day l Hl)|].
    intros Hin. apply in_map_iff in Hin as (sc & Heq & Hsc).
    now apply (Hfree sc Hsc).
  - rewrite lookup_assign_other; [apply Hg|].
    intros ->. now rewrite String.eqb_refl in Hd.
Qed.

Lemma selectable_single h rooms course a b :
  (length (filter (suitable course) rooms) <= 1)%nat ->
  selectable h rooms course a -> selectable h rooms course b -> a = b.
Proof.
  intros Hlen (w1 & w1' & H1) (w2 & w2' & H2).
  pose proof (room_outcome_single h rooms course w1 w2 Hlen) as Ho.
  rewrite H1, H2 in Ho. now injection Ho.
Qed.

Lemma lab_selectable_single h rooms course a b :
  (length (filter is_lab_room rooms) <= 1)%nat ->
  lab_selectable h rooms course a -> lab_selectable h rooms course b -> a = b.
Proof.
  intros Hlen (w1 & w1' & H1) (w2 & w2' & H2).
  pose proof (lab_room_outcome_single h rooms course w1 w2 Hlen) as Ho.
  rewrite H1, H2 in Ho. now injection Ho.
Qed.

(** X24: the room whose freedom is checked and the room that is assigned
    are two separate draws, so the check protects the assignment only when
    the selector has no choice.  When at most one classroom suits each
    theory course of the catalogue and the catalogue has at most one lab
    room, the constructive phase books no room twice at the same time on a
    day. *)
Theorem single_choice_books_no_room_twice h sectionData constraints w u w' :
  (forall course,
     In course (theory_courses sectionData) ->
     (length (filter (suitable course) (SectionData.rooms sectionData)) <= 1)%nat) ->
  (length (filter is_lab_room (SectionData.rooms sectionData)) <= 1)%nat ->
  construct h sectionData constraints w = Ok u w' ->
  forall day l,
    lookup day (grid w') = Some l -> NoDup (map room_time l).
Proof.
  intros Hone Hlab H. apply construct_runs in H as (g1 & c1 & Ht & Hl).
  change (no_room_twice (grid w')).
  eapply run_of_invariant; [|exact Hl|].
  - intros course a b
      (day & l & s & checked & room & _ & Hday & _ & _ & Hfree & _ & Hc & Hr & ->).
    apply pushed_no_room_twice; auto.
    intros sc Hsc [= Hroom _]. specialize (Hfree sc Hsc).
    rewrite (lab_selectable_single _ _ _ _ _ Hlab Hc Hr) in Hfree.
    rewrite Hroom, opt_eqb_refl in Hfree. discriminate.
  - eapply run_of_invariant_in; [|exact Ht|].
    + intros course a b Hcourse
        (day & l & s & checked & room & _ & Hday & _ & _ & _ & Hfree & Hc & Hr & ->).
      apply pushed_no_room_twice; auto.
      intros sc Hsc [= Hroom Htime]. specialize (Hfree sc Hsc).
      unfold room_clash in Hfree.
      rewrite (selectable_single _ _ _ _ _ (Hone course Hcourse) Hc Hr) in Hfree.
      rewrite Hroom, opt_eqb_refl, Htime, String.eqb_refl in Hfree. discriminate.
    + intros day l Hday.
      assert (l = []) as ->; [|constructor].
      unfold initializeTimetable in Hday. simpl in Hday.
      repeat match type of Hday with
             | (if ?c then _ else _) = _ => destruct c
             end; congruence.
Qed.

(** ** The returned grid *)

(** X25: whatever the catalogue, the grid [generateTimetable] returns has
    the six day keys, Monday to Saturday in that order, and its entries are
    those of the grid left after break and lunch injection, up to the day
    they sit on and the room they are given. *)
Theorem returned_grid_spans_the_week h sectionData overrides w g w' :
  generateTimetable h sectionData overrides w = Ok g w' ->
  keys (Generated.days g) = week
  /\ Permutation (map without_room (elements (Generated.days g)))
                 (map without_room (elements (grid w'))).
Proof.
  intros H. apply generateTimetable_Ok in H as (w1 & Hc & Hb & Hdays & _).
  pose proof (construct_keys _ _ _ _ _ _ Hc) as Hk1.
  apply addBreaksAndLunch_Ok in Hb as (Hk & _); [|rewrite Hk1; apply week_NoDup].
  assert (Hnd : NoDup (keys (grid w'))) by (rewrite Hk, Hk1; apply week_NoDup).
  rewrite Hdays. split.
  - rewrite keys_contents, optimizeTimetable_keys by exact Hnd. congruence.
  - apply (optimizeTimetable_stable
             (fun l => Permutation (map without_room l)
                                   (map without_room (elements (grid w')))));
      [split| exact Hnd | reflexivity].
    + intros a b Hab Ha. rewrite <- Ha. symmetry. now apply Permutation_map.
    + intros a b Hab Ha. rewrite <- Ha.
      assert (map without_room b = map without_room a) as ->; [|reflexivity].
      clear Ha. induction Hab as [|e e' a' b' He _ IH]; simpl; [reflexivity|].
      rewrite IH. f_equal. destruct He as [->|(r & ->)]; reflexivity.
Qed.

(** ** The order injection leaves the sessions in *)

Lemma with_breaks_order l : forall l',
  with_breaks l = inr l' -> filter plain l' = filter plain l.
Proof.
  induction l as [|current rest IH]; intros l'.
  - simpl. now intros [= <-].
  - cbn [with_breaks]. destruct rest as [|next rest'].
    + now intros [= <-].
    + destruct (getTimeDifference _ _) as [e|diff]; [discriminate|].
      destruct (with_breaks (next :: rest')) as [e|updated]; [discriminate|].
      specialize (IH updated eq_refl).
      destruct (exceeds diff _); intros [= <-].
      * cbn [filter]. change (plain (break_entry _ _)) with false.
        cbv iota. cbn [filter] in IH. now rewrite IH.
      * cbn [filter]. cbn [filter] in IH. now rewrite IH.
Qed.

Lemma with_lunch_order l : filter plain (with_lunch l) = filter plain l.
Proof.
  unfold with_lunch. destruct (existsb _ l); [reflexivity|].
  destruct (findIndex _ l) as [i|]; [|reflexivity].
  unfold splice_in. rewrite filter_app. cbn [filter].
  change (plain lunch_entry) with false. cbv iota.
  rewrite <- filter_app. now rewrite firstn_skipn.
Qed.

(** X26: injection interleaves its markers with the sessions and does not
    reorder them: with the break and lunch markers taken out again, the new
    array is the day's array as sorted by start time. *)
Theorem injection_keeps_sorted_order h l l' :
  inject_day h l = inr l' ->
  filter plain l'
  = filter plain
      (sort_by (fun a b => localeCompare h (start_of a) (start_of b)) l).
Proof.
  unfold inject_day.
  destruct (with_breaks _) as [e|updated] eqn:Hb; [discriminate|].
  intros [= <-]. rewrite with_lunch_order. now apply with_breaks_order.
Qed.

(** ** The further properties on sample data *)

Lemma generation_returns_witness :
  slots_cover_courses eleven_lectures_section
  /\ exists g w',
       generateTimetable (host_of eleven_lectures_draws) eleven_lectures_section
                         Constraints.none boot = Ok g w'.
Proof.
  assert (H : slots_cover_courses eleven_lectures_section).
  { split; [right; discriminate|left; reflexivity]. }
  split; [exact H|]. now apply generation_returns.
Defined.

Lemma no_theory_slot_throws_witness :
  generateTimetable (host_of []) no_theory_slot_section Constraints.none boot
  = Throw undefined_slot.
Proof.
  apply no_theory_slot_throws.
  - discriminate.
  - reflexivity.
  - reflexivity.
Defined.

Lemma no_lab_slot_throws_witness :
  generateTimetable (host_of []) no_lab_slot_section Constraints.none boot
  = Throw undefined_slot.
Proof.
  apply no_lab_slot_throws.
  - reflexivity.
  - discriminate.
  - reflexivity.
Defined.

Lemma construction_accounts_witness :
  exists w',
    construct (host_of seven_labs_draws) seven_labs_section this_constraints boot
    = Ok tt w'
    /\ exists theory_in lab_in theory_out lab_out,
         Permutation (theory_courses seven_labs_section)
                     (map fst theory_in ++ theory_out)
         /\ Permutation (lab_courses seven_labs_section)
                        (map fst lab_in ++ lab_out)
         /\ Forall (fun p => theory_entry_of (host_of seven_labs_draws)
                               seven_labs_section (fst p) (snd p)) theory_in
         /\ Forall (fun p => lab_entry_of (host_of seven_labs_draws)
                               seven_labs_section (fst p) (snd p)) lab_in
         /\ console w'
            = console boot ++ map theory_warning theory_out
                ++ map lab_warning lab_out
         /\ Permutation (elements (grid w'))
                        (map snd theory_in ++ map snd lab_in).
Proof.
  eexists. split; [vm_compute; reflexivity|].
  eapply (construction_accounts_for_every_course
            (host_of seven_labs_draws) seven_labs_section this_constraints boot tt).
  vm_compute. reflexivity.
Defined.

Lemma construction_books_no_teacher_twice_witness :
  exists w',
    construct (host_of eleven_lectures_draws) eleven_lectures_section
              this_constraints boot = Ok tt w'
    /\ forall day l,
         lookup day (grid w') = Some l -> NoDup (map teacher_time l).
Proof.
  eexists. split; [vm_compute; reflexivity|].
  eapply (construction_books_no_teacher_twice
            (host_of eleven_lectures_draws) eleven_lectures_section
            this_constraints boot tt).
  vm_compute. reflexivity.
Defined.

Lemma construction_keeps_lab_days_free_witness :
  exists w',
    construct (host_of seven_labs_draws) seven_labs_section this_constraints boot
    = Ok tt w'
    /\ forall day l e,
         lookup day (grid w') = Some l -> In e l -> is_lab e = true ->
         same_teacher e l = [e].
Proof.
  eexists. split; [vm_compute; reflexivity|].
  eapply (construction_keeps_lab_days_free
            (host_of seven_labs_draws) seven_labs_section this_constraints boot tt).
  vm_compute. reflexivity.
Defined.

Lemma returned_entries_come_from_catalogue_witness :
  exists g w',
    generateTimetable (host_of eleven_lectures_draws) eleven_lectures_section
                      Constraints.none boot = Ok g w'
    /\ forall e, In e (elements (Generated.days g)) ->
                 from_catalogue eleven_lectures_section e.
Proof.
  eexists _, _. split; [vm_compute; reflexivity|].
  eapply (returned_entries_come_from_catalogue
            (host_of eleven_lectures_draws) eleven_lectures_section
            Constraints.none boot).
  vm_compute. reflexivity.
Defined.

Lemma injection_only_adds_markers_witness :
  exists l',
    inject_day (host_of []) two_sessions = inr l'
    /\ exists breaks lunch,
         Permutation l' (two_sessions ++ breaks ++ lunch)
         /\ Forall is_break_entry breaks
         /\ (length breaks <= pred (length two_sessions))%nat
         /\ (lunch = [] \/ (lunch = [lunch_entry] /\ two_sessions <> [])).
Proof.
  eexists. split; [vm_compute; reflexivity|].
  apply (injection_only_adds_markers (host_of [])).
  vm_compute. reflexivity.
Defined.

Lemma two_days_NoDup : NoDup ["Monday"; "Tuesday"].
Proof. repeat constructor; simpl; intuition discriminate. Defined.

Lemma optimizer_conserves_entries_witness :
  NoDup (keys double_booked_week)
  /\ keys (optimizeTimetable double_booked_week this_constraints)
     = keys double_booked_week
  /\ Permutation
       (map without_room
            (elements (contents (optimizeTimetable double_booked_week
                                                   this_constraints))))
       (map without_room (elements double_booked_week)).
Proof.
  split; [exact two_days_NoDup|].
  apply optimizer_conserves_entries. exact two_days_NoDup.
Defined.

Lemma double_booked_well_formed : well_formed (deep_copy 0 double_booked_week).
Proof.
  split; [exact two_days_NoDup|].
  vm_compute. repeat constructor; simpl; intuition discriminate.
Defined.

Lemma lopsided_well_formed : well_formed lopsided_week.
Proof.
  split; [apply week_NoDup|].
  vm_compute. repeat constructor; simpl; intuition discriminate.
Defined.

Lemma teacher_pass_spares_the_rest_witness :
  well_formed (deep_copy 0 week_with_markers)
  /\ filter no_teacher_or_marker
       (day_of "Monday" (resolveTeacherConflicts (deep_copy 0 week_with_markers)))
     = filter no_teacher_or_marker
         (day_of "Monday" (deep_copy 0 week_with_markers)).
Proof.
  assert (Hwf : well_formed (deep_copy 0 week_with_markers)).
  { split; [exact two_days_NoDup|].
    vm_compute. repeat constructor; simpl; intuition discriminate. }
  split; [exact Hwf|].
  now apply teacher_pass_spares_the_rest.
Defined.

Lemma balancing_moves_theory_only_witness :
  well_formed lopsided_week
  /\ filter not_theory
       (day_of "Monday" (balanceDailyWorkload lopsided_week this_constraints))
     = filter not_theory (day_of "Monday" lopsided_week).
Proof.
  split; [exact lopsided_well_formed|].
  apply balancing_moves_theory_only. exact lopsided_well_formed.
Defined.

Lemma optimizer_leaves_markers_in_place_witness :
  NoDup (keys week_with_markers)
  /\ forallb flags_agree (elements week_with_markers) = true
  /\ filter is_marker
       (day_of "Monday"
               (contents (optimizeTimetable week_with_markers this_constraints)))
     = filter is_marker (day_of "Monday" week_with_markers).
Proof.
  split; [exact two_days_NoDup|]. split; [reflexivity|].
  apply optimizer_leaves_markers_in_place; [exact two_days_NoDup|reflexivity].
Defined.

Lemma returned_markers_witness :
  exists g w',
    generateTimetable (host_of eleven_lectures_draws) eleven_lectures_section
                      Constraints.none boot = Ok g w'
    /\ forall day,
         filter is_marker (day_of day (Generated.days g))
         = filter is_marker (day_of day (grid w'))
         /\ (length (filter Entry.isLunch (day_of day (Generated.days g))) <= 1)%nat.
Proof.
  eexists _, _. split; [vm_compute; reflexivity|].
  eapply (returned_markers_are_those_injected
            (host_of eleven_lectures_draws) eleven_lectures_section
            Constraints.none boot).
  vm_compute. reflexivity.
Defined.

Lemma monday_taken_below_ceiling day l :
  lookup day (grid monday_taken) = Some l ->
  Z.of_nat (length l) <= Constraints.MAX_CLASSES_PER_DAY this_constraints.
Proof.
  intros H. simpl in H.
  repeat match type of H with
         | (if ?c then _ else _) = _ => destruct c
         end; try discriminate; injection H as <-; vm_compute; discriminate.
Defined.

Lemma theory_phase_keeps_ceiling_witness :
  exists w',
    scheduleTheoryCourses (host_of []) [theory_course "C2" "T2"] [R1]
                          [slot_8; slot_lab] this_constraints monday_taken
    = Ok tt w'
    /\ forall day l,
         lookup day (grid w') = Some l ->
         Z.of_nat (length l) <= Constraints.MAX_CLASSES_PER_DAY this_constraints.
Proof.
  eexists. split; [vm_compute; reflexivity|].
  eapply (theory_phase_keeps_ceiling
            (host_of []) [theory_course "C2" "T2"] [R1] [slot_8; slot_lab]
            this_constraints monday_taken tt).
  - exact monday_taken_below_ceiling.
  - vm_compute. reflexivity.
Defined.

Lemma score_between_0_and_100_witness :
  double_booked_week <> []
  /\ exists s,
       calculateTimetableScore double_booked_week = Fin s
       /\ 0 <= s <= 100
       /\ (s = 100 <->
           detectConflicts double_booked_week = []
           /\ forall a b, In a (day_counts double_booked_week) ->
                          In b (day_counts double_booked_week) -> a = b).
Proof.
  assert (H : double_booked_week <> []) by discriminate.
  split; [exact H|]. now apply score_between_0_and_100.
Defined.

Lemma even_grid_witness :
  (forall a b,
     In a (deep_copy 0 double_booked_week) ->
     In b (deep_copy 0 double_booked_week) ->
     workload (snd a) <= workload (snd b) + 1)
  /\ balanceDailyWorkload (deep_copy 0 double_booked_week) this_constraints
     = deep_copy 0 double_booked_week.
Proof.
  assert (H : forall a b,
             In a (deep_copy 0 double_booked_week) ->
             In b (deep_copy 0 double_booked_week) ->
             workload (snd a) <= workload (snd b) + 1).
  { intros a b [<-|[<-|[]]] [<-|[<-|[]]]; vm_compute; discriminate. }
  split; [exact H|]. now apply even_grid_is_not_rebalanced.
Defined.

Lemma no_teacher_clash_witness :
  NoDup (keys lopsided_week)
  /\ forallb is_day_name (keys lopsided_week) = true
  /\ NoDup (teacher_slots lopsided_week)
  /\ resolveTeacherConflicts lopsided_week = lopsided_week.
Proof.
  assert (H : NoDup (teacher_slots lopsided_week)).
  { vm_compute. repeat constructor; simpl; intuition discriminate. }
  split; [apply week_NoDup|]. split; [reflexivity|]. split; [exact H|].
  apply no_teacher_clash_no_move; [apply week_NoDup|reflexivity|exact H].
Defined.

Lemma no_room_clash_witness :
  forallb is_day_name (keys lopsided_week) = true
  /\ NoDup (room_slots lopsided_week)
  /\ resolveRoomConflicts lopsided_week = lopsided_week.
Proof.
  assert (H : NoDup (room_slots lopsided_week)).
  { vm_compute. repeat constructor; simpl; intuition discriminate. }
  split; [reflexivity|]. split; [exact H|].
  apply no_room_clash_no_change; [reflexivity|exact H].
Defined.

Lemma class_moves_witness :
  let timetable := deep_copy 0 double_booked_week in
  let cls := Obj.mk 1 (theory_entry "8:00-8:40" "R1" (theory_course "C2" "T1")) in
  let moved := moveClassToResolveConflict timetable "Monday" cls in
  well_formed timetable
  /\ In "Monday" (keys timetable)
  /\ In cls (day_of "Monday" timetable)
  /\ ((moved = timetable
       /\ forall d, In d (keys timetable) -> d <> "Monday" ->
            existsb (clashes_with cls) (day_of d timetable) = true)
      \/ (exists before to after,
            filter (not_day "Monday") (keys timetable) = before ++ to :: after
            /\ (forall d, In d before ->
                  existsb (clashes_with cls) (day_of d timetable) = true)
            /\ existsb (clashes_with cls) (day_of to timetable) = false
            /\ day_of to moved = day_of to timetable ++ [cls]
            /\ day_of "Monday" moved
               = filter (fun c => negb (same_object c cls))
                        (day_of "Monday" timetable)
            /\ forall d, d <> "Monday" -> d <> to ->
                 day_of d moved = day_of d timetable)).
Proof.
  intros timetable cls moved.
  assert (H1 : In "Monday" (keys timetable)) by (simpl; auto).
  assert (H2 : In cls (day_of "Monday" timetable)) by (simpl; auto).
  split; [exact double_booked_well_formed|]. split; [exact H1|].
  split; [exact H2|].
  apply (class_moves_to_first_clash_free_day timetable "Monday" cls
           double_booked_well_formed H1 H2).
Defined.

Lemma random_draws_witness :
  exists g w',
    generateTimetable (host_of seven_labs_draws) seven_labs_section
                      Constraints.none boot = Ok g w'
    /\ (draws boot + 2 * (length (theory_courses seven_labs_section)
                          + length (lab_courses seven_labs_section))
        <= draws w'
        <= draws boot + 301 * length (theory_courses seven_labs_section)
           + 151 * length (lab_courses seven_labs_section))%nat.
Proof.
  eexists _, _. split; [vm_compute; reflexivity|].
  eapply (random_draws_are_bounded
            (host_of seven_labs_draws) seven_labs_section Constraints.none boot).
  vm_compute. reflexivity.
Defined.

Lemma clock_difference_witness :
  getTimeDifference (Some "8:40") "10:30" = inr (double_of_Z 110).
Proof.
  apply (clock_difference_is_exact 8 40 10 30); lia.
Defined.

Lemma single_choice_witness :
  (forall course,
     In course (theory_courses two_classrooms_section) ->
     (length (filter (suitable course) (SectionData.rooms two_classrooms_section))
      <= 1)%nat)
  /\ (length (filter is_lab_room (SectionData.rooms two_classrooms_section))
      <= 1)%nat
  /\ exists w',
       construct (host_of []) two_classrooms_section this_constraints boot
       = Ok tt w'
       /\ map (fun e => (Entry.time e, Entry.course e, Entry.room e))
              (elements (grid w'))
          = [("8:00-8:40", "C1", Some "Large");
             ("8:00-8:40", "C3", Some "Small")]
       /\ forall day l,
            lookup day (grid w') = Some l -> NoDup (map room_time l).
Proof.
  assert (H1 : forall course,
             In course (theory_courses two_classrooms_section) ->
             (length (filter (suitable course)
                             (SectionData.rooms two_classrooms_section)) <= 1)%nat).
  { intros course [<-|[<-|[<-|[]]]]; vm_compute; lia. }
  assert (H2 : (length (filter is_lab_room
                               (SectionData.rooms two_classrooms_section)) <= 1)%nat).
  { simpl. lia. }
  split; [exact H1|]. split; [exact H2|].
  eexists. split; [vm_compute; reflexivity|].
  split; [vm_compute; reflexivity|].
  eapply (single_choice_books_no_room_twice
            (host_of []) two_classrooms_section this_constraints boot tt _ H1 H2).
  vm_compute. reflexivity.
Defined.

Lemma returned_grid_spans_the_week_witness :
  exists g w',
    generateTimetable (host_of eleven_lectures_draws) eleven_lectures_section
                      Constraints.none boot = Ok g w'
    /\ keys (Generated.days g) = week
    /\ Permutation (map without_room (elements (Generated.days g)))
                   (map without_room (elements (grid w'))).
Proof.
  eexists _, _. split; [vm_compute; reflexivity|].
  eapply (returned_grid_spans_the_week
            (host_of eleven_lectures_draws) eleven_lectures_section
            Constraints.none boot).
  vm_compute. reflexivity.
Defined.

Lemma injection_keeps_sorted_order_witness :
  exists l',
    inject_day (host_of []) two_sessions = inr l'
    /\ filter plain l'
       = filter plain
           (sort_by (fun a b => localeCompare (host_of []) (start_of a) (start_of b))
                    two_sessions).
Proof.
  eexists. split; [vm_compute; reflexivity|].
  apply (injection_keeps_sorted_order (host_of [])).
  vm_compute. reflexivity.
Defined.

Lemma sound_grid_witness :
  let timetable :=
    [("Monday", [theory_entry "8:00-8:40" "R1" (theory_course "C1" "T1");
                 lunch_entry]);
     ("Tuesday", [theory_entry "8:00-8:40" "R1" (theory_course "C2" "T1")])] in
  NoDup (keys timetable)
  /\ forallb is_day_name (keys timetable) = true
  /\ NoDup (teacher_slots (deep_copy 0 timetable))
  /\ NoDup (room_slots (deep_copy 0 timetable))
  /\ (forall a b,
        In a (deep_copy 0 timetable) -> In b (deep_copy 0 timetable) ->
        workload (snd a) <= workload (snd b) + 1)
  /\ contents (optimizeTimetable timetable this_constraints) = timetable.
Proof.
  intros timetable.
  assert (Ht : NoDup (teacher_slots (deep_copy 0 timetable))).
  { vm_compute. repeat constructor; simpl; intuition discriminate. }
  assert (Hr : NoDup (room_slots (deep_copy 0 timetable))).
  { vm_compute. repeat constructor; simpl; intuition discriminate. }
  assert (He : forall a b,
             In a (deep_copy 0 timetable) -> In b (deep_copy 0 timetable) ->
             workload (snd a) <= workload (snd b) + 1).
  { intros a b [<-|[<-|[]]] [<-|[<-|[]]]; vm_compute; discriminate. }
  split; [exact two_days_NoDup|]. split; [reflexivity|].
  split; [exact Ht|]. split; [exact Hr|]. split; [exact He|].
  exact (sound_grid_is_returned_as_it_is timetable this_constraints
           two_days_NoDup eq_refl Ht Hr He).
Defined.
